(** * Resilient execution engine of the bundler bot

    A shallow embedding of the JavaScript sources

      - [src/utils/logger.js]   (Logger, TransactionMonitor, GasOptimizer,
        and, after the document separator, RetryConfig, CircuitBreaker,
        ErrorHandler, RetryManager, TransactionRetryManager),
      - [src/unnamed/part_000]  (OptimizedBundlerBot), and
      - [src/contracts/MyToken.sol]  (after the token contract and the
        document separator, Config),

    followed by the properties of the specification that were checked
    against them.

    Conventions of the embedding.
      - Integral JavaScript numbers and BigInts are [Z].  The numbers of the
        back-off computation (delays, base, jitter, the random draw) are
        values of an abstract type of doubles: their arithmetic, like the
        case conversions of [String.prototype] and the conversion of a
        string to a number, is a built-in of the engine, taken as a parameter
        ([Js.Engine]), so that every property holds whatever the built-ins
        compute; bounds on delays rest on the monotonicity laws of rounding
        ([Js.Ieee754]) and say so.  The examples are evaluated on the
        engine [Js.reference], with inputs on which it is exact.
      - Strings are [string].
      - [x || d] on an optional numeric setting is [js_or]: an absent or
        zero value selects the default.
      - Everything outside the JavaScript objects themselves (clock, random
        source, timers, chain provider, signer, relay) is an oracle of the
        world the code runs in; asynchronous code runs as a single logical
        task, so an [await] is sequencing.  The one place where two tasks
        are in flight together, the [Promise.all] of the logger, has an
        oracle for the order in which they settle. *)

From stdpp Require Import gmap strings list fin_maps.
From Stdlib Require Import Ascii ZArith QArith Qround Qminmax Qpower Lia Lqa.

Local Open Scope Z_scope.

(** ** JavaScript values used by the sources *)

Module Js.

(** [hay.includes(needle)]. *)
Fixpoint includes (hay needle : string) : bool :=
  (String.prefix needle hay ||
   match hay with
   | EmptyString => false
   | String _ rest => includes rest needle
   end)%bool.

(** [array.slice(start)]: a negative [start] counts from the end. *)
Definition sliceFrom {A} (start : Z) (l : list A) : list A :=
  let len := Z.of_nat (length l) in
  if start <? 0 then drop (Z.to_nat (Z.max (len + start) 0)) l
  else drop (Z.to_nat (Z.min start len)) l.

(** [x || d] for an optional integer setting. *)
Definition js_or (x : option Z) (d : Z) : Z :=
  match x with
  | Some v => if v =? 0 then d else v
  | None => d
  end.

(** The [code] property of an error object: absent, a string or an
    integer. *)
Inductive Code :=
| CodeUndefined
| CodeString (s : string)
| CodeNumber (n : Z).

(** An error object as the handlers read it: [error.message] (a string
    when present) and [error.code]. *)
Record Error := mkError {
  message : option string;
  code : Code
}.

#[global] Instance Code_eq_dec : EqDecision Code.
Proof. solve_decision. Defined.

#[global] Instance Error_eq_dec : EqDecision Error.
Proof. solve_decision. Defined.

(** [new Error(msg)]. *)
Definition newError (msg : string) : Error :=
  {| message := Some msg; code := CodeUndefined |}.

(** What a [throw] carries: an error object, or [undefined] (a variable
    that was never assigned). *)
Inductive Thrown :=
| ThrownError (e : Error)
| ThrownUndefined.

(** Reading [.message] of [undefined]. *)
Definition messageOfUndefined : Error :=
  newError "Cannot read properties of undefined (reading 'message')".

(** What a [catch (error)] block throws when it reads [error.message] for
    its log entry and then rethrows [error]. *)
Definition readsMessage (t : Thrown) : Thrown :=
  match t with
  | ThrownError e => ThrownError e
  | ThrownUndefined => ThrownError messageOfUndefined
  end.

(** The settlement of an awaited promise. *)
Inductive Outcome (A : Type) :=
| Returned (a : A)
| Threw (t : Thrown).
Arguments Returned {A} a.
Arguments Threw {A} t.

(** [code === s]. *)
Definition code_is (c : Code) (s : string) : bool :=
  match c with
  | CodeString s' => String.eqb s' s
  | _ => false
  end.

(** The built-ins of the JavaScript engine that the sources call and that
    this development does not define; every property below holds
    whatever they are.

    Strings: [toLowerCase] and [toUpperCase] are the methods of
    [String.prototype], and [stringAtLeast s n] is [s >= n] for a string
    [s], the comparison after [ToNumber(s)].

    Numbers: [Number] is the type of the Number values (IEEE 754 doubles,
    with NaN and the infinities); [literal q] is the value of the decimal
    literal [q]; [truthy x] tells which way [x || d] goes; [multiply] and
    [add] are the operators [*] and [+]; [mathPow], [mathMin] and
    [mathFloor] are the functions of [Math], the exponent being an
    integer here; [lessEq] is the operator [<=], false whenever NaN is
    compared; [isFinite] is [Number.isFinite]. *)
Class Engine := mkEngine {
  toLowerCase : string -> string;
  toUpperCase : string -> string;
  stringAtLeast : string -> Z -> bool;
  Number : Type;
  Number_eq_dec :: EqDecision Number;
  literal : Q -> Number;
  truthy : Number -> bool;
  multiply : Number -> Number -> Number;
  add : Number -> Number -> Number;
  mathPow : Number -> Z -> Number;
  mathMin : Number -> Number -> Number;
  mathFloor : Number -> Number;
  lessEq : Number -> Number -> bool;
  isFinite : Number -> bool
}.
#[global] Existing Instance Number_eq_dec.

Section WithEngine.
Context `{engine : Engine}.

(** [x || d] for an optional fractional setting. *)
Definition js_orNumber (x : option Number) (d : Number) : Number :=
  match x with
  | Some v => if truthy v then v else d
  | None => d
  end.

(** [code >= n]: [undefined] converts to NaN, for which every comparison
    is false; a string is converted by the engine. *)
Definition code_ge (c : Code) (n : Z) : bool :=
  match c with
  | CodeUndefined => false
  | CodeString s => stringAtLeast s n
  | CodeNumber v => n <=? v
  end.

(** What double arithmetic, rounding to nearest, guarantees about the
    operations of the back-off computation.  [x <= x] says that [x] is
    not NaN.  Products and sums of finite operands may overflow to an
    infinity, which [lessEq] compares like any other value. *)
Record Ieee754 : Prop := mkIeee754 {
  lessEq_trans x y z :
    lessEq x y = true -> lessEq y z = true -> lessEq x z = true;
  lessEq_number_l x y : lessEq x y = true -> lessEq x x = true;
  lessEq_number_r x y : lessEq x y = true -> lessEq y y = true;
  finite_number x : isFinite x = true -> lessEq x x = true;
  finite_zero : isFinite (literal 0) = true;
  finite_one : isFinite (literal 1) = true;
  finite_between x y :
    lessEq (literal 0) x = true -> lessEq x y = true ->
    isFinite y = true -> isFinite x = true;
  mathMin_right x y :
    lessEq x x = true -> lessEq y y = true -> lessEq (mathMin x y) y = true;
  mathMin_nonneg x y :
    lessEq (literal 0) x = true -> lessEq (literal 0) y = true ->
    lessEq (literal 0) (mathMin x y) = true;
  multiply_nonneg x y :
    isFinite x = true -> isFinite y = true ->
    lessEq (literal 0) x = true -> lessEq (literal 0) y = true ->
    lessEq (literal 0) (multiply x y) = true;
  multiply_increasing_l x y z :
    isFinite y = true -> isFinite z = true ->
    lessEq (literal 0) x = true -> lessEq x y = true ->
    lessEq (literal 0) z = true ->
    lessEq (multiply x z) (multiply y z) = true;
  multiply_fraction x r :
    isFinite x = true ->
    lessEq (literal 0) x = true ->
    lessEq (literal 0) r = true -> lessEq r (literal 1) = true ->
    lessEq (multiply x r) x = true;
  add_increasing x y z w :
    isFinite x = true -> isFinite y = true ->
    isFinite z = true -> isFinite w = true ->
    lessEq x y = true -> lessEq z w = true ->
    lessEq (add x z) (add y w) = true;
  add_nonneg x z :
    isFinite x = true -> isFinite z = true ->
    lessEq (literal 0) z = true -> lessEq x (add x z) = true;
  mathFloor_below x : lessEq x x = true -> lessEq (mathFloor x) x = true;
  mathFloor_increasing x y :
    lessEq x y = true -> lessEq (mathFloor x) (mathFloor y) = true
}.

End WithEngine.

(** *** An engine for the examples

    It is exact on the inputs the examples use: ASCII text, codes that
    are spelt as decimal digits or are words that do not denote a number,
    and numbers on which double arithmetic is exact. *)

Definition lower_ascii (c : ascii) : ascii :=
  let n := Ascii.N_of_ascii c in
  if ((65 <=? n)%N && (n <=? 90)%N)%bool
  then Ascii.ascii_of_N (n + 32)%N else c.

Fixpoint asciiLowerCase (s : string) : string :=
  match s with
  | EmptyString => EmptyString
  | String c rest => String (lower_ascii c) (asciiLowerCase rest)
  end.

Definition upper_ascii (c : ascii) : ascii :=
  let n := Ascii.N_of_ascii c in
  if ((97 <=? n)%N && (n <=? 122)%N)%bool
  then Ascii.ascii_of_N (n - 32)%N else c.

Fixpoint asciiUpperCase (s : string) : string :=
  match s with
  | EmptyString => EmptyString
  | String c rest => String (upper_ascii c) (asciiUpperCase rest)
  end.

Definition digit_of (c : ascii) : option Z :=
  let n := Ascii.N_of_ascii c in
  if ((48 <=? n)%N && (n <=? 57)%N)%bool
  then Some (Z.of_N (n - 48)) else None.

Fixpoint digits_value (acc : Z) (s : string) : option Z :=
  match s with
  | EmptyString => Some acc
  | String c rest =>
      match digit_of c with
      | Some d => digits_value (10 * acc + d) rest
      | None => None
      end
  end.

(** The number an optionally signed run of decimal digits denotes; the
    empty string is 0. *)
Definition stringToNumber (s : string) : option Z :=
  match s with
  | EmptyString => Some 0
  | String "-" (String c rest) => Z.opp <$> digits_value 0 (String c rest)
  | String "+" (String c rest) => digits_value 0 (String c rest)
  | _ => digits_value 0 s
  end.

Definition decimalAtLeast (s : string) (n : Z) : bool :=
  match stringToNumber s with
  | Some v => n <=? v
  | None => false
  end.

#[global] Instance Q_eq_dec : EqDecision Q.
Proof. solve_decision. Defined.

Definition reference : Engine :=
  {| toLowerCase := asciiLowerCase;
     toUpperCase := asciiUpperCase;
     stringAtLeast := decimalAtLeast;
     Number := Q;
     literal := fun q => q;
     truthy := fun x => negb (Qeq_bool x 0);
     multiply := Qmult;
     add := Qplus;
     mathPow := Qpower;
     mathMin := Qmin;
     mathFloor := fun x => inject_Z (Qfloor x);
     lessEq := Qle_bool;
     isFinite := fun _ => true |}.

End Js.

(** ** ErrorHandler *)

Inductive ErrorKind :=
| NETWORK_ERROR
| TIMEOUT
| RATE_LIMITED
| SERVER_ERROR
| GAS_ESTIMATION_FAILED
| INSUFFICIENT_FUNDS
| TRANSACTION_REVERTED
| NONCE_TOO_LOW
| GAS_PRICE_TOO_LOW
| CONTRACT_ERROR
| VALIDATION_ERROR
| CONFIGURATION_ERROR
| UNKNOWN_ERROR.

#[global] Instance ErrorKind_eq_dec : EqDecision ErrorKind.
Proof. solve_decision. Defined.

Module ErrorHandler.
Import Js.

Section WithEngine.
Context `{engine : Engine}.

(** [const message = error.message?.toLowerCase() || '']. *)
Definition lowered_message (error : Error) : string :=
  match message error with
  | Some m => toLowerCase m
  | None => ""
  end.

Definition classifyError (error : Error) : ErrorKind :=
  let message := lowered_message error in
  let code := code error in
  if (code_is code "NETWORK_ERROR" || includes message "network"
      || includes message "connection")%bool then NETWORK_ERROR
  else if (code_is code "TIMEOUT" || includes message "timeout")%bool
  then TIMEOUT
  else if (code_is code "RATE_LIMITED" || includes message "rate limit"
           || includes message "too many requests")%bool then RATE_LIMITED
  else if (code_ge code 500 || includes message "server error"
           || includes message "internal error")%bool then SERVER_ERROR
  else if (includes message "gas estimation"
           || includes message "cannot estimate gas")%bool
  then GAS_ESTIMATION_FAILED
  else if (includes message "insufficient funds"
           || includes message "insufficient balance")%bool
  then INSUFFICIENT_FUNDS
  else if (includes message "revert"
           || includes message "execution reverted")%bool
  then TRANSACTION_REVERTED
  else if (includes message "nonce too low"
           || includes message "nonce")%bool then NONCE_TOO_LOW
  else if (includes message "gas price too low"
           || includes message "gas price")%bool then GAS_PRICE_TOO_LOW
  else if (includes message "contract"
           || includes message "call exception")%bool then CONTRACT_ERROR
  else if (includes message "invalid"
           || includes message "validation")%bool then VALIDATION_ERROR
  else UNKNOWN_ERROR.

Definition retryableTypes : list ErrorKind :=
  [NETWORK_ERROR; TIMEOUT; RATE_LIMITED; SERVER_ERROR;
   GAS_ESTIMATION_FAILED; NONCE_TOO_LOW; GAS_PRICE_TOO_LOW].

(** [retryableTypes.includes(errorType)]. *)
Definition isRetryable (errorType : ErrorKind) : bool :=
  bool_decide (errorType ∈ retryableTypes).

(** The analysis [handleError] hands back to the retry loop. *)
Record Analysis := mkAnalysis {
  errorType : ErrorKind;
  analysis_isRetryable : bool
}.

Definition handleError (error : Error) : Analysis :=
  let errorType := classifyError error in
  {| errorType := errorType; analysis_isRetryable := isRetryable errorType |}.

End WithEngine.

End ErrorHandler.

(** ** RetryConfig *)

Module RetryConfig.
Import Js.

Section WithEngine.
Context `{engine : Engine}.

Record Options := mkOptions {
  opt_maxRetries : option Z;
  opt_baseDelay : option Number;
  opt_maxDelay : option Number;
  opt_exponentialBase : option Number;
  opt_jitter : option Number
}.

Record t := mk {
  maxRetries : Z;
  baseDelay : Number;
  maxDelay : Number;
  exponentialBase : Number;
  jitter : Number
}.

Definition new (options : Options) : t :=
  {| maxRetries := js_or (opt_maxRetries options) 3;
     baseDelay := js_orNumber (opt_baseDelay options) (literal 1000);
     maxDelay := js_orNumber (opt_maxDelay options) (literal 30000);
     exponentialBase := js_orNumber (opt_exponentialBase options) (literal 2);
     jitter := js_orNumber (opt_jitter options) (literal (1 # 10)) |}.

(** [this.baseDelay * Math.pow(this.exponentialBase, attempt - 1)]. *)
Definition exponentialDelay (this : t) (attempt : Z) : Number :=
  multiply (baseDelay this) (mathPow (exponentialBase this) (attempt - 1)).

(** [Math.min(exponentialDelay, this.maxDelay)]. *)
Definition cappedDelay (this : t) (attempt : Z) : Number :=
  mathMin (exponentialDelay this attempt) (maxDelay this).

(** [calculateDelay(attempt)], with the value drawn by [Math.random()]
    made explicit. *)
Definition calculateDelay (this : t) (attempt : Z) (random : Number) : Number :=
  let delay := cappedDelay this attempt in
  let jitterAmount := multiply (multiply delay (jitter this)) random in
  mathFloor (add delay jitterAmount).

End WithEngine.

End RetryConfig.

(** ** CircuitBreaker *)

Inductive BreakerState := CLOSED | OPEN | HALF_OPEN.

#[global] Instance BreakerState_eq_dec : EqDecision BreakerState.
Proof. solve_decision. Defined.

Module CircuitBreaker.
Import Js.

Record Options := mkOptions {
  opt_failureThreshold : option Z;
  opt_recoveryTimeout : option Z;
  opt_monitoringPeriod : option Z
}.

Record Failure := mkFailure {
  timestamp : Z;
  error : string
}.

Record t := mk {
  failureThreshold : Z;
  recoveryTimeout : Z;
  monitoringPeriod : Z;
  failureCount : Z;
  lastFailureTime : option Z;
  state : BreakerState;
  failures : list Failure
}.

Definition new (options : Options) : t :=
  {| failureThreshold := js_or (opt_failureThreshold options) 5;
     recoveryTimeout := js_or (opt_recoveryTimeout options) 60000;
     monitoringPeriod := js_or (opt_monitoringPeriod options) 300000;
     failureCount := 0;
     lastFailureTime := None;
     state := CLOSED;
     failures := [] |}.

Definition set_state (s : BreakerState) (this : t) : t :=
  {| failureThreshold := failureThreshold this;
     recoveryTimeout := recoveryTimeout this;
     monitoringPeriod := monitoringPeriod this;
     failureCount := failureCount this;
     lastFailureTime := lastFailureTime this;
     state := s;
     failures := failures this |}.

(** [canExecute()], where [now] is the value of [Date.now()]; a [null]
    [lastFailureTime] converts to 0 in the subtraction. *)
Definition canExecute (now : Z) (this : t) : bool * t :=
  match state this with
  | CLOSED => (true, this)
  | OPEN =>
      if recoveryTimeout this <=? now - default 0 (lastFailureTime this)
      then (true, set_state HALF_OPEN this)
      else (false, this)
  | HALF_OPEN => (true, this)
  end.

Definition onSuccess (this : t) : t :=
  {| failureThreshold := failureThreshold this;
     recoveryTimeout := recoveryTimeout this;
     monitoringPeriod := monitoringPeriod this;
     failureCount := 0;
     lastFailureTime := lastFailureTime this;
     state := CLOSED;
     failures := [] |}.

(** [error.message || 'Unknown error']. *)
Definition failure_text (e : Error) : string :=
  match message e with
  | Some m => if String.eqb m "" then "Unknown error" else m
  | None => "Unknown error"
  end.

(** [onFailure(error)], where [now] is the value of [Date.now()]. *)
Definition onFailure (now : Z) (e : Error) (this : t) : t :=
  let failureCount' := failureCount this + 1 in
  let pushed := failures this ++ [ {| timestamp := now; error := failure_text e |} ] in
  let cutoff := now - monitoringPeriod this in
  {| failureThreshold := failureThreshold this;
     recoveryTimeout := recoveryTimeout this;
     monitoringPeriod := monitoringPeriod this;
     failureCount := failureCount';
     lastFailureTime := Some now;
     state := if failureThreshold this <=? failureCount' then OPEN else state this;
     failures := filter (fun f => cutoff < timestamp f) pushed |}.

(** [RetryManager.resetCircuitBreaker] assigns these three fields. *)
Definition reset (this : t) : t :=
  {| failureThreshold := failureThreshold this;
     recoveryTimeout := recoveryTimeout this;
     monitoringPeriod := monitoringPeriod this;
     failureCount := 0;
     lastFailureTime := lastFailureTime this;
     state := CLOSED;
     failures := [] |}.

End CircuitBreaker.

(** ** The world a retry manager runs in

    [W] is everything outside the manager: the clock behind [Date.now()],
    the source behind [Math.random()], the timers behind [setTimeout], and
    whatever the wrapped operation talks to. *)

Section World.
Context `{engine : Js.Engine}.

Record Runtime (W : Type) := mkRuntime {
  dateNow : W -> Z * W;
  mathRandom : W -> Js.Number * W;
  setTimeout : Js.Number -> W -> W
}.
Arguments dateNow {W} _ _.
Arguments mathRandom {W} _ _.
Arguments setTimeout {W} _ _ _.

(** What a run leaves behind: the logger calls of [executeWithRetry] in
    structured form ([handleError] logs the classified kind with the
    error's message and code and the attempt number), and three markers for
    the calls the properties speak about ([canExecute], [operation],
    [sleep]). *)
Inductive Event :=
| BreakerConsulted (allowed : bool)
| LogExecuting (attempt maxRetries : Z)
| OperationInvoked (attempt : Z)
| LogSucceeded (attempt : Z)
| LogErrorOccurred (kind : ErrorKind) (error : Js.Error) (attempt : Z)
| LogNonRetryable (kind : ErrorKind)
| LogFailedAfter (attempt : Z)
| LogRetrying (attempt : Z) (delay : Js.Number)
| Slept (delay : Js.Number).

#[global] Instance Event_eq_dec : EqDecision Event.
Proof. solve_decision. Defined.

End World.
Arguments dateNow {engine W} _ _.
Arguments mathRandom {engine W} _ _.
Arguments setTimeout {engine W} _ _ _.

(** ** RetryManager *)

Module RetryManager.
Import Js.

Section WithEngine.
Context `{engine : Engine}.

Record t := mk {
  retryConfig : RetryConfig.t;
  circuitBreaker : CircuitBreaker.t
}.

Definition new (retry : RetryConfig.Options)
    (breaker : CircuitBreaker.Options) : t :=
  {| retryConfig := RetryConfig.new retry;
     circuitBreaker := CircuitBreaker.new breaker |}.

(** A manager at work: the object, the world, and the journal. *)
Record Run (W : Type) := mkRun {
  manager : t;
  world : W;
  journal : list Event
}.
Arguments mkRun {W} _ _ _.
Arguments manager {W} _.
Arguments world {W} _.
Arguments journal {W} _.

Section WithWorld.
Context {W : Type} (rt : Runtime W).

Definition emit (e : Event) (r : Run W) : Run W :=
  mkRun (manager r) (world r) (journal r ++ [e]).

Definition set_world (w : W) (r : Run W) : Run W :=
  mkRun (manager r) w (journal r).

Definition set_breaker (cb : CircuitBreaker.t) (r : Run W) : Run W :=
  mkRun {| retryConfig := retryConfig (manager r); circuitBreaker := cb |}
        (world r) (journal r).

(** [this.circuitBreaker.canExecute()], reading the clock. *)
Definition consultBreaker (r : Run W) : bool * Run W :=
  let '(now, w) := dateNow rt (world r) in
  let '(allowed, cb) := CircuitBreaker.canExecute now (circuitBreaker (manager r)) in
  (allowed, emit (BreakerConsulted allowed) (set_breaker cb (set_world w r))).

(** [this.circuitBreaker.onFailure(error)], reading the clock. *)
Definition recordFailure (e : Error) (r : Run W) : Run W :=
  let '(now, w) := dateNow rt (world r) in
  set_breaker (CircuitBreaker.onFailure now e (circuitBreaker (manager r)))
              (set_world w r).

Definition recordSuccess (r : Run W) : Run W :=
  set_breaker (CircuitBreaker.onSuccess (circuitBreaker (manager r))) r.

(** Reading [.message] of [undefined] in [handleError]. *)
Definition typeError : Error := messageOfUndefined.

Definition circuitOpenError : Error :=
  newError "Circuit breaker is OPEN - operation not allowed".

Section WithResult.
Context {A : Type}.

(** The body of
    [for (let attempt = 1; attempt <= maxRetries; attempt++)],
    run over the attempt numbers still [pending]; the empty list is
    the loop exit, followed by [throw lastError]. *)
Fixpoint attempts (operation : W -> Outcome A * W) (pending : list Z)
    (lastError : Thrown) (r : Run W) : Outcome A * Run W :=
  match pending with
  | [] => (Threw lastError, r)
  | attempt :: rest =>
      let maxRetries := RetryConfig.maxRetries (retryConfig (manager r)) in
      let r := emit (LogExecuting attempt maxRetries) r in
      let r := emit (OperationInvoked attempt) r in
      let '(result, w) := operation (world r) in
      let r := set_world w r in
      match result with
      | Returned a =>
          let r := recordSuccess r in
          (Returned a, emit (LogSucceeded attempt) r)
      | Threw ThrownUndefined =>
          (Threw (ThrownError typeError), r)
      | Threw (ThrownError error) =>
          let errorAnalysis := ErrorHandler.handleError error in
          let r :=
            emit (LogErrorOccurred (ErrorHandler.errorType errorAnalysis)
                    error attempt) r in
          let r := recordFailure error r in
          if negb (ErrorHandler.analysis_isRetryable errorAnalysis) then
            (Threw (ThrownError error),
             emit (LogNonRetryable (ErrorHandler.errorType errorAnalysis)) r)
          else if attempt =? maxRetries then
            (Threw (ThrownError error), emit (LogFailedAfter attempt) r)
          else
            let '(random, w) := mathRandom rt (world r) in
            let delay :=
              RetryConfig.calculateDelay (retryConfig (manager r)) attempt random in
            let r := emit (LogRetrying attempt delay) (set_world w r) in
            let r := emit (Slept delay) (set_world (setTimeout rt delay (world r)) r) in
            attempts operation rest (ThrownError error) r
      end
  end.

Definition executeWithRetry (operation : W -> Outcome A * W)
    (r : Run W) : Outcome A * Run W :=
  let '(allowed, r) := consultBreaker r in
  if negb allowed then (Threw (ThrownError circuitOpenError), r)
  else
    attempts operation
      (seqZ 1 (RetryConfig.maxRetries (retryConfig (manager r))))
      ThrownUndefined r.

End WithResult.

Definition resetCircuitBreaker (r : Run W) : Run W :=
  set_breaker (CircuitBreaker.reset (circuitBreaker (manager r))) r.

End WithWorld.

End WithEngine.
Arguments mkRun {engine W} _ _ _.
Arguments manager {engine W} _.
Arguments world {engine W} _.
Arguments journal {engine W} _.

End RetryManager.

(** ** TransactionRetryManager *)

Module TransactionRetryManager.
Import Js.

Section WithEngine.
Context `{engine : Engine}.

Record Config := mkConfig {
  cfg_maxRetries : option Z;
  cfg_baseDelay : option Number;
  cfg_maxDelay : option Number;
  cfg_exponentialBase : option Number;
  cfg_jitter : option Number;
  cfg_failureThreshold : option Z;
  cfg_recoveryTimeout : option Z;
  cfg_monitoringPeriod : option Z
}.

Definition new (config : Config) : RetryManager.t :=
  RetryManager.new
    {| RetryConfig.opt_maxRetries := Some (js_or (cfg_maxRetries config) 5);
       RetryConfig.opt_baseDelay :=
         Some (js_orNumber (cfg_baseDelay config) (literal 2000));
       RetryConfig.opt_maxDelay :=
         Some (js_orNumber (cfg_maxDelay config) (literal 60000));
       RetryConfig.opt_exponentialBase :=
         Some (js_orNumber (cfg_exponentialBase config) (literal 2));
       RetryConfig.opt_jitter :=
         Some (js_orNumber (cfg_jitter config) (literal (2 # 10))) |}
    {| CircuitBreaker.opt_failureThreshold :=
         Some (js_or (cfg_failureThreshold config) 3);
       CircuitBreaker.opt_recoveryTimeout :=
         Some (js_or (cfg_recoveryTimeout config) 120000);
       CircuitBreaker.opt_monitoringPeriod :=
         Some (js_or (cfg_monitoringPeriod config) 600000) |}.

Section WithWorld.
Context {W : Type} (rt : Runtime W) {A : Type}.

Definition executeTransaction (transactionFunction : W -> Outcome A * W) :
    RetryManager.Run W -> Outcome A * RetryManager.Run W :=
  RetryManager.executeWithRetry rt (fun w => transactionFunction w).

Definition executeBundle (bundleFunction : W -> Outcome A * W) :
    RetryManager.Run W -> Outcome A * RetryManager.Run W :=
  RetryManager.executeWithRetry rt (fun w => bundleFunction w).

End WithWorld.

End WithEngine.

End TransactionRetryManager.

(** ** RetryManager.executeWithCircuitBreaker *)

Module CircuitGuard.
Import Js RetryManager.

(** [onFailure(undefined)]: the count and the time are assigned before
    [error.message] is read for the history entry, where the call
    throws. *)
Definition onFailureOfUndefined (now : Z) (this : CircuitBreaker.t) : CircuitBreaker.t :=
  {| CircuitBreaker.failureThreshold := CircuitBreaker.failureThreshold this;
     CircuitBreaker.recoveryTimeout := CircuitBreaker.recoveryTimeout this;
     CircuitBreaker.monitoringPeriod := CircuitBreaker.monitoringPeriod this;
     CircuitBreaker.failureCount := CircuitBreaker.failureCount this + 1;
     CircuitBreaker.lastFailureTime := Some now;
     CircuitBreaker.state := CircuitBreaker.state this;
     CircuitBreaker.failures := CircuitBreaker.failures this |}.

(** The text of [`Circuit breaker is ${state.state} - operation not allowed`]. *)
Definition refusal (s : BreakerState) : Error :=
  newError
    (match s with
     | CLOSED => "Circuit breaker is CLOSED - operation not allowed"
     | OPEN => "Circuit breaker is OPEN - operation not allowed"
     | HALF_OPEN => "Circuit breaker is HALF_OPEN - operation not allowed"
     end).

Section WithWorld.
Context `{engine : Engine} {W : Type} (rt : Runtime W) {A : Type}.

Definition executeWithCircuitBreaker (operation : W -> Outcome A * W)
    (r : Run W) : Outcome A * Run W :=
  let '(allowed, r) := consultBreaker rt r in
  if negb allowed then
    (Threw (ThrownError (refusal (CircuitBreaker.state (circuitBreaker (manager r))))), r)
  else
    let '(result, w) := operation (world r) in
    let r := set_world w r in
    match result with
    | Returned a => (Returned a, recordSuccess r)
    | Threw (ThrownError error) =>
        (Threw (ThrownError error), recordFailure rt error r)
    | Threw ThrownUndefined =>
        let '(now, w) := dateNow rt (world r) in
        (Threw (ThrownError messageOfUndefined),
         set_breaker (onFailureOfUndefined now (circuitBreaker (manager r)))
                     (set_world w r))
    end.

End WithWorld.

End CircuitGuard.

(** ** GasOptimizer *)

Module GasOptimizer.
Import Js.

(** The part of [config.getNetworkConfig()] that the estimator reads.
    Its values are parameters here ([Configuration] below is the class
    that supplies them); [gasMultiplierX100] stands for
    [BigInt(Math.floor(networkConfig.gasMultiplier * 100))]. *)
Record NetworkConfig := mkNetworkConfig {
  gasMultiplierX100 : Z;
  minGasPrice : Z;
  maxGasPrice : Z
}.

(** [provider.getFeeData()]: [gasPrice] is a BigInt or [null]. *)
Record FeeData := mkFeeData {
  feeGasPrice : option Z
}.

Record HistoryEntry := mkHistoryEntry {
  entryTimestamp : Z;
  entryGasPrice : Z;
  entryBaseFee : Z
}.

Record t := mk {
  gasHistory : list HistoryEntry;
  maxHistorySize : Z
}.

Definition new : t := {| gasHistory := []; maxHistorySize := 100 |}.

(** [gasPrice * BigInt(...) / 100n]; BigInt division truncates. *)
Definition applyMultiplier (networkConfig : NetworkConfig) (gasPrice : Z) : Z :=
  Z.quot (gasPrice * gasMultiplierX100 networkConfig) 100.

(** The two-sided bound check of [estimateOptimalGasPrice]. *)
Definition ensureWithinBounds (networkConfig : NetworkConfig) (gasPrice : Z) : Z :=
  if gasPrice <? minGasPrice networkConfig then minGasPrice networkConfig
  else if maxGasPrice networkConfig <? gasPrice then maxGasPrice networkConfig
  else gasPrice.

(** [this.gasHistory.slice(-this.maxHistorySize)] when the history grew
    past the bound. *)
Definition trimHistory (this : t) (history : list HistoryEntry) : list HistoryEntry :=
  if maxHistorySize this <? Z.of_nat (length history)
  then sliceFrom (- maxHistorySize this) history
  else history.

Definition mixTypeError : Error :=
  newError "Cannot mix BigInt and other types, use explicit conversions".

(** [estimateOptimalGasPrice(provider)], given the settlement of
    [provider.getFeeData()] and the clock reading taken for the history
    entry.  The [catch] block logs and rethrows. *)
Definition estimateOptimalGasPrice (networkConfig : NetworkConfig)
    (fetched : Outcome FeeData) (now : Z) (this : t) : Outcome Z * t :=
  match fetched with
  | Threw error => (Threw (readsMessage error), this)
  | Returned feeData =>
      match feeGasPrice feeData with
      | None => (Threw (ThrownError mixTypeError), this)
      | Some quote =>
          let gasPrice :=
            ensureWithinBounds networkConfig (applyMultiplier networkConfig quote) in
          let pushed :=
            gasHistory this ++
            [ {| entryTimestamp := now; entryGasPrice := gasPrice;
                 entryBaseFee := quote |} ] in
          (Returned gasPrice,
           {| gasHistory := trimHistory this pushed;
              maxHistorySize := maxHistorySize this |})
      end
  end.

(** [estimateGasLimit(provider, transaction)], given the settlement of
    [provider.estimateGas(transaction)]; [buffer] is
    [BigInt(this.config.performance.gasEstimationBuffer)].  The [catch]
    block logs and rethrows. *)
Definition estimateGasLimit (buffer : Z) (estimated : Outcome Z) : Outcome Z :=
  match estimated with
  | Returned estimatedGas => Returned (estimatedGas + buffer)
  | Threw error => Threw (readsMessage error)
  end.

End GasOptimizer.

(** ** TransactionMonitor *)

Module TransactionMonitor.

Inductive Status := pending | success | failed.

Section WithMetadata.
(** The caller's [txData] object, spread into the record. *)
Context {TxData : Type}.

Record Record_ := mkRecord {
  txData : TxData;
  startTime : Z;
  status : Status
}.

Record Metrics := mkMetrics {
  totalTransactions : Z;
  successfulTransactions : Z;
  failedTransactions : Z;
  totalGasUsed : Z;
  totalFeesPaid : Z;
  averageGasPrice : Q;
  metricsStartTime : Z
}.

Record t := mk {
  pendingTransactions : gmap string Record_;
  completedTransactions : gmap string Record_;
  failedTransactionsMap : gmap string Record_;
  metrics : Metrics
}.

Definition new (now : Z) : t :=
  {| pendingTransactions := ∅;
     completedTransactions := ∅;
     failedTransactionsMap := ∅;
     metrics :=
       {| totalTransactions := 0; successfulTransactions := 0;
          failedTransactions := 0; totalGasUsed := 0; totalFeesPaid := 0;
          averageGasPrice := 0; metricsStartTime := now |} |}.

(** [startMonitoring(txHash, txData)], where [now] is [Date.now()]. *)
Definition startMonitoring (now : Z) (txHash : string) (data : TxData)
    (this : t) : t :=
  let m := metrics this in
  {| pendingTransactions :=
       <[txHash := {| txData := data; startTime := now; status := pending |}]>
         (pendingTransactions this);
     completedTransactions := completedTransactions this;
     failedTransactionsMap := failedTransactionsMap this;
     metrics :=
       {| totalTransactions := totalTransactions m + 1;
          successfulTransactions := successfulTransactions m;
          failedTransactions := failedTransactions m;
          totalGasUsed := totalGasUsed m;
          totalFeesPaid := totalFeesPaid m;
          averageGasPrice := averageGasPrice m;
          metricsStartTime := metricsStartTime m |} |}.

End WithMetadata.
Arguments Record_ : clear implicits.
Arguments t : clear implicits.

End TransactionMonitor.

(** ** OptimizedBundlerBot *)

Module OptimizedBundlerBot.
Import Js.

Section WithEngine.
Context `{engine : Engine}.

(** The eight transactions of a bundle, in the order of the source. *)
Inductive Step :=
| DeployToken
| ApproveWbnbToNfpm
| ApproveTokenToNfpm
| CreatePool
| AddLiquidity
| ApproveWbnbToRouter
| BuySwap
| TransferFee.

(** The object handed to [wallet.signTransaction]; [purpose] stands for
    the fields [to], [data], [value] and [chainId], which the step, the
    configuration and, for the two steps with a deadline, the clock
    reading fix.  A signed payload is identified with the transaction it
    serialises. *)
Record Transaction := mkTransaction {
  purpose : Step;
  nonce : Z;
  gasPrice : Z;
  gasLimit : Z
}.

(** [response.data] of a relay call: a JSON-RPC result, or a JSON-RPC
    error member. *)
Inductive RelayBody :=
| RelayResult (result : string)
| RelayError (errorCode : Z) (errorMessage : string).

(** Every call the bot makes to a collaborator, with its settlement. *)
Inductive Call :=
| CGetFeeData (r : Outcome GasOptimizer.FeeData)
| CGetTransactionCount (r : Outcome Z)
| CGetBlockNumber (r : Outcome Z)
| CEstimateGas (r : Outcome Z)
| CEncode (s : Step) (r : Outcome unit)
| CSignTransaction (tx : Transaction) (r : Outcome unit)
| CSimulateBundle (transactions : list Transaction) (blockNumber : Z)
    (r : Outcome RelayBody)
| CSubmitBundle (transactions : list Transaction) (blockNumber : Z)
    (r : Outcome RelayBody)
| CDateNow (t : Z)
| CMathRandom (x : Number)
| CSetTimeout (ms : Number).

(** The collaborators.  Each answer may depend on everything that was
    asked before.  [encode] stands for the library calls that build a
    step's payload ([parseUnits], [getContractFactory],
    [encodeFunctionData], [encodeSqrtRatioX96], [Position.fromAmounts]),
    any of which may throw. *)
Record Collaborators := mkCollaborators {
  getFeeData : list Call -> Outcome GasOptimizer.FeeData;
  getTransactionCount : list Call -> Outcome Z;
  getBlockNumber : list Call -> Outcome Z;
  estimateGas : list Call -> Outcome Z;
  encode : list Call -> Step -> Outcome unit;
  signTransaction : list Call -> Transaction -> Outcome unit;
  postSimulate : list Call -> list Transaction -> Z -> Outcome RelayBody;
  postSubmit : list Call -> list Transaction -> Z -> Outcome RelayBody;
  clock : list Call -> Z;
  randomSource : list Call -> Number
}.

(** The configuration values read by the bundle code, as parameters
    ([Configuration] below is the class that supplies them). *)
Record Config := mkConfig {
  networkConfig : GasOptimizer.NetworkConfig;
  gasEstimationBuffer : Z;
  bloxroute_maxRetries : option Z;
  bloxroute_retryDelay : option Number;
  bloxroute_timeout : option Number
}.

Record World := mkWorld {
  calls : list Call;
  gasOptimizer : GasOptimizer.t
}.

Record BundleResult := mkBundleResult {
  transactions : list Transaction;
  simulationResult : RelayBody;
  submissionResult : RelayBody
}.

(** Whether the scope enclosing [executeBundle] (in the end the global
    object) binds the identifiers [gasPrice] and [nonce]. *)
Record HostScope := mkHostScope {
  binds_gasPrice : bool;
  binds_nonce : bool
}.


Definition Task (A : Type) : Type := World -> Outcome A * World.

Definition ret {A} (a : A) : Task A := fun w => (Returned a, w).

Definition bind {A B} (m : Task A) (k : A -> Task B) : Task B :=
  fun w =>
    match m w with
    | (Returned a, w') => k a w'
    | (Threw t, w') => (Threw t, w')
    end.

Notation "'await' x <- m ; k" := (bind m (fun x => k))
  (at level 10, x name, m at level 100, k at level 200).

Definition record (c : Call) (w : World) : World :=
  {| calls := calls w ++ [c]; gasOptimizer := gasOptimizer w |}.

Definition ask {A} (oracle : list Call -> Outcome A)
    (entry : Outcome A -> Call) : Task A :=
  fun w => let r := oracle (calls w) in (r, record (entry r) w).

Section WithCollaborators.
Context (env : Collaborators) (config : Config).

Definition runtime : Runtime World :=
  {| dateNow := fun w =>
       let t := clock env (calls w) in (t, record (CDateNow t) w);
     mathRandom := fun w =>
       let x := randomSource env (calls w) in (x, record (CMathRandom x) w);
     setTimeout := fun ms w => record (CSetTimeout ms) w |}.

(** [Date.now()]. *)
Definition currentTime : Task Z :=
  fun w => let '(t, w) := dateNow runtime w in (Returned t, w).

(** [this.gasOptimizer.estimateOptimalGasPrice(this.provider)]; the
    clock is read when the history entry is built. *)
Definition getOptimalGasPrice : Task Z :=
  fun w =>
    let '(fetched, w) := ask (getFeeData env) CGetFeeData w in
    let '(now, w) :=
      match fetched with
      | Returned {| GasOptimizer.feeGasPrice := Some _ |} => dateNow runtime w
      | _ => (0, w)
      end in
    let '(result, optimizer) :=
      GasOptimizer.estimateOptimalGasPrice (networkConfig config) fetched now
        (gasOptimizer w) in
    (result, {| calls := calls w; gasOptimizer := optimizer |}).

Definition getCurrentNonce : Task Z :=
  ask (getTransactionCount env) CGetTransactionCount.

Definition getFutureBlockNumber : Task Z :=
  await currentBlock <- ask (getBlockNumber env) CGetBlockNumber;
  ret (currentBlock + 5).

(** [const rawTx = await this.wallet.signTransaction(transaction)]. *)
Definition sign (transaction : Transaction) : Task Transaction :=
  await _ <- ask (fun h => signTransaction env h transaction)
                 (CSignTransaction transaction);
  ret transaction.

(** [this.gasOptimizer.estimateGasLimit(this.provider, ...)]. *)
Definition estimateGasLimit : Task Z :=
  fun w =>
    let '(estimated, w) := ask (estimateGas env) CEstimateGas w in
    (GasOptimizer.estimateGasLimit (gasEstimationBuffer config) estimated, w).

Definition createDeploymentTransaction (nonce gasPrice : Z) : Task Transaction :=
  await _ <- ask (fun h => encode env h DeployToken) (CEncode DeployToken);
  await gasLimit <- estimateGasLimit;
  sign {| purpose := DeployToken; nonce := nonce; gasPrice := gasPrice;
          gasLimit := gasLimit |}.

(** [createApproveTransaction]; [which] names the token and spender. *)
Definition createApproveTransaction (which : Step) (nonce gasPrice : Z) :
    Task Transaction :=
  await _ <- ask (fun h => encode env h which) (CEncode which);
  sign {| purpose := which; nonce := nonce; gasPrice := gasPrice;
          gasLimit := 100000 |}.

Definition createPoolTransaction (nonce gasPrice : Z) : Task Transaction :=
  await _ <- ask (fun h => encode env h CreatePool) (CEncode CreatePool);
  sign {| purpose := CreatePool; nonce := nonce; gasPrice := gasPrice;
          gasLimit := 5000000 |}.

(** [createLiquidityTransaction]: the amounts are parsed and the position
    is built, [Date.now()] is read for the deadline of [mintOptions], and
    the call parameters are encoded. *)
Definition createLiquidityTransaction (nonce gasPrice : Z) : Task Transaction :=
  await _ <- ask (fun h => encode env h AddLiquidity) (CEncode AddLiquidity);
  await _ <- currentTime;
  await _ <- ask (fun h => encode env h AddLiquidity) (CEncode AddLiquidity);
  sign {| purpose := AddLiquidity; nonce := nonce; gasPrice := gasPrice;
          gasLimit := 800000 |}.

(** [createSwapTransaction]: the amount is parsed by the caller,
    [Date.now()] is read for the deadline of [params], and the call is
    encoded. *)
Definition createSwapTransaction (nonce gasPrice : Z) : Task Transaction :=
  await _ <- ask (fun h => encode env h BuySwap) (CEncode BuySwap);
  await _ <- currentTime;
  await _ <- ask (fun h => encode env h BuySwap) (CEncode BuySwap);
  sign {| purpose := BuySwap; nonce := nonce; gasPrice := gasPrice;
          gasLimit := 400000 |}.

Definition createTransferTransaction (nonce gasPrice : Z) : Task Transaction :=
  await _ <- ask (fun h => encode env h TransferFee) (CEncode TransferFee);
  sign {| purpose := TransferFee; nonce := nonce; gasPrice := gasPrice;
          gasLimit := 21000 |}.

(** [axios.post] rejects on a transport failure or a non-2xx status;
    otherwise [response.data] is returned as it is. *)
Definition simulateBundle (transactions : list Transaction) (blockNumber : Z) :
    Task RelayBody :=
  ask (fun h => postSimulate env h transactions blockNumber)
      (CSimulateBundle transactions blockNumber).

Definition submitBundle (transactions : list Transaction) (blockNumber : Z) :
    Task RelayBody :=
  ask (fun h => postSubmit env h transactions blockNumber)
      (CSubmitBundle transactions blockNumber).

(** The arrow function that [executeBundle] passes to the retry
    manager. *)
Definition bundleFunction : Task BundleResult :=
  await gasPrice <- getOptimalGasPrice;
  await nonce <- getCurrentNonce;
  await futureBlockNumber <- getFutureBlockNumber;
  await rawTx0 <- createDeploymentTransaction nonce gasPrice;
  let nonce := nonce + 1 in
  await rawApprove0 <- createApproveTransaction ApproveWbnbToNfpm nonce gasPrice;
  let nonce := nonce + 1 in
  await rawApprove1 <- createApproveTransaction ApproveTokenToNfpm nonce gasPrice;
  let nonce := nonce + 1 in
  await rawCreatePool <- createPoolTransaction nonce gasPrice;
  let nonce := nonce + 1 in
  await rawAddLiquidity <- createLiquidityTransaction nonce gasPrice;
  let nonce := nonce + 1 in
  await buyApprovalRaw <- createApproveTransaction ApproveWbnbToRouter nonce gasPrice;
  let nonce := nonce + 1 in
  await rawBuyTx <- createSwapTransaction nonce gasPrice;
  let nonce := nonce + 1 in
  await rawTransferTx <- createTransferTransaction nonce gasPrice;
  let transactions :=
    [rawTx0; rawApprove0; rawApprove1; rawCreatePool;
     rawAddLiquidity; buyApprovalRaw; rawBuyTx; rawTransferTx] in
  await simulationResult <- simulateBundle transactions futureBlockNumber;
  await submissionResult <- submitBundle transactions futureBlockNumber;
  ret {| transactions := transactions;
         simulationResult := simulationResult;
         submissionResult := submissionResult |}.

(** The retry manager built by the constructor. *)
Definition retryManager : RetryManager.t :=
  TransactionRetryManager.new
    {| TransactionRetryManager.cfg_maxRetries := bloxroute_maxRetries config;
       TransactionRetryManager.cfg_baseDelay := bloxroute_retryDelay config;
       TransactionRetryManager.cfg_maxDelay := bloxroute_timeout config;
       TransactionRetryManager.cfg_exponentialBase := None;
       TransactionRetryManager.cfg_jitter := None;
       TransactionRetryManager.cfg_failureThreshold := None;
       TransactionRetryManager.cfg_recoveryTimeout := None;
       TransactionRetryManager.cfg_monitoringPeriod := None |}.

Definition referenceError (identifier : string) : Error :=
  newError (identifier +:+ " is not defined").

(** [executeBundle()].  The second argument of
    [this.retryManager.executeBundle], the object literal
    [{ operation, gasPrice: gasPrice?.toString(), nonce }], is evaluated
    in the scope of [executeBundle] before the call: [gasPrice] and
    [nonce] there are free identifiers, not the variables of the arrow
    function. *)
Definition executeBundle (host : HostScope) (r : RetryManager.Run World) :
    Outcome BundleResult * RetryManager.Run World :=
  if negb (binds_gasPrice host) then
    (Threw (ThrownError (referenceError "gasPrice")), r)
  else if negb (binds_nonce host) then
    (Threw (ThrownError (referenceError "nonce")), r)
  else
    TransactionRetryManager.executeBundle runtime bundleFunction r.

End WithCollaborators.

(** A freshly constructed bot before its first call. *)
Definition start (config : Config) : RetryManager.Run World :=
  RetryManager.mkRun (retryManager config)
    {| calls := []; gasOptimizer := GasOptimizer.new |} [].

End WithEngine.

End OptimizedBundlerBot.

(** * Vocabulary of the properties *)

(** ** Classification as an ordered rule table *)

Module ClassifierRules.
Import Js.

Section WithEngine.
Context `{engine : Engine}.

(** One category: a test on [error.code] and the substrings looked for
    in the lowered message. *)
Record Rule := mkRule {
  kind : ErrorKind;
  codeTest : Code -> bool;
  needles : list string
}.

Definition noCode : Code -> bool := fun _ => false.

Definition ruleTable : list Rule :=
  [ mkRule NETWORK_ERROR (fun c => code_is c "NETWORK_ERROR")
      ["network"; "connection"];
    mkRule TIMEOUT (fun c => code_is c "TIMEOUT") ["timeout"];
    mkRule RATE_LIMITED (fun c => code_is c "RATE_LIMITED")
      ["rate limit"; "too many requests"];
    mkRule SERVER_ERROR (fun c => code_ge c 500)
      ["server error"; "internal error"];
    mkRule GAS_ESTIMATION_FAILED noCode
      ["gas estimation"; "cannot estimate gas"];
    mkRule INSUFFICIENT_FUNDS noCode
      ["insufficient funds"; "insufficient balance"];
    mkRule TRANSACTION_REVERTED noCode ["revert"; "execution reverted"];
    mkRule NONCE_TOO_LOW noCode ["nonce too low"; "nonce"];
    mkRule GAS_PRICE_TOO_LOW noCode ["gas price too low"; "gas price"];
    mkRule CONTRACT_ERROR noCode ["contract"; "call exception"];
    mkRule VALIDATION_ERROR noCode ["invalid"; "validation"] ].

(** A rule applies when its code test holds or one of its substrings
    occurs. *)
Definition applies (rule : Rule) (error : Error) : bool :=
  (codeTest rule (code error)
   || existsb (includes (ErrorHandler.lowered_message error)) (needles rule))%bool.

(** First match wins; no match is [UNKNOWN_ERROR]. *)
Fixpoint firstMatch (rules : list Rule) (error : Error) : ErrorKind :=
  match rules with
  | [] => UNKNOWN_ERROR
  | rule :: rest => if applies rule error then kind rule else firstMatch rest error
  end.

Definition messageOnly (rule : Rule) : Rule :=
  mkRule (kind rule) noCode (needles rule).

Definition codeOnly (rule : Rule) : Rule :=
  mkRule (kind rule) (codeTest rule) [].

(** The reading in which every code test is tried before any message
    substring: all code tests in category order, then all substrings in
    category order. *)
Definition classifyCodesFirst (error : Error) : ErrorKind :=
  firstMatch (map codeOnly ruleTable ++ map messageOnly ruleTable) error.

End WithEngine.

End ClassifierRules.

(** ** Histories of a circuit breaker *)

Module BreakerHistory.

(** The calls that can change a breaker: its three methods and
    [RetryManager.resetCircuitBreaker].  [onFailure] is called with
    whatever the operation threw: an error object, or [undefined] (with
    [null] the breaker is left in the same state as with [undefined]). *)
Inductive Op :=
| CanExecute (now : Z)
| OnSuccess
| OnFailure (now : Z) (error : Js.Error)
| OnFailureOfUndefined (now : Z)
| Reset.

Definition apply (cb : CircuitBreaker.t) (op : Op) : CircuitBreaker.t :=
  match op with
  | CanExecute now => (CircuitBreaker.canExecute now cb).2
  | OnSuccess => CircuitBreaker.onSuccess cb
  | OnFailure now error => CircuitBreaker.onFailure now error cb
  | OnFailureOfUndefined now => CircuitGuard.onFailureOfUndefined now cb
  | Reset => CircuitBreaker.reset cb
  end.

Definition after (ops : list Op) (cb : CircuitBreaker.t) : CircuitBreaker.t :=
  fold_left apply ops cb.

(** Outside [CLOSED] the count has reached the threshold. *)
Definition tripped (cb : CircuitBreaker.t) : Prop :=
  CircuitBreaker.state cb = CLOSED
  ∨ CircuitBreaker.failureThreshold cb <= CircuitBreaker.failureCount cb.


(** One [onFailure] call, given as (clock reading, argument). *)
Definition failure (f : Z * Js.Thrown) : Op :=
  match f.2 with
  | Js.ThrownError error => OnFailure f.1 error
  | Js.ThrownUndefined => OnFailureOfUndefined f.1
  end.

(** Consecutive [onFailure] calls. *)
Definition failing (fs : list (Z * Js.Thrown)) : list Op := map failure fs.

(** Whether the argument of an [onFailure] call is an error object. *)
Definition isErrorObject (t : Js.Thrown) : bool :=
  match t with Js.ThrownError _ => true | Js.ThrownUndefined => false end.

Definition recordedAt (op : Op) : option Z :=
  match op with OnFailure now _ => Some now | _ => None end.

(** The clock reading of the last [onFailure] call that was given an
    error object. *)
Definition lastRecorded (ops : list Op) : option Z := last (omap recordedAt ops).

Definition isUndefinedFailure (op : Op) : bool :=
  match op with OnFailureOfUndefined _ => true | _ => false end.

End BreakerHistory.

(** ** Journals and repeated executions *)

Module Journal.
Import Js.

Section WithEngine.
Context `{engine : Engine}.

Definition isInvocation (e : Event) : bool :=
  match e with OperationInvoked _ => true | _ => false end.


Definition invocations (j : list Event) : list Event := filter isInvocation j.


Section WithWorld.
Context {W : Type} (rt : Runtime W) {A : Type}.

(** The run right after attempt [attempt] threw [e], leaving the world
    [w']: the attempt and the error are logged and the failure is
    recorded in the breaker. *)
Definition failedRun (attempt : Z) (e : Error) (w' : W)
    (r : RetryManager.Run W) : RetryManager.Run W :=
  RetryManager.mkRun
    {| RetryManager.retryConfig := RetryManager.retryConfig (RetryManager.manager r);
       RetryManager.circuitBreaker :=
         CircuitBreaker.onFailure (dateNow rt w').1 e
           (RetryManager.circuitBreaker (RetryManager.manager r)) |}
    (dateNow rt w').2
    (RetryManager.journal r ++
     [LogExecuting attempt
        (RetryConfig.maxRetries (RetryManager.retryConfig (RetryManager.manager r)));
      OperationInvoked attempt;
      LogErrorOccurred (ErrorHandler.classifyError e) e attempt]).

(** One call of [executeWithRetry], journalled on its own. *)
Definition execution (operation : W -> Outcome A * W)
    (r : RetryManager.Run W) : Outcome A * RetryManager.Run W :=
  RetryManager.executeWithRetry rt operation
    (RetryManager.mkRun (RetryManager.manager r) (RetryManager.world r) []).

(** [n] calls of [executeWithRetry] one after the other on the same
    manager; each is reported with the run it started from, its outcome
    and the run it left. *)
Fixpoint executions (n : nat) (operation : W -> Outcome A * W)
    (r : RetryManager.Run W) :
    list (RetryManager.Run W * Outcome A * RetryManager.Run W) :=
  match n with
  | O => []
  | S n' =>
      let '(outcome, r') := execution operation r in
      (r, outcome, r') :: executions n' operation r'
  end.

End WithWorld.

End WithEngine.

End Journal.

(** ** Invocations, as the world sees them *)

Module Probe.
Import Js RetryManager.

Section WithWorld.
Context `{engine : Engine} {W : Type} (rt : Runtime W) {A : Type}.

(** The world together with the settlements of the invocations of the
    operation so far, oldest first. *)
Definition Recorded : Type := (W * list (Outcome A))%type.

(** The operation, noting each of its settlements as it is invoked. *)
Definition recorded (operation : W -> Outcome A * W) :
    Recorded -> Outcome A * Recorded :=
  fun s =>
    let '(result, w) := operation s.1 in
    (result, (w, s.2 ++ [result])).

(** The runtime [rt], which leaves the record alone. *)
Definition recording : Runtime Recorded :=
  {| dateNow := fun s => let '(t, w) := dateNow rt s.1 in (t, (w, s.2));
     mathRandom := fun s => let '(x, w) := mathRandom rt s.1 in (x, (w, s.2));
     setTimeout := fun ms s => (setTimeout rt ms s.1, s.2) |}.

(** A run enters with an empty record. *)
Definition enter (r : Run W) : Run Recorded :=
  mkRun (manager r) (world r, []) (journal r).

Definition leave (r : Run Recorded) : Run W :=
  mkRun (manager r) (world r).1 (journal r).

Definition settlements (r : Run Recorded) : list (Outcome A) := (world r).2.

End WithWorld.

End Probe.

(** ** Relay protocol of the bundle code *)

Module RelayProtocol.
Import Js OptimizedBundlerBot.

Section WithEngine.
Context `{engine : Engine}.

#[global] Instance Step_eq_dec : EqDecision Step.
Proof. solve_decision. Defined.

#[global] Instance Transaction_eq_dec : EqDecision Transaction.
Proof. solve_decision. Defined.

(** Where the relay conversation stands: nothing outstanding, or a
    simulation of this bundle for this block has returned. *)
Inductive Phase :=
| Idle
| Simulated (transactions : list Transaction) (blockNumber : Z).

(** Reads the calls in order.  A simulation that returned (whatever its
    body) must be followed by the submission of the same bundle for the
    same block before any other relay call, a simulation that threw by
    none, and a submission must follow such a simulation.  [None] marks a
    violation. *)
Fixpoint follow (phase : Phase) (cs : list Call) : option Phase :=
  match cs with
  | [] => Some phase
  | CSimulateBundle txs blockNumber r :: rest =>
      match phase, r with
      | Idle, Returned _ => follow (Simulated txs blockNumber) rest
      | Idle, Threw _ => follow Idle rest
      | Simulated _ _, _ => None
      end
  | CSubmitBundle txs blockNumber _ :: rest =>
      match phase with
      | Simulated txs' blockNumber' =>
          if bool_decide (txs = txs' ∧ blockNumber = blockNumber')
          then follow Idle rest else None
      | Idle => None
      end
  | _ :: rest => follow phase rest
  end.

Definition simulateThenSubmit (cs : list Call) : Prop :=
  follow Idle cs = Some Idle.

(** What the most recent acquisitions were. *)
Record Acquired := mkAcquired {
  quote : option Z;
  nonceBase : option Z
}.

Definition nothingAcquired : Acquired := {| quote := None; nonceBase := None |}.

(** Eight transactions, all at price [g], with nonces [n .. n+7]. *)
Definition builtFrom (g n : Z) (txs : list Transaction) : Prop :=
  map gasPrice txs = replicate 8 g ∧ map nonce txs = seqZ n 8.

(** Reads the calls in order, remembering the gas price estimated from
    the latest fee data and the latest pending-transaction count.  A
    submission must carry a bundle built from the remembered pair, which
    it uses up.  [None] marks a violation. *)
Fixpoint track (networkConfig : GasOptimizer.NetworkConfig) (a : Acquired)
    (cs : list Call) : option Acquired :=
  match cs with
  | [] => Some a
  | CGetFeeData (Returned {| GasOptimizer.feeGasPrice := Some q |}) :: rest =>
      track networkConfig
        {| quote :=
             Some (GasOptimizer.ensureWithinBounds networkConfig
                     (GasOptimizer.applyMultiplier networkConfig q));
           nonceBase := None |} rest
  | CGetTransactionCount (Returned n) :: rest =>
      track networkConfig {| quote := quote a; nonceBase := Some n |} rest
  | CSubmitBundle txs _ _ :: rest =>
      match quote a, nonceBase a with
      | Some g, Some n =>
          if bool_decide (builtFrom g n txs)
          then track networkConfig nothingAcquired rest else None
      | _, _ => None
      end
  | _ :: rest => track networkConfig a rest
  end.

Definition submissionsUseOwnAcquisition
    (networkConfig : GasOptimizer.NetworkConfig) (cs : list Call) : Prop :=
  ∀ a, is_Some (track networkConfig a cs).

Definition isSubmission (c : Call) : bool :=
  match c with CSubmitBundle _ _ _ => true | _ => false end.

Definition submissions (cs : list Call) : list Call := filter isSubmission cs.

Definition isRelayCall (c : Call) : bool :=
  match c with
  | CSimulateBundle _ _ _ | CSubmitBundle _ _ _ => true
  | _ => false
  end.

Definition relayCalls (cs : list Call) : list Call := filter isRelayCall cs.




(** Both readings hold of a stretch of calls. *)
Definition orderly (networkConfig : GasOptimizer.NetworkConfig)
    (new : list Call) : Prop :=
  simulateThenSubmit new ∧ submissionsUseOwnAcquisition networkConfig new.

End WithEngine.

End RelayProtocol.

(** ** Concrete data for the examples *)

Module Scenario.
Import Js.

(** The examples run on the engine [reference]. *)
#[local] Existing Instance reference.

(** A world that is just the clock, in milliseconds: [Math.random()]
    draws 0 and a timer of [ms] advances the clock by [ms]. *)
Definition wallClock : Runtime Z :=
  {| dateNow := fun w => (w, w);
     mathRandom := fun w => (0%Q, w);
     setTimeout := fun ms w => w + Qfloor ms |}.

(** A world in which no time passes. *)
Definition frozenClock : Runtime unit :=
  {| dateNow := fun w => (0, w);
     mathRandom := fun w => (0%Q, w);
     setTimeout := fun _ w => w |}.

Definition timeoutError : Error :=
  {| message := Some "Request timeout"; code := CodeUndefined |}.

(** An operation that rejects with a timeout on every call. *)
Definition alwaysTimeout : Z -> Outcome unit * Z :=
  fun w => (Threw (ThrownError timeoutError), w).


(** An operation that rejects with [undefined] on every call. *)
Definition alwaysRejects : unit -> Outcome unit * unit :=
  fun w => (Threw ThrownUndefined, w).

(** An operation whose error names the time of the call. *)
Definition timeoutAt (w : Z) : Error :=
  {| message := Some "timeout"; code := CodeNumber w |}.

Definition failsWithTime : Z -> Outcome unit * Z :=
  fun w => (Threw (ThrownError (timeoutAt w)), w + 1).

Definition defaults : TransactionRetryManager.Config :=
  TransactionRetryManager.mkConfig None None None None None None None None.

(** [new TransactionRetryManager(logger)]: five attempts, threshold
    three. *)
Definition transactionManager : RetryManager.t :=
  TransactionRetryManager.new defaults.

Definition oneAttempt : RetryManager.t :=
  TransactionRetryManager.new
    (TransactionRetryManager.mkConfig (Some 1) None None None None None None None).

Definition backoff : RetryConfig.t :=
  RetryConfig.new
    {| RetryConfig.opt_maxRetries := None;
       RetryConfig.opt_baseDelay := Some 1000%Q;
       RetryConfig.opt_maxDelay := Some 30000%Q;
       RetryConfig.opt_exponentialBase := Some 2%Q;
       RetryConfig.opt_jitter := Some (1 # 2)%Q |}.

Definition breakerDefaults : CircuitBreaker.Options :=
  CircuitBreaker.mkOptions None None None.

(** Five [onFailure] calls with an error object. *)
Definition fiveFailures : list (Z * Thrown) :=
  [(1000, ThrownError timeoutError); (2000, ThrownError timeoutError);
   (3000, ThrownError timeoutError); (4000, ThrownError timeoutError);
   (5000, ThrownError timeoutError)].

(** Five [onFailure] calls with [undefined]. *)
Definition fiveRejections : list (Z * Thrown) :=
  [(1000, ThrownUndefined); (2000, ThrownUndefined); (3000, ThrownUndefined);
   (4000, ThrownUndefined); (5000, ThrownUndefined)].

(** A code that names one category with a message that names another. *)
Definition timeoutCodeNetworkMessage : Error :=
  {| message := Some "Network latency too high";
     code := CodeString "TIMEOUT" |}.

Definition quoted : GasOptimizer.NetworkConfig :=
  {| GasOptimizer.gasMultiplierX100 := 120;
     GasOptimizer.minGasPrice := 1000000000;
     GasOptimizer.maxGasPrice := 20000000000 |}.

(** A tracker with one pending record. *)
Definition tracking : TransactionMonitor.t string :=
  TransactionMonitor.startMonitoring 1000 "0xabc" "first"
    (TransactionMonitor.new 0).

Import OptimizedBundlerBot.

Definition botConfig : Config :=
  {| networkConfig := quoted;
     gasEstimationBuffer := 50000;
     bloxroute_maxRetries := None;
     bloxroute_retryDelay := None;
     bloxroute_timeout := None |}.

Definition networkFailure : Error :=
  {| message := Some "Network Error"; code := CodeString "ERR_NETWORK" |}.

(** A relay that answers the simulation with a JSON-RPC error body and
    accepts the submission. *)
Definition simulationReportsFailure : Collaborators :=
  {| getFeeData := fun _ => Returned (GasOptimizer.mkFeeData (Some 5000000000));
     getTransactionCount := fun _ => Returned 41;
     getBlockNumber := fun _ => Returned 1000;
     estimateGas := fun _ => Returned 1200000;
     encode := fun _ _ => Returned tt;
     signTransaction := fun _ _ => Returned tt;
     postSimulate := fun _ _ _ =>
       Returned (RelayError (-32000) "bundle simulation failed: execution reverted");
     postSubmit := fun _ _ _ => Returned (RelayResult "0xbundlehash");
     clock := fun h => Z.of_nat (length h);
     randomSource := fun _ => 0%Q |}.

(** A relay whose first submission fails in transport; by the second
    attempt the chain has moved on: the fee quote and the pending count
    are higher. *)
Definition firstSubmissionFails : Collaborators :=
  {| getFeeData := fun h =>
       Returned (GasOptimizer.mkFeeData
                   (Some (if existsb RelayProtocol.isSubmission h
                          then 6000000000 else 5000000000)));
     getTransactionCount := fun h =>
       Returned (if existsb RelayProtocol.isSubmission h then 42 else 41);
     getBlockNumber := fun h =>
       Returned (if existsb RelayProtocol.isSubmission h then 1003 else 1000);
     estimateGas := fun _ => Returned 1200000;
     encode := fun _ _ => Returned tt;
     signTransaction := fun _ _ => Returned tt;
     postSimulate := fun _ _ _ => Returned (RelayResult "ok");
     postSubmit := fun h _ _ =>
       if existsb RelayProtocol.isSubmission h
       then Returned (RelayResult "0xbundlehash")
       else Threw (ThrownError networkFailure);
     clock := fun h => Z.of_nat (length h);
     randomSource := fun _ => 0%Q |}.

(** The eight transactions at one price with consecutive nonces. *)
Definition bundleAt (g n limit : Z) : list Transaction :=
  [ mkTransaction DeployToken n g limit;
    mkTransaction ApproveWbnbToNfpm (n + 1) g 100000;
    mkTransaction ApproveTokenToNfpm (n + 2) g 100000;
    mkTransaction CreatePool (n + 3) g 5000000;
    mkTransaction AddLiquidity (n + 4) g 800000;
    mkTransaction ApproveWbnbToRouter (n + 5) g 100000;
    mkTransaction BuySwap (n + 6) g 400000;
    mkTransaction TransferFee (n + 7) g 21000 ].

End Scenario.

(** * The rest of the code *)

(** ** The back-off delay in the words of the specification *)

Module BackoffSpec.
Import Js.

Section WithEngine.
Context `{engine : Engine}.

(** [min(baseDelay * exponentialBase^(n-1), maxDelay)]. *)
Definition capped (baseDelay exponentialBase maxDelay : Number) (n : Z) : Number :=
  mathMin (multiply baseDelay (mathPow exponentialBase (n - 1))) maxDelay.

(** [floor(min(...) + min(...) * jitterFraction * random)]. *)
Definition delay (baseDelay exponentialBase maxDelay jitterFraction : Number)
    (n : Z) (random : Number) : Number :=
  mathFloor
    (add (capped baseDelay exponentialBase maxDelay n)
         (multiply
            (multiply (capped baseDelay exponentialBase maxDelay n) jitterFraction)
            random)).

End WithEngine.

End BackoffSpec.

(** ** Counting in journals *)

Module JournalCounts.
Import Js.

Section WithEngine.
Context `{engine : Engine}.

Definition isSleep (e : Event) : bool :=
  match e with Slept _ => true | _ => false end.

Definition sleeps (j : list Event) : list Event := filter isSleep j.

(** The delays a journal sleeps for, in order. *)
Fixpoint delays (j : list Event) : list Number :=
  match j with
  | [] => []
  | Slept ms :: rest => ms :: delays rest
  | _ :: rest => delays rest
  end.


End WithEngine.

End JournalCounts.

(** ** Classification without the longer substrings *)

Module ShortRules.
Import Js ClassifierRules.

Section WithEngine.
Context `{engine : Engine}.

(** The rule table with ["execution reverted"], ["nonce too low"] and
    ["gas price too low"] left out. *)
Definition shortTable : list Rule :=
  [ mkRule NETWORK_ERROR (fun c => code_is c "NETWORK_ERROR")
      ["network"; "connection"];
    mkRule TIMEOUT (fun c => code_is c "TIMEOUT") ["timeout"];
    mkRule RATE_LIMITED (fun c => code_is c "RATE_LIMITED")
      ["rate limit"; "too many requests"];
    mkRule SERVER_ERROR (fun c => code_ge c 500)
      ["server error"; "internal error"];
    mkRule GAS_ESTIMATION_FAILED noCode
      ["gas estimation"; "cannot estimate gas"];
    mkRule INSUFFICIENT_FUNDS noCode
      ["insufficient funds"; "insufficient balance"];
    mkRule TRANSACTION_REVERTED noCode ["revert"];
    mkRule NONCE_TOO_LOW noCode ["nonce"];
    mkRule GAS_PRICE_TOO_LOW noCode ["gas price"];
    mkRule CONTRACT_ERROR noCode ["contract"; "call exception"];
    mkRule VALIDATION_ERROR noCode ["invalid"; "validation"] ].

End WithEngine.

End ShortRules.

(** ** GasOptimizer: the history and its average *)

Module GasStatistics.
Import Js GasOptimizer.

(** [getAverageGasPrice()]: the number whose decimal spelling is
    returned; ['0'] for an empty history, else the BigInt sum of the
    entries divided (truncating) by their number. *)
Definition getAverageGasPrice (this : t) : Z :=
  match gasHistory this with
  | [] => 0
  | history =>
      Z.quot (fold_left (fun acc entry => acc + entryGasPrice entry) history 0)
             (Z.of_nat (length history))
  end.

(** Successive calls of [estimateOptimalGasPrice], each given as the
    settlement of [getFeeData()] and the clock reading. *)
Definition estimations (networkConfig : NetworkConfig)
    (fetches : list (Outcome FeeData * Z)) (this : t) : t :=
  fold_left
    (fun optimizer fetch =>
       (estimateOptimalGasPrice networkConfig fetch.1 fetch.2 optimizer).2)
    fetches this.

(** The history entry a fetch leaves, if it leaves one. *)
Definition entryOf (networkConfig : NetworkConfig)
    (fetch : Outcome FeeData * Z) : option HistoryEntry :=
  match fetch.1 with
  | Returned feeData =>
      match feeGasPrice feeData with
      | Some quote =>
          Some {| entryTimestamp := fetch.2;
                  entryGasPrice :=
                    ensureWithinBounds networkConfig (applyMultiplier networkConfig quote);
                  entryBaseFee := quote |}
      | None => None
      end
  | Threw _ => None
  end.

End GasStatistics.

(** ** Concrete data for the further examples *)

Module Cases.
Import Js.

#[local] Existing Instance reference.

(** An operation that times out until the clock reaches 5000 ms and then
    returns that time. *)
Definition recoversAt5000 : Z -> Outcome Z * Z :=
  fun w =>
    if w <? 5000 then (Threw (ThrownError Scenario.timeoutError), w + 1)
    else (Returned w, w + 1).

Definition insufficientFunds : Error :=
  {| message := Some "insufficient funds for gas * price + value";
     code := CodeString "INSUFFICIENT_FUNDS" |}.

(** An operation that always fails with a terminal error. *)
Definition alwaysBroke : Z -> Outcome unit * Z :=
  fun w => (Threw (ThrownError insufficientFunds), w + 1).

Definition freshRun : RetryManager.Run Z :=
  RetryManager.mkRun Scenario.transactionManager 0 [].

(** Fee quotes: the second fails and the third comes without a
    price. *)
Definition mixedQuotes : list (Outcome GasOptimizer.FeeData * Z) :=
  [ (Returned (GasOptimizer.mkFeeData (Some 5000000000)), 1000);
    (Threw (ThrownError Scenario.networkFailure), 2000);
    (Returned (GasOptimizer.mkFeeData None), 3000);
    (Returned (GasOptimizer.mkFeeData (Some 90000000000)), 4000) ].

(** A configuration that asks for no retries. *)
Definition noRetries : TransactionRetryManager.Config :=
  TransactionRetryManager.mkConfig (Some 0) None None None None None None None.

End Cases.

(** ** Logger *)

Module Logger.
Import Js.

(** [config.monitoring], as far as the logger reads it. *)
Record Monitoring := mkMonitoring {
  logLevel : option string;
  enableLogging : bool;
  enableTelegram : bool;
  telegramBotToken : option string;
  telegramChatId : option string;
  enableDiscord : bool;
  discordWebhookUrl : option string
}.

(** What reading a property of the object literal [this.logLevels]
    gives: one of its five numbers, something inherited from
    [Object.prototype] (a function or an object), or [undefined]. *)
Inductive Lookup := Own (n : Z) | Inherited | Missing.

Definition objectPrototypeKeys : list string :=
  [ "constructor"; "toString"; "toLocaleString"; "valueOf"; "hasOwnProperty";
    "isPrototypeOf"; "propertyIsEnumerable"; "__proto__"; "__defineGetter__";
    "__defineSetter__"; "__lookupGetter__"; "__lookupSetter__" ].

Definition logLevels (key : string) : Lookup :=
  if String.eqb key "error" then Own 0
  else if String.eqb key "warn" then Own 1
  else if String.eqb key "info" then Own 2
  else if String.eqb key "debug" then Own 3
  else if String.eqb key "trace" then Own 4
  else if existsb (String.eqb key) objectPrototypeKeys then Inherited
  else Missing.

(** The value of [this.currentLevel]: a number, or an inherited
    function or object, which compares as [NaN]. *)
Inductive Threshold := Numeric (n : Z) | NotNumeric.

(** [this.logLevels[config.monitoring.logLevel] || this.logLevels.info]. *)
Definition initialLevel (monitoring : Monitoring) : Threshold :=
  match logLevel monitoring with
  | Some key =>
      match logLevels key with
      | Own n => Numeric (if n =? 0 then 2 else n)
      | Inherited => NotNumeric
      | Missing => Numeric 2
      end
  | None => Numeric 2
  end.

Record t := mk {
  config : Monitoring;
  currentLevel : Threshold
}.

(** The fields the constructor assigns.  The directory creation it
    starts is not awaited and touches none of them. *)
Definition new (monitoring : Monitoring) : t :=
  {| config := monitoring; currentLevel := initialLevel monitoring |}.

(** [this.logLevels[level] > this.currentLevel]. *)
Definition exceeds (this : t) (level : string) : bool :=
  match logLevels level, currentLevel this with
  | Own n, Numeric c => c <? n
  | _, _ => false
  end.

(** [iso.split('T')[0]]. *)
Fixpoint datePart (iso : string) : string :=
  match iso with
  | EmptyString => EmptyString
  | String c rest =>
      if Ascii.eqb c "T"%char then EmptyString else String c (datePart rest)
  end.

(** A non-empty string is truthy. *)
Definition truthy (s : option string) : bool :=
  match s with
  | Some s => negb (String.eqb s "")
  | None => false
  end.

Definition constantAssignment : Error :=
  newError "Assignment to constant variable.".

Section WithData.
(** The [data] argument is an object or [null].  [stringify] is
    [JSON.stringify] on it and [fields] is [Object.entries] with
    [String(value)] on each value; either may throw. *)
Context {Data : Type}.
Context (stringify : Data -> Outcome unit).
Context (fields : Data -> Outcome (list (string * string))).

(** The object built by [formatMessage]; [entryData] is [None] for the
    empty object that replaces a missing [data]. *)
Record LogEntry := mkLogEntry {
  entryTimestamp : string;
  entryLevel : string;
  entryMessage : string;
  entryData : option Data
}.

(** The embed posted to Discord; title and colour are constants. *)
Record Embed := mkEmbed {
  description : string;
  embedTimestamp : string;
  embedFields : list (string * string)
}.

(** Every call the logger makes to the outside, with its settlement.
    A Telegram post carries the text after the fixed heading. *)
Inductive Call :=
| CNow (iso : string)
| CConsoleLog (timestamp level message : string)
| CConsoleData (data : Data)
| CAppendFile (file : string) (entry : LogEntry) (r : Outcome unit)
| CPostTelegram (token : string) (chatId : option string) (text : string)
    (r : Outcome unit)
| CPostDiscord (url : string) (embed : Embed) (r : Outcome unit)
| CConsoleError (label : string) (errorMessage : option string).

(** The outside: each answer may depend on everything that happened
    before.  [telegramSettlesFirst] says which of two posts in flight
    settles first. *)
Record Sinks := mkSinks {
  toISOString : list Call -> string;
  appendFile : list Call -> string -> LogEntry -> Outcome unit;
  postTelegram : list Call -> string -> option string -> string -> Outcome unit;
  postDiscord : list Call -> string -> Embed -> Outcome unit;
  telegramSettlesFirst : list Call -> bool
}.

Context (env : Sinks).
Context `{engine : Engine}.

(** [new Date().toISOString()]. *)
Definition now (h : list Call) : string * list Call :=
  let iso := toISOString env h in (iso, h ++ [CNow iso]).

(** [catch (error) { console.error(label, error.message); }]. *)
Definition reportFailure (label : string) (thrown : Thrown) (h : list Call) :
    Outcome unit * list Call :=
  match thrown with
  | ThrownError e => (Returned tt, h ++ [CConsoleError label (message e)])
  | ThrownUndefined => (Threw (ThrownError messageOfUndefined), h)
  end.

Definition formatMessage (level message : string) (data : option Data)
    (h : list Call) : LogEntry * list Call :=
  let '(timestamp, h) := now h in
  ({| entryTimestamp := timestamp; entryLevel := toUpperCase level;
      entryMessage := message; entryData := data |}, h).

(** [JSON.stringify(logEntry)]. *)
Definition stringifyEntry (logEntry : LogEntry) : Outcome unit :=
  match entryData logEntry with
  | Some data => stringify data
  | None => Returned tt
  end.

Definition writeToFile (this : t) (level message : string) (data : option Data)
    (h : list Call) : Outcome unit * list Call :=
  if negb (enableLogging (config this)) then (Returned tt, h)
  else
    let '(logEntry, h) := formatMessage level message data h in
    let '(iso, h) := now h in
    let logFile := datePart iso in
    match stringifyEntry logEntry with
    | Threw thrown => reportFailure "Failed to write to log file:" thrown h
    | Returned _ =>
        let r := appendFile env h logFile logEntry in
        let h := h ++ [CAppendFile logFile logEntry r] in
        match r with
        | Returned _ => (Returned tt, h)
        | Threw thrown => reportFailure "Failed to write to log file:" thrown h
        end
    end.

(** A notification after its synchronous part: finished, or waiting for
    a post that will settle with [r]. *)
Inductive Pending :=
| Finished (o : Outcome unit)
| InFlight (label : string) (r : Outcome unit).

(** [sendTelegramNotification] up to its first suspension.  [text] is
    declared with [const], so the [+=] for a present [data] throws once
    its right-hand side has been evaluated. *)
Definition sendTelegramNotification (this : t) (message : string)
    (data : option Data) (h : list Call) : Pending * list Call :=
  let label := "Failed to send Telegram notification:" in
  if (negb (enableTelegram (config this))
      || negb (truthy (telegramBotToken (config this))))%bool
  then (Finished (Returned tt), h)
  else
    match data with
    | Some data =>
        let thrown :=
          match stringify data with
          | Threw thrown => thrown
          | Returned _ => ThrownError constantAssignment
          end in
        let '(o, h) := reportFailure label thrown h in
        (Finished o, h)
    | None =>
        let token := default "" (telegramBotToken (config this)) in
        let chatId := telegramChatId (config this) in
        let r := postTelegram env h token chatId message in
        (InFlight label r, h ++ [CPostTelegram token chatId message r])
    end.

(** [sendDiscordNotification] up to its first suspension. *)
Definition sendDiscordNotification (this : t) (message : string)
    (data : option Data) (h : list Call) : Pending * list Call :=
  let label := "Failed to send Discord notification:" in
  if (negb (enableDiscord (config this))
      || negb (truthy (discordWebhookUrl (config this))))%bool
  then (Finished (Returned tt), h)
  else
    let '(timestamp, h) := now h in
    let listed :=
      match data with
      | Some data => fields data
      | None => Returned []
      end in
    match listed with
    | Threw thrown =>
        let '(o, h) := reportFailure label thrown h in
        (Finished o, h)
    | Returned embedFields =>
        let url := default "" (discordWebhookUrl (config this)) in
        let embed :=
          {| description := message; embedTimestamp := timestamp;
             embedFields := embedFields |} in
        let r := postDiscord env h url embed in
        (InFlight label r, h ++ [CPostDiscord url embed r])
    end.

(** The rest of a notification once its post has settled. *)
Definition settle (p : Pending) (h : list Call) : Outcome unit * list Call :=
  match p with
  | Finished o => (o, h)
  | InFlight _ (Returned _) => (Returned tt, h)
  | InFlight label (Threw thrown) => reportFailure label thrown h
  end.

(** [Promise.all] of two promises that can only reject with the same
    [TypeError]. *)
Definition both (a b : Outcome unit) : Outcome unit :=
  match a, b with
  | Returned _, Returned _ => Returned tt
  | Threw thrown, _ => Threw thrown
  | _, Threw thrown => Threw thrown
  end.

(** [Promise.all([sendTelegramNotification(..), sendDiscordNotification(..)])]:
    both run to their first suspension in this order, then each resumes
    when its post settles. *)
Definition notify (this : t) (message : string) (data : option Data)
    (h : list Call) : Outcome unit * list Call :=
  let '(telegram, h) := sendTelegramNotification this message data h in
  let '(discord, h) := sendDiscordNotification this message data h in
  if telegramSettlesFirst env h then
    let '(a, h) := settle telegram h in
    let '(b, h) := settle discord h in
    (both a b, h)
  else
    let '(b, h) := settle discord h in
    let '(a, h) := settle telegram h in
    (both a b, h).

Definition log (this : t) (level message : string) (data : option Data)
    (sendNotification : bool) (h : list Call) : Outcome unit * list Call :=
  if exceeds this level then (Returned tt, h)
  else
    let '(formattedMessage, h) := formatMessage level message data h in
    let h :=
      h ++ [CConsoleLog (entryTimestamp formattedMessage)
              (entryLevel formattedMessage) (entryMessage formattedMessage)] in
    let h :=
      match data with
      | Some data => h ++ [CConsoleData data]
      | None => h
      end in
    match writeToFile this level message data h with
    | (Threw thrown, h) => (Threw thrown, h)
    | (Returned _, h) =>
        if sendNotification then notify this message data h
        else (Returned tt, h)
    end.

Definition error (this : t) (message : string) (data : option Data) :
    list Call -> Outcome unit * list Call :=
  log this "error" message data true.

Definition warn (this : t) (message : string) (data : option Data) :
    list Call -> Outcome unit * list Call :=
  log this "warn" message data false.

Definition info (this : t) (message : string) (data : option Data) :
    list Call -> Outcome unit * list Call :=
  log this "info" message data false.

Definition debug (this : t) (message : string) (data : option Data) :
    list Call -> Outcome unit * list Call :=
  log this "debug" message data false.

Definition trace (this : t) (message : string) (data : option Data) :
    list Call -> Outcome unit * list Call :=
  log this "trace" message data false.

Definition isTelegramPost (c : Call) : bool :=
  match c with CPostTelegram _ _ _ _ => true | _ => false end.

Definition isConsoleLine (c : Call) : bool :=
  match c with CConsoleLog _ _ _ => true | _ => false end.

(** No sink and no conversion of [data] throws [undefined]. *)
Definition throwsErrors : Prop :=
  (∀ data, stringify data ≠ Threw ThrownUndefined)
  ∧ (∀ data, fields data ≠ Threw ThrownUndefined)
  ∧ (∀ h file entry, appendFile env h file entry ≠ Threw ThrownUndefined)
  ∧ (∀ h token chat text, postTelegram env h token chat text ≠ Threw ThrownUndefined)
  ∧ (∀ h url embed, postDiscord env h url embed ≠ Threw ThrownUndefined).

End WithData.

End Logger.

(** ** Concrete data for the logger *)

Module LoggerCases.
Import Js Logger.

(** Everything switched on, with the level set to ["error"]. *)
Definition alerting : Monitoring :=
  {| logLevel := Some "error";
     enableLogging := true;
     enableTelegram := true;
     telegramBotToken := Some "123:abc";
     telegramChatId := Some "42";
     enableDiscord := true;
     discordWebhookUrl := Some "https://discord.example/hook" |}.

Definition diskFull : Error :=
  {| message := Some "ENOSPC: no space left on device";
     code := CodeString "ENOSPC" |}.

(** A world in which the disk is full and both services are down. *)
Definition allDown : @Sinks string :=
  {| toISOString := fun _ => "2024-05-01T10:00:00.000Z";
     appendFile := fun _ _ _ => Threw (ThrownError diskFull);
     postTelegram := fun _ _ _ _ => Threw (ThrownError Scenario.networkFailure);
     postDiscord := fun _ _ _ => Threw (ThrownError Scenario.networkFailure);
     telegramSettlesFirst := fun _ => false |}.

(** Data that serialises and lists as one field. *)
Definition plainStringify : string -> Outcome unit := fun _ => Returned tt.

Definition oneField : string -> Outcome (list (string * string)) :=
  fun value => Returned [("error", value)].

End LoggerCases.

(** ** JavaScript [Map]s in insertion order *)

Module JsMap.

Section WithValues.
Context {V : Type}.

(** The entries in insertion order; each key occurs once. *)
Definition t : Type := list (string * V).

Definition empty : t := [].

Fixpoint get (key : string) (m : t) : option V :=
  match m with
  | [] => None
  | (k, v) :: rest => if String.eqb key k then Some v else get key rest
  end.

(** [set] on a key that is present replaces the value where it stands;
    a new key goes to the end. *)
Fixpoint set (key : string) (value : V) (m : t) : t :=
  match m with
  | [] => [(key, value)]
  | (k, v) :: rest =>
      if String.eqb key k then (k, value) :: rest
      else (k, v) :: set key value rest
  end.

Definition delete (key : string) (m : t) : t :=
  List.filter (fun entry => negb (String.eqb key entry.1)) m.

Definition values (m : t) : list V := map snd m.

Definition size (m : t) : Z := Z.of_nat (length m).

End WithValues.
Arguments t : clear implicits.

End JsMap.

(** ** TransactionMonitor: settling and reporting

    [TransactionMonitor] above keeps the pending transactions as a finite
    map, which is all [startMonitoring] needs.  The report reads the maps
    in insertion order, so here they are [JsMap]s, and the calls of the
    logger are kept.  [Num] stands for the double-precision numbers of the
    gas totals, with their own arithmetic. *)

Module TransactionLedger.
Import Js.

Section WithMetadata.
Context {TxData Num : Type}.
Context (number : Z -> Num) (plus times divide : Num -> Num -> Num).

(** The receipt fields that are read. *)
Record Receipt := mkReceipt {
  gasUsed : Z;
  effectiveGasPrice : Z
}.

(** The record of a settled transaction: the pending record with
    [status] replaced and four fields added. *)
Record Settled := mkSettled {
  settledData : TxData;
  settledStartTime : Z;
  settledStatus : string;
  endTime : Z;
  duration : Z;
  receipt : option Receipt;
  settledError : option Error
}.

Record Metrics := mkMetrics {
  totalTransactions : Z;
  successfulTransactions : Z;
  failedTransactions : Z;
  totalGasUsed : Num;
  totalFeesPaid : Num;
  averageGasPrice : Num;
  startTime : Z
}.

(** [successRate]: ['0%'], or the two-decimal spelling of
    [part / whole * 100]. *)
Inductive Rate := ZeroPercent | PercentOf (part whole : Z).

(** [averageTransactionTime]: [0], or the quotient [sum / count]. *)
Inductive Average := NoAverage | AverageOf (sum count : Z).

(** The object [getMetrics] returns. *)
Record MetricsView := mkMetricsView {
  viewMetrics : Metrics;
  uptimeSeconds : Z;
  successRate : Rate;
  averageTransactionTime : Average
}.

Record Report := mkReport {
  reportTimestamp : string;
  reportMetrics : MetricsView;
  recentTransactions : list Settled;
  recentFailures : list Settled
}.

(** The calls of the logger: [info] for the first, second and fourth,
    [error] with notification for the third. *)
Inductive Logged :=
| LogStarted (txHash : string) (txData : TxData)
| LogSuccessful (txHash : string) (receiptGasUsed receiptGasPrice duration : Z)
| LogFailed (txHash : string) (errorText : string) (duration : Z)
| LogReport (report : Report).

Record t := mk {
  pendingTransactions : JsMap.t (TransactionMonitor.Record_ TxData);
  completedTransactions : JsMap.t Settled;
  failedTransactionsMap : JsMap.t Settled;
  metrics : Metrics;
  logged : list Logged
}.

Definition new (now : Z) : t :=
  {| pendingTransactions := JsMap.empty;
     completedTransactions := JsMap.empty;
     failedTransactionsMap := JsMap.empty;
     metrics :=
       {| totalTransactions := 0; successfulTransactions := 0;
          failedTransactions := 0; totalGasUsed := number 0;
          totalFeesPaid := number 0; averageGasPrice := number 0;
          startTime := now |};
     logged := [] |}.

Definition startMonitoring (now : Z) (txHash : string) (txData : TxData)
    (this : t) : t :=
  let m := metrics this in
  {| pendingTransactions :=
       JsMap.set txHash
         {| TransactionMonitor.txData := txData;
            TransactionMonitor.startTime := now;
            TransactionMonitor.status := TransactionMonitor.pending |}
         (pendingTransactions this);
     completedTransactions := completedTransactions this;
     failedTransactionsMap := failedTransactionsMap this;
     metrics :=
       {| totalTransactions := totalTransactions m + 1;
          successfulTransactions := successfulTransactions m;
          failedTransactions := failedTransactions m;
          totalGasUsed := totalGasUsed m;
          totalFeesPaid := totalFeesPaid m;
          averageGasPrice := averageGasPrice m;
          startTime := startTime m |};
     logged := logged this ++ [LogStarted txHash txData] |}.

Definition updateMetrics (this : t) : t :=
  let m := metrics this in
  if 0 <? successfulTransactions m then
    {| pendingTransactions := pendingTransactions this;
       completedTransactions := completedTransactions this;
       failedTransactionsMap := failedTransactionsMap this;
       metrics :=
         {| totalTransactions := totalTransactions m;
            successfulTransactions := successfulTransactions m;
            failedTransactions := failedTransactions m;
            totalGasUsed := totalGasUsed m;
            totalFeesPaid := totalFeesPaid m;
            averageGasPrice := divide (totalFeesPaid m) (totalGasUsed m);
            startTime := startTime m |};
       logged := logged this |}
  else this.

(** [error?.message || 'Unknown error']. *)
Definition errorText (error : option Error) : string :=
  match error with
  | Some e => CircuitBreaker.failure_text e
  | None => "Unknown error"
  end.

(** [updateTransactionStatus(txHash, status, receipt, error)]; [now] is
    [Date.now()], which is read only when the transaction is pending. *)
Definition updateTransactionStatus (now : Z) (txHash : string) (status : string)
    (receipt : option Receipt) (error : option Error) (this : t) : t :=
  match JsMap.get txHash (pendingTransactions this) with
  | None => this
  | Some txData =>
      let endTime := now in
      let duration := endTime - TransactionMonitor.startTime txData in
      let updatedTxData :=
        {| settledData := TransactionMonitor.txData txData;
           settledStartTime := TransactionMonitor.startTime txData;
           settledStatus := status;
           endTime := endTime;
           duration := duration;
           receipt := receipt;
           settledError := error |} in
      let m := metrics this in
      let this :=
        match String.eqb status "success", receipt with
        | true, Some r =>
            {| pendingTransactions := pendingTransactions this;
               completedTransactions :=
                 JsMap.set txHash updatedTxData (completedTransactions this);
               failedTransactionsMap := failedTransactionsMap this;
               metrics :=
                 {| totalTransactions := totalTransactions m;
                    successfulTransactions := successfulTransactions m + 1;
                    failedTransactions := failedTransactions m;
                    totalGasUsed := plus (totalGasUsed m) (number (gasUsed r));
                    totalFeesPaid :=
                      plus (totalFeesPaid m)
                        (times (number (gasUsed r)) (number (effectiveGasPrice r)));
                    averageGasPrice := averageGasPrice m;
                    startTime := startTime m |};
               logged :=
                 logged this ++
                 [LogSuccessful txHash (gasUsed r) (effectiveGasPrice r) duration] |}
        | _, _ =>
            if String.eqb status "failed" then
              {| pendingTransactions := pendingTransactions this;
                 completedTransactions := completedTransactions this;
                 failedTransactionsMap :=
                   JsMap.set txHash updatedTxData (failedTransactionsMap this);
                 metrics :=
                   {| totalTransactions := totalTransactions m;
                      successfulTransactions := successfulTransactions m;
                      failedTransactions := failedTransactions m + 1;
                      totalGasUsed := totalGasUsed m;
                      totalFeesPaid := totalFeesPaid m;
                      averageGasPrice := averageGasPrice m;
                      startTime := startTime m |};
                 logged := logged this ++ [LogFailed txHash (errorText error) duration] |}
            else this
        end in
      updateMetrics
        {| pendingTransactions := JsMap.delete txHash (pendingTransactions this);
           completedTransactions := completedTransactions this;
           failedTransactionsMap := failedTransactionsMap this;
           metrics := metrics this;
           logged := logged this |}
  end.

Definition getMetrics (now : Z) (this : t) : MetricsView :=
  let m := metrics this in
  let uptime := now - startTime m in
  {| viewMetrics := m;
     uptimeSeconds := uptime / 1000;
     successRate :=
       if 0 <? totalTransactions m
       then PercentOf (successfulTransactions m) (totalTransactions m)
       else ZeroPercent;
     averageTransactionTime :=
       if 0 <? JsMap.size (completedTransactions this)
       then AverageOf
              (fold_left (fun sum tx => sum + duration tx)
                 (JsMap.values (completedTransactions this)) 0)
              (JsMap.size (completedTransactions this))
       else NoAverage |}.

(** [generateReport()]; [now] is read by [getMetrics] and [iso] is
    [new Date().toISOString()]. *)
Definition generateReport (now : Z) (iso : string) (this : t) : Report * t :=
  let report :=
    {| reportTimestamp := iso;
       reportMetrics := getMetrics now this;
       recentTransactions :=
         sliceFrom (-10) (JsMap.values (completedTransactions this));
       recentFailures :=
         sliceFrom (-5) (JsMap.values (failedTransactionsMap this)) |} in
  (report,
   {| pendingTransactions := pendingTransactions this;
      completedTransactions := completedTransactions this;
      failedTransactionsMap := failedTransactionsMap this;
      metrics := metrics this;
      logged := logged this ++ [LogReport report] |}).

(** The calls that change a monitor. *)
Inductive Op :=
| StartMonitoring (now : Z) (txHash : string) (txData : TxData)
| UpdateTransactionStatus (now : Z) (txHash : string) (status : string)
    (receipt : option Receipt) (error : option Error)
| GenerateReport (now : Z) (iso : string).

Definition apply (this : t) (op : Op) : t :=
  match op with
  | StartMonitoring now txHash txData => startMonitoring now txHash txData this
  | UpdateTransactionStatus now txHash status receipt error =>
      updateTransactionStatus now txHash status receipt error this
  | GenerateReport now iso => (generateReport now iso this).2
  end.

Definition after (ops : list Op) (this : t) : t := fold_left apply ops this.

(** A record as [updateTransactionStatus] files it under "completed". *)
Definition isSuccess (tx : Settled) : Prop :=
  settledStatus tx = "success" ∧ is_Some (receipt tx)
  ∧ duration tx = endTime tx - settledStartTime tx.

Definition isFailure (tx : Settled) : Prop :=
  settledStatus tx = "failed"
  ∧ duration tx = endTime tx - settledStartTime tx.

(** What every call keeps true of the counters and the maps. *)
Definition accounted (this : t) : Prop :=
  let m := metrics this in
  0 <= successfulTransactions m
  ∧ 0 <= failedTransactions m
  ∧ successfulTransactions m + failedTransactions m
    + JsMap.size (pendingTransactions this) <= totalTransactions m
  ∧ JsMap.size (completedTransactions this) <= successfulTransactions m
  ∧ JsMap.size (failedTransactionsMap this) <= failedTransactions m
  ∧ Forall isSuccess (JsMap.values (completedTransactions this))
  ∧ Forall isFailure (JsMap.values (failedTransactionsMap this)).

(** The record [updateTransactionStatus] builds from a pending one. *)
Definition settled (now : Z) (status : string) (receipt : option Receipt)
    (error : option Error) (txData : TransactionMonitor.Record_ TxData) : Settled :=
  {| settledData := TransactionMonitor.txData txData;
     settledStartTime := TransactionMonitor.startTime txData;
     settledStatus := status;
     endTime := now;
     duration := now - TransactionMonitor.startTime txData;
     receipt := receipt;
     settledError := error |}.

End WithMetadata.

End TransactionLedger.

(** ** Concrete data for the monitor *)

Module LedgerCases.
Import Js.

(** Gas totals counted exactly. *)
Definition exact : TransactionLedger.t (TxData := string) (Num := Z) :=
  TransactionLedger.new (fun n => n) 0.

(** One transaction being watched since 1000 ms. *)
Definition watching : TransactionLedger.t (TxData := string) (Num := Z) :=
  TransactionLedger.startMonitoring 1000 "0xabc" "deployment" exact.

End LedgerCases.

(** ** Config

    The configuration class, as far as the bot, the logger and its own
    validation read it.  [parseInt] and [parseFloat] are the library
    functions; [None] stands for [NaN].  The slippage tolerance is a
    double, of which only the two comparisons of the validation are
    used. *)

Module Configuration.
Import Js.

(** [process.env]. *)
Definition Env : Type := string -> option string.

(** [!process.env[key]]: unset and empty values are falsy. *)
Definition unset (env : Env) (key : string) : bool :=
  match env key with
  | Some value => String.eqb value ""
  | None => true
  end.

(** [process.env[key] || fallback]. *)
Definition envOr (env : Env) (key fallback : string) : string :=
  match env key with
  | Some value => if String.eqb value "" then fallback else value
  | None => fallback
  end.

(** [process.env[key] === literal]. *)
Definition envIs (env : Env) (key literal : string) : bool :=
  match env key with
  | Some value => String.eqb value literal
  | None => false
  end.

(** [ethers.parseUnits(n, 'gwei')]. *)
Definition gwei (n : Z) : Z := n * 1000000000.

(** One row of [this.networks].  The multipliers are 1.2, 1.1 and 1.0;
    [gasMultiplierX100] keeps [Math.floor(gasMultiplier * 100)], the
    form in which the estimator reads them. *)
Record Network := mkNetwork {
  chainId : Z;
  networkName : string;
  rpcUrl : string;
  gasMultiplierX100 : Z;
  maxGasPrice : Z;
  minGasPrice : Z
}.

Record Addresses := mkAddresses {
  wbnb : string;
  nfpm : string;
  v3Factory : string;
  v3Router : string;
  feeRecipient : string
}.

(** Reading a property of an object literal by a computed key: one of
    its own entries, something inherited from [Object.prototype], or
    [undefined]. *)
Inductive Lookup (A : Type) :=
| Found (a : A)
| Inherited
| Missing.
Arguments Found {A} _.
Arguments Inherited {A}.
Arguments Missing {A}.

Definition lookup {A} (own : list (string * A)) (key : string) : Lookup A :=
  match List.find (fun entry => String.eqb key entry.1) own with
  | Some entry => Found entry.2
  | None =>
      if existsb (String.eqb key) Logger.objectPrototypeKeys then Inherited
      else Missing
  end.

(** [!object[key]]. *)
Definition absent {A} (l : Lookup A) : bool :=
  match l with
  | Missing => true
  | _ => false
  end.

Definition networks (env : Env) : list (string * Network) :=
  [ ("bsc",
     {| chainId := 56; networkName := "BSC Mainnet";
        rpcUrl := envOr env "BSC_RPC_URL" "https://bsc-dataseed.binance.org/";
        gasMultiplierX100 := 120;
        maxGasPrice := gwei 50; minGasPrice := gwei 5 |});
    ("bscTestnet",
     {| chainId := 97; networkName := "BSC Testnet";
        rpcUrl :=
          envOr env "BSC_TESTNET_RPC_URL"
            "https://data-seed-prebsc-1-s1.binance.org:8545/";
        gasMultiplierX100 := 110;
        maxGasPrice := gwei 20; minGasPrice := gwei 1 |});
    ("hardhat",
     {| chainId := 31337; networkName := "Hardhat Local";
        rpcUrl := "http://localhost:8545";
        gasMultiplierX100 := 100;
        maxGasPrice := gwei 100; minGasPrice := gwei 1 |}) ].

Definition addresses : list (string * Addresses) :=
  [ ("bsc",
     {| wbnb := "0xbb4CdB9CBd36B01bD1cBaEBF2De08d9173bc095c";
        nfpm := "0x46A15B0b27311cedF172AB29E4f4766fbE7F4364";
        v3Factory := "0x0BFbCF9fa4f9C56B0F40a671Ad40E0805A091865";
        v3Router := "0x1b81D678ffb9C0263b24A97847620C99d213eB14";
        feeRecipient := "0x74c5F8C6ffe41AD4789602BDB9a48E6Cad623520" |});
    ("bscTestnet",
     {| wbnb := "0xae13d989daC2f0dEbFf460aC112a837C89BAa7cd";
        nfpm := "0x427bF5b37357632377eCbEC9de3626C71A539e10";
        v3Factory := "0x0BFbCF9fa4f9C56B0F40a671Ad40E0805A091865";
        v3Router := "0x1b81D678ffb9C0263b24A97847620C99d213eB14";
        feeRecipient := "0x74c5F8C6ffe41AD4789602BDB9a48E6Cad623520" |}) ].

Section WithLibrary.
Context (parseInt : string -> option Z).
Context {Float : Type} (parseFloat : string -> Float).
(** [x < 0.1] and [x > 50] on doubles; both are false of [NaN]. *)
Context (belowTenth above50 : Float -> bool).
(** Whether [new ethers.Wallet(privateKey)] returns. *)
Context (validKey : string -> bool).

Record Bloxroute := mkBloxroute {
  apiEndpoint : string;
  authorizationHeader : option string;
  maxRetries : option Z;
  retryDelay : option Z;
  timeout : option Z
}.

Record Performance := mkPerformance {
  maxConcurrentTransactions : option Z;
  transactionTimeout : option Z;
  gasEstimationBuffer : option Z;
  enableGasOptimization : bool
}.

Record t := mk {
  environment : Env;
  poolFee : option Z;
  slippageTolerance : Float;
  swapDeadline : option Z;
  bloxroute : Bloxroute;
  privateKey : option string;
  monitoring : Logger.Monitoring;
  performance : Performance;
  currentNetwork : string
}.

Definition loadEnvironmentConfig (env : Env) : t :=
  {| environment := env;
     poolFee := parseInt (envOr env "POOL_FEE" "100");
     slippageTolerance := parseFloat (envOr env "SLIPPAGE_TOLERANCE" "0.5");
     swapDeadline := parseInt (envOr env "SWAP_DEADLINE" "600");
     bloxroute :=
       {| apiEndpoint := envOr env "BLOXROUTE_API_ENDPOINT" "https://api.blxrbdn.com";
          authorizationHeader := env "BLOXROUTE_AUTH_HEADER";
          maxRetries := parseInt (envOr env "BLOXROUTE_MAX_RETRIES" "3");
          retryDelay := parseInt (envOr env "BLOXROUTE_RETRY_DELAY" "5000");
          timeout := parseInt (envOr env "BLOXROUTE_TIMEOUT" "30000") |};
     privateKey := env "PRIVATE_KEY";
     monitoring :=
       {| Logger.logLevel := Some (envOr env "LOG_LEVEL" "info");
          Logger.enableLogging := negb (envIs env "ENABLE_LOGGING" "false");
          Logger.enableTelegram := envIs env "ENABLE_TELEGRAM" "true";
          Logger.telegramBotToken := env "TELEGRAM_BOT_TOKEN";
          Logger.telegramChatId := env "TELEGRAM_CHAT_ID";
          Logger.enableDiscord := envIs env "ENABLE_DISCORD" "true";
          Logger.discordWebhookUrl := env "DISCORD_WEBHOOK_URL" |};
     performance :=
       {| maxConcurrentTransactions := parseInt (envOr env "MAX_CONCURRENT_TXS" "5");
          transactionTimeout := parseInt (envOr env "TX_TIMEOUT" "300000");
          gasEstimationBuffer := parseInt (envOr env "GAS_ESTIMATION_BUFFER" "50000");
          enableGasOptimization := negb (envIs env "ENABLE_GAS_OPTIMIZATION" "false") |};
     currentNetwork := envOr env "NETWORK" "bsc" |}.

Definition getNetworkConfig (this : t) : Lookup Network :=
  lookup (networks (environment this)) (currentNetwork this).

Definition getAddresses (this : t) : Lookup Addresses :=
  lookup addresses (currentNetwork this).

Definition isMainnet (this : t) : bool := String.eqb (currentNetwork this) "bsc".

Definition isTestnet (this : t) : bool :=
  String.eqb (currentNetwork this) "bscTestnet".

Definition isLocal (this : t) : bool := String.eqb (currentNetwork this) "hardhat".

(** [a < 100 || a > 10000] on a number that may be [NaN]. *)
Definition outside (lo hi : Z) (x : option Z) : bool :=
  match x with
  | Some n => ((n <? lo) || (hi <? n))%bool
  | None => false
  end.

Definition joined (names : list string) : string :=
  match names with
  | [] => ""
  | first :: rest => fold_left (fun text name => text +:+ ", " +:+ name) rest first
  end.

(** [validateConfig()]: the error it throws, if any. *)
Definition validateConfig (this : t) : option Error :=
  let missing :=
    List.filter (unset (environment this)) ["PRIVATE_KEY"; "BLOXROUTE_AUTH_HEADER"] in
  if negb (Nat.eqb (length missing) 0) then
    Some (newError ("Missing required environment variables: " +:+ joined missing))
  else if absent (getNetworkConfig this) then
    Some (newError ("Unsupported network: " +:+ currentNetwork this))
  else if absent (getAddresses this) then
    Some (newError ("No addresses configured for network: " +:+ currentNetwork this))
  else if negb (validKey (default "" (privateKey this))) then
    Some (newError "Invalid private key format")
  else if outside 100 10000 (poolFee this) then
    Some (newError "Pool fee must be between 100 (0.01%) and 10000 (1%)")
  else if (belowTenth (slippageTolerance this) || above50 (slippageTolerance this))%bool
  then Some (newError "Slippage tolerance must be between 0.1% and 50%")
  else None.

(** [new Config()]. *)
Definition new (env : Env) : Outcome t :=
  let this := loadEnvironmentConfig env in
  match validateConfig this with
  | Some error => Threw (ThrownError error)
  | None => Returned this
  end.

End WithLibrary.

(** What the gas estimator reads of a network. *)
Definition estimatorView (network : Network) : GasOptimizer.NetworkConfig :=
  {| GasOptimizer.gasMultiplierX100 := gasMultiplierX100 network;
     GasOptimizer.minGasPrice := minGasPrice network;
     GasOptimizer.maxGasPrice := maxGasPrice network |}.

End Configuration.

(** ** Concrete data for the configuration *)

Module ConfigurationCases.
Import Js.

(** The two required variables and the test network. *)
Definition testnet : Configuration.Env :=
  fun key =>
    if String.eqb key "PRIVATE_KEY" then Some "0x0123"
    else if String.eqb key "BLOXROUTE_AUTH_HEADER" then Some "secret"
    else if String.eqb key "NETWORK" then Some "bscTestnet"
    else None.

(** [parseInt] on decimal digits. *)
Definition decimal (s : string) : option Z :=
  if String.eqb s "" then None else digits_value 0 s.

(** A slippage tolerance of one half, whatever the text. *)
Definition half : string -> Q := fun _ => (1 # 2)%Q.

Definition belowTenth (x : Q) : bool := negb (Qle_bool (1 # 10) x).

Definition above50 (x : Q) : bool := negb (Qle_bool x 50).

Definition anyKey : string -> bool := fun _ => true.

(** The row of the test network in this environment. *)
Definition testnetRow : Configuration.Network :=
  {| Configuration.chainId := 97;
     Configuration.networkName := "BSC Testnet";
     Configuration.rpcUrl := "https://data-seed-prebsc-1-s1.binance.org:8545/";
     Configuration.gasMultiplierX100 := 110;
     Configuration.maxGasPrice := Configuration.gwei 20;
     Configuration.minGasPrice := Configuration.gwei 1 |}.

End ConfigurationCases.

(** * Properties *)

(** ** Error classification *)

Section Classification.
Import Js ErrorHandler ClassifierRules.
Context `{engine : Engine}.

Lemma applies_unfold rule error :
  applies rule error =
  (codeTest rule (code error)
   || existsb (includes (lowered_message error)) (needles rule))%bool.
Proof. reflexivity. Qed.

(** The nested conditionals of [classifyError] are the rule table read
    top to bottom. *)
Lemma classifyError_firstMatch error :
  classifyError error = firstMatch ruleTable error.
Proof.
  unfold classifyError, ruleTable, firstMatch.
  rewrite !applies_unfold. cbn [kind codeTest needles existsb noCode].
  rewrite !orb_false_r, !orb_assoc. cbn [orb].
  repeat match goal with
  | |- (if ?c then _ else _) = (if ?c then _ else _) =>
      destruct c; [reflexivity|]
  end.
  reflexivity.
Qed.

Lemma firstMatch_none rules error :
  Forall (fun rule => applies rule error = false) rules ->
  firstMatch rules error = UNKNOWN_ERROR.
Proof.
  induction 1 as [|rule rest Hr _ IH]; simpl; [reflexivity|].
  now rewrite Hr.
Qed.

Lemma firstMatch_split before rule rest error :
  Forall (fun earlier => applies earlier error = false) before ->
  applies rule error = true ->
  firstMatch (before ++ rule :: rest) error = kind rule.
Proof.
  induction 1 as [|earlier before' He _ IH]; simpl; intros Hr.
  - now rewrite Hr.
  - rewrite He. now apply IH.
Qed.

End Classification.

(** A few errors as the providers and the relay produce them. *)
Example classify_execution_reverted :
  ErrorHandler.classifyError (engine := Js.reference)
    (Js.mkError (Some "execution reverted: Pausable: paused") Js.CodeUndefined)
  = TRANSACTION_REVERTED.
Proof. reflexivity. Qed.

Example classify_numeric_code :
  ErrorHandler.classifyError (engine := Js.reference)
    (Js.mkError (Some "Bad Gateway") (Js.CodeNumber 502))
  = SERVER_ERROR.
Proof. reflexivity. Qed.

Example classify_insufficient_funds :
  ErrorHandler.classifyError (engine := Js.reference)
    (Js.mkError (Some "insufficient funds for gas * price + value")
       (Js.CodeString "INSUFFICIENT_FUNDS"))
  = INSUFFICIENT_FUNDS
  ∧ ErrorHandler.isRetryable INSUFFICIENT_FUNDS = false.
Proof. split; reflexivity. Qed.

Example classify_http_status_message :
  ErrorHandler.classifyError (engine := Js.reference)
    (Js.mkError (Some "Request failed with status code 500")
       (Js.CodeString "ERR_BAD_RESPONSE"))
  = UNKNOWN_ERROR.
Proof. reflexivity. Qed.

(** C4, as stated, fails: an error whose code is exactly ['TIMEOUT'] is
    classified by the message substring of the earlier network category;
    trying every code before any substring would have answered
    [TIMEOUT]. *)
Lemma classify_message_beats_later_code :
  Js.code_is (Js.code Scenario.timeoutCodeNetworkMessage) "TIMEOUT" = true ∧
  ErrorHandler.classifyError (engine := Js.reference)
    Scenario.timeoutCodeNetworkMessage = NETWORK_ERROR ∧
  ClassifierRules.classifyCodesFirst (engine := Js.reference)
    Scenario.timeoutCodeNetworkMessage = TIMEOUT.
Proof. repeat split; vm_compute; reflexivity. Qed.

(** C4, amended: [classifyError] is total and is the first-match reading of
    the rule table in the order network, timeout, rate-limited, server,
    gas-estimation, insufficient-funds, reverted, nonce-too-low,
    gas-price-too-low, contract, validation, each rule being its code test
    or one of its substrings; so a rule decides exactly when no earlier
    rule applies, whether by code or by message, and without any applicable
    rule the answer is [UNKNOWN_ERROR]. *)
Theorem classifyError_first_match_in_category_order `{engine : Js.Engine}
    (error : Js.Error) :
  ErrorHandler.classifyError error
    = ClassifierRules.firstMatch ClassifierRules.ruleTable error
  ∧ map ClassifierRules.kind ClassifierRules.ruleTable
    = [NETWORK_ERROR; TIMEOUT; RATE_LIMITED; SERVER_ERROR;
       GAS_ESTIMATION_FAILED; INSUFFICIENT_FUNDS; TRANSACTION_REVERTED;
       NONCE_TOO_LOW; GAS_PRICE_TOO_LOW; CONTRACT_ERROR; VALIDATION_ERROR]
  ∧ (∀ before rule rest,
       ClassifierRules.ruleTable = before ++ rule :: rest →
       Forall (fun earlier => ClassifierRules.applies earlier error = false) before →
       ClassifierRules.applies rule error = true →
       ErrorHandler.classifyError error = ClassifierRules.kind rule)
  ∧ (Forall (fun rule => ClassifierRules.applies rule error = false)
       ClassifierRules.ruleTable →
     ErrorHandler.classifyError error = UNKNOWN_ERROR)
  ∧ ErrorHandler.classifyError error
    ∈ map ClassifierRules.kind ClassifierRules.ruleTable ++ [UNKNOWN_ERROR].
Proof.
  split; [apply classifyError_firstMatch|].
  split; [reflexivity|].
  split.
  { intros before rule rest Htable Hbefore Hrule.
    rewrite classifyError_firstMatch, Htable.
    now apply firstMatch_split. }
  split.
  { intros Hnone. rewrite classifyError_firstMatch.
    now apply firstMatch_none. }
  rewrite classifyError_firstMatch.
  generalize ClassifierRules.ruleTable as rules.
  induction rules as [|rule rest IH]; simpl.
  - apply list_elem_of_singleton. reflexivity.
  - destruct (ClassifierRules.applies rule error).
    + apply list_elem_of_here.
    + apply list_elem_of_further, IH.
Qed.

(** ** Circuit breaker *)

Section Breaker.
Import Js CircuitBreaker BreakerHistory.

Lemma after_snoc ops op cb : after (ops ++ [op]) cb = apply (after ops cb) op.
Proof. unfold after. now rewrite fold_left_app. Qed.

Lemma failing_snoc fs f : failing (fs ++ [f]) = failing fs ++ [failure f].
Proof. unfold failing. now rewrite map_app. Qed.

(** Settings never change. *)
Lemma apply_settings cb op :
  failureThreshold (apply cb op) = failureThreshold cb ∧
  recoveryTimeout (apply cb op) = recoveryTimeout cb.
Proof.
  destruct op; simpl; auto.
  unfold canExecute. destruct (state cb); simpl; auto.
  destruct (_ <=? _); simpl; auto.
Qed.

Lemma after_settings ops cb :
  failureThreshold (after ops cb) = failureThreshold cb ∧
  recoveryTimeout (after ops cb) = recoveryTimeout cb.
Proof.
  induction ops as [|op ops IH] using rev_ind; [now split|].
  rewrite after_snoc.
  destruct (apply_settings (after ops cb) op) as [-> ->]. exact IH.
Qed.

(** Every [onFailure] call counts, whatever its argument. *)
Lemma failure_count f cb :
  failureCount (apply cb (failure f)) = failureCount cb + 1.
Proof. destruct f as [now [e|]]; reflexivity. Qed.

Lemma failure_last f cb : lastFailureTime (apply cb (failure f)) = Some f.1.
Proof. destruct f as [now [e|]]; reflexivity. Qed.

Lemma failing_count fs cb :
  failureCount (after (failing fs) cb) = failureCount cb + Z.of_nat (length fs).
Proof.
  induction fs as [|f fs IH] using rev_ind; simpl; [lia|].
  rewrite failing_snoc, after_snoc, failure_count, IH, length_app. simpl. lia.
Qed.

Lemma failing_last fs f cb :
  lastFailureTime (after (failing (fs ++ [f])) cb) = Some f.1.
Proof. rewrite failing_snoc, after_snoc. apply failure_last. Qed.

(** Below the threshold a closed breaker stays closed. *)
Lemma failing_stays_closed fs cb :
  state cb = CLOSED →
  failureCount cb + Z.of_nat (length fs) < failureThreshold cb →
  state (after (failing fs) cb) = CLOSED.
Proof.
  induction fs as [|f fs IH] using rev_ind; intros Hc Hlt; [exact Hc|].
  rewrite failing_snoc, after_snoc.
  rewrite length_app in Hlt. simpl in Hlt.
  destruct f as [now [e|]]; cbn [failure apply snd fst].
  - simpl. destruct (after_settings (failing fs) cb) as [-> _].
    rewrite failing_count.
    destruct (Z.leb_spec (failureThreshold cb)
                (failureCount cb + Z.of_nat (length fs) + 1)); [lia|].
    apply IH; [exact Hc | lia].
  - simpl. apply IH; [exact Hc | lia].
Qed.

(** A failure with an error object that reaches the threshold opens the
    breaker. *)
Lemma failing_opens fs now e cb :
  failureThreshold cb
    <= failureCount cb + Z.of_nat (length (fs ++ [(now, ThrownError e)])) →
  state (after (failing (fs ++ [(now, ThrownError e)])) cb) = OPEN.
Proof.
  intros Hge. rewrite failing_snoc, after_snoc. simpl.
  destruct (after_settings (failing fs) cb) as [-> _].
  rewrite failing_count. rewrite length_app in Hge. simpl in Hge.
  destruct (Z.leb_spec (failureThreshold cb)
              (failureCount cb + Z.of_nat (length fs) + 1)); [reflexivity|lia].
Qed.

(** A failure with [undefined] leaves the state as it was. *)
Lemma failing_undefined fs now cb :
  state (after (failing (fs ++ [(now, ThrownUndefined)])) cb)
  = state (after (failing fs) cb).
Proof. rewrite failing_snoc, after_snoc. reflexivity. Qed.

Lemma new_threshold_nonzero options : failureThreshold (new options) ≠ 0.
Proof.
  simpl. unfold js_or. destruct (opt_failureThreshold options) as [v|]; [|lia].
  destruct (Z.eqb_spec v 0); lia.
Qed.

Lemma apply_tripped cb op : tripped cb → tripped (apply cb op).
Proof.
  unfold tripped. intros H. destruct op; simpl; auto.
  - unfold canExecute. destruct (state cb) eqn:Hs; simpl; auto.
    + destruct (_ <=? _); simpl; destruct H as [H|H];
        try discriminate; right; exact H.
    + destruct H as [H|H]; try discriminate; right; exact H.
  - destruct (Z.leb_spec (failureThreshold cb) (failureCount cb + 1)); auto.
    destruct H; auto. right. lia.
  - destruct H; auto. right. lia.
Qed.

Lemma after_tripped ops cb : tripped cb → tripped (after ops cb).
Proof.
  intros H. induction ops as [|op ops IH] using rev_ind; [exact H|].
  rewrite after_snoc. now apply apply_tripped.
Qed.

End Breaker.

(** C6, as stated, fails: [onFailure] reads [error.message] after it has
    counted the failure and set the time, but before it compares the
    count with the threshold.  Called with [undefined] (what
    [executeWithCircuitBreaker] hands over when the operation rejects with
    [undefined]) it throws there, so five such calls leave a breaker with
    the default threshold of five [CLOSED], with a count of five, and
    [canExecute] still answers true. *)
Lemma undefined_failures_leave_breaker_closed :
  let initial := CircuitBreaker.new Scenario.breakerDefaults in
  let cb := BreakerHistory.after (BreakerHistory.failing Scenario.fiveRejections)
              initial in
  Z.of_nat (length Scenario.fiveRejections) = CircuitBreaker.failureThreshold initial
  ∧ CircuitBreaker.failureCount cb = 5
  ∧ CircuitBreaker.state cb = CLOSED
  ∧ CircuitBreaker.state cb ≠ OPEN
  ∧ CircuitBreaker.canExecute 5001 cb = (true, cb).
Proof. vm_compute. repeat split. discriminate. Qed.

(** C6, amended: from the initial state, [failureThreshold] consecutive
    [onFailure] calls leave [failureCount] at the threshold and
    [lastFailureTime] at the time of the last call, and the breaker was
    [CLOSED] after any smaller number of them.  When the last call was
    given an error object the breaker is [OPEN]: [canExecute] then answers
    false and changes nothing as long as less than [recoveryTimeout] has
    passed since that time; once [recoveryTimeout] has passed it answers
    true and moves to [HALF_OPEN], after which [onSuccess] gives [CLOSED]
    with [failureCount] 0 and no recorded failures.  When the last call
    was given [undefined] the breaker is still [CLOSED]. *)
Theorem breaker_opens_then_recovers (options : CircuitBreaker.Options)
    (fs : list (Z * Js.Thrown)) :
  let initial := CircuitBreaker.new options in
  Z.of_nat (length fs) = CircuitBreaker.failureThreshold initial →
  let cb := BreakerHistory.after (BreakerHistory.failing fs) initial in
  CircuitBreaker.failureCount cb = CircuitBreaker.failureThreshold initial
  ∧ (∀ k, (k < length fs)%nat →
       CircuitBreaker.state
         (BreakerHistory.after (BreakerHistory.failing (take k fs)) initial) = CLOSED)
  ∧ ∃ lastFailure argument,
      last fs = Some (lastFailure, argument)
      ∧ CircuitBreaker.lastFailureTime cb = Some lastFailure
      ∧ (BreakerHistory.isErrorObject argument = false →
         CircuitBreaker.state cb = CLOSED)
      ∧ (BreakerHistory.isErrorObject argument = true →
         CircuitBreaker.state cb = OPEN
         ∧ (∀ now, now - lastFailure < CircuitBreaker.recoveryTimeout cb →
              CircuitBreaker.canExecute now cb = (false, cb))
         ∧ (∀ now, CircuitBreaker.recoveryTimeout cb <= now - lastFailure →
              ∃ trial,
                CircuitBreaker.canExecute now cb = (true, trial)
                ∧ CircuitBreaker.state trial = HALF_OPEN
                ∧ CircuitBreaker.state (CircuitBreaker.onSuccess trial) = CLOSED
                ∧ CircuitBreaker.failureCount (CircuitBreaker.onSuccess trial) = 0
                ∧ CircuitBreaker.failures (CircuitBreaker.onSuccess trial) = [])).
Proof.
  intros initial Hlen cb.
  assert (Hnz := new_threshold_nonzero options). fold initial in Hnz.
  destruct fs as [|f0 fs0] using rev_ind;
    [exfalso; apply Hnz; symmetry; exact Hlen|]. clear IHfs0.
  assert (Hlast : CircuitBreaker.lastFailureTime cb = Some f0.1)
    by apply failing_last.
  assert (Hbelow : ∀ k, (k < length (fs0 ++ [f0]))%nat →
            CircuitBreaker.state
              (BreakerHistory.after
                 (BreakerHistory.failing (take k (fs0 ++ [f0]))) initial) = CLOSED).
  { intros k Hk. apply failing_stays_closed; [reflexivity|].
    rewrite length_take. simpl CircuitBreaker.failureCount at 1. lia. }
  split; [unfold cb; rewrite failing_count; simpl CircuitBreaker.failureCount at 1; lia|].
  split; [exact Hbelow|].
  destruct f0 as [lastFailure argument].
  exists lastFailure, argument. split; [apply last_snoc|].
  split; [exact Hlast|].
  destruct argument as [e|]; (split; [intros Hkind|intros Hkind]);
    try discriminate.
  - assert (Hopen : CircuitBreaker.state cb = OPEN).
    { apply failing_opens. simpl CircuitBreaker.failureCount at 1. lia. }
    split; [exact Hopen|]. split.
    + intros now Hnow. unfold CircuitBreaker.canExecute.
      rewrite Hopen, Hlast. simpl default.
      destruct (Z.leb_spec (CircuitBreaker.recoveryTimeout cb) (now - lastFailure));
        [lia|].
      reflexivity.
    + intros now Hnow. eexists. unfold CircuitBreaker.canExecute.
      rewrite Hopen, Hlast. simpl default.
      destruct (Z.leb_spec (CircuitBreaker.recoveryTimeout cb) (now - lastFailure));
        [|lia].
      repeat split.
  - unfold cb. rewrite failing_undefined.
    specialize (Hbelow (length fs0)). rewrite take_app_length in Hbelow.
    apply Hbelow. rewrite length_app. simpl. lia.
Qed.

(** With the default settings: five failures with an error object, the
    last at 5000 ms. *)
Lemma breaker_opens_then_recovers_witness :
  Z.of_nat (length Scenario.fiveFailures)
    = CircuitBreaker.failureThreshold (CircuitBreaker.new Scenario.breakerDefaults)
  ∧ CircuitBreaker.state
      (BreakerHistory.after (BreakerHistory.failing Scenario.fiveFailures)
         (CircuitBreaker.new Scenario.breakerDefaults)) = OPEN.
Proof.
  split; [reflexivity|].
  destruct (breaker_opens_then_recovers Scenario.breakerDefaults
              Scenario.fiveFailures eq_refl)
    as (_ & _ & lastFailure & argument & Hlast & _ & _ & Hopen).
  injection Hlast as <- <-.
  apply Hopen. reflexivity.
Defined.

(** C10, as stated, fails for an [onFailure] call that is given
    [undefined]: after five failures and a probe past the recovery
    timeout the breaker is [HALF_OPEN], the call raises the count to six
    and throws before the state is assigned, and the breaker stays
    [HALF_OPEN], where [canExecute] admits the next call. *)
Lemma half_open_survives_undefined_failure :
  let trial :=
    BreakerHistory.after
      (BreakerHistory.failing Scenario.fiveFailures ++ [BreakerHistory.CanExecute 65000])
      (CircuitBreaker.new Scenario.breakerDefaults) in
  let cb := BreakerHistory.apply trial (BreakerHistory.OnFailureOfUndefined 65010) in
  CircuitBreaker.state trial = HALF_OPEN
  ∧ CircuitBreaker.failureCount cb = 6
  ∧ CircuitBreaker.state cb = HALF_OPEN
  ∧ CircuitBreaker.state cb ≠ OPEN
  ∧ (CircuitBreaker.canExecute 65020 cb).1 = true.
Proof. vm_compute. repeat split. discriminate. Qed.

(** C10, amended: in every state that the breaker's own methods (and the
    manager's reset) can produce from the initial one, whatever the
    arguments of the [onFailure] calls were, [HALF_OPEN] comes with
    [failureCount >= failureThreshold]; so one [onFailure] with an error
    object in [HALF_OPEN] gives [OPEN], while one with [undefined] only
    raises the count and leaves [HALF_OPEN]. *)
Theorem half_open_failure_reopens (options : CircuitBreaker.Options)
    (ops : list BreakerHistory.Op) (now : Z) :
  let cb := BreakerHistory.after ops (CircuitBreaker.new options) in
  CircuitBreaker.state cb = HALF_OPEN →
  CircuitBreaker.failureThreshold cb <= CircuitBreaker.failureCount cb
  ∧ (∀ error : Js.Error,
       CircuitBreaker.state (CircuitBreaker.onFailure now error cb) = OPEN)
  ∧ CircuitBreaker.state (CircuitGuard.onFailureOfUndefined now cb) = HALF_OPEN
  ∧ CircuitBreaker.failureCount (CircuitGuard.onFailureOfUndefined now cb)
    = CircuitBreaker.failureCount cb + 1.
Proof.
  intros cb Hhalf.
  assert (Htrip : BreakerHistory.tripped cb) by (apply after_tripped; now left).
  destruct Htrip as [Hclosed|Hge]; [congruence|].
  split; [exact Hge|]. split; [|split; [exact Hhalf|reflexivity]].
  intros error. simpl.
  destruct (Z.leb_spec (CircuitBreaker.failureThreshold cb)
              (CircuitBreaker.failureCount cb + 1)); [reflexivity|lia].
Qed.

(** Five failures, a probe after the recovery timeout, then a failure. *)
Lemma half_open_failure_reopens_witness :
  let ops := BreakerHistory.failing Scenario.fiveFailures
             ++ [BreakerHistory.CanExecute 65000] in
  CircuitBreaker.state
    (BreakerHistory.after ops (CircuitBreaker.new Scenario.breakerDefaults)) = HALF_OPEN
  ∧ CircuitBreaker.state
      (CircuitBreaker.onFailure 65010 Scenario.timeoutError
         (BreakerHistory.after ops (CircuitBreaker.new Scenario.breakerDefaults))) = OPEN.
Proof.
  split; [reflexivity|].
  apply (half_open_failure_reopens Scenario.breakerDefaults
           (BreakerHistory.failing Scenario.fiveFailures
            ++ [BreakerHistory.CanExecute 65000]) 65010).
  reflexivity.
Defined.

(** ** Gas price estimation *)

Section GasBounds.
Import Js GasOptimizer.

Lemma ensureWithinBounds_spec networkConfig g :
  minGasPrice networkConfig <= maxGasPrice networkConfig →
  minGasPrice networkConfig <= ensureWithinBounds networkConfig g
    <= maxGasPrice networkConfig
  ∧ (g < minGasPrice networkConfig →
     ensureWithinBounds networkConfig g = minGasPrice networkConfig)
  ∧ (maxGasPrice networkConfig < g →
     ensureWithinBounds networkConfig g = maxGasPrice networkConfig)
  ∧ (minGasPrice networkConfig <= g <= maxGasPrice networkConfig →
     ensureWithinBounds networkConfig g = g).
Proof.
  intros Hbounds. unfold ensureWithinBounds.
  destruct (Z.ltb_spec g (minGasPrice networkConfig));
    destruct (Z.ltb_spec (maxGasPrice networkConfig) g); lia.
Qed.

End GasBounds.

(** C8: with [minPrice <= maxPrice], for every raw quote of the provider
    [estimateOptimalGasPrice] returns a price, and that price lies in
    [[minPrice, maxPrice]]: it is the quote times the multiplier divided by
    100 (truncated), raised to [minPrice] when below and lowered to
    [maxPrice] when above; and whatever the provider answered, a price that
    is returned lies in the interval. *)
Theorem estimate_price_within_bounds (networkConfig : GasOptimizer.NetworkConfig)
    (now : Z) (this : GasOptimizer.t) :
  GasOptimizer.minGasPrice networkConfig <= GasOptimizer.maxGasPrice networkConfig →
  (∀ quote,
     ∃ price this',
       GasOptimizer.estimateOptimalGasPrice networkConfig
         (Js.Returned {| GasOptimizer.feeGasPrice := Some quote |}) now this
       = (Js.Returned price, this')
       ∧ GasOptimizer.minGasPrice networkConfig <= price
           <= GasOptimizer.maxGasPrice networkConfig
       ∧ let scaled := Z.quot (quote * GasOptimizer.gasMultiplierX100 networkConfig) 100 in
         (scaled < GasOptimizer.minGasPrice networkConfig →
          price = GasOptimizer.minGasPrice networkConfig)
         ∧ (GasOptimizer.maxGasPrice networkConfig < scaled →
            price = GasOptimizer.maxGasPrice networkConfig)
         ∧ (GasOptimizer.minGasPrice networkConfig <= scaled
              <= GasOptimizer.maxGasPrice networkConfig → price = scaled))
  ∧ (∀ fetched price this',
       GasOptimizer.estimateOptimalGasPrice networkConfig fetched now this
       = (Js.Returned price, this') →
       GasOptimizer.minGasPrice networkConfig <= price
         <= GasOptimizer.maxGasPrice networkConfig).
Proof.
  intros Hbounds. split.
  - intros quote. do 2 eexists. split; [reflexivity|].
    apply (ensureWithinBounds_spec networkConfig
             (GasOptimizer.applyMultiplier networkConfig quote) Hbounds).
  - intros fetched price this' Hrun.
    destruct fetched as [[[quote|]]|thrown]; simpl in Hrun; try discriminate.
    injection Hrun as <- _.
    apply (ensureWithinBounds_spec networkConfig
             (GasOptimizer.applyMultiplier networkConfig quote) Hbounds).
Qed.

(** A quote of 5 gwei with multiplier 1.20 and bounds 1 and 20 gwei. *)
Lemma estimate_price_within_bounds_witness :
  GasOptimizer.minGasPrice Scenario.quoted <= GasOptimizer.maxGasPrice Scenario.quoted
  ∧ ∃ price this',
      GasOptimizer.estimateOptimalGasPrice Scenario.quoted
        (Js.Returned {| GasOptimizer.feeGasPrice := Some 5000000000 |}) 0
        GasOptimizer.new
      = (Js.Returned price, this')
      ∧ GasOptimizer.minGasPrice Scenario.quoted <= price
          <= GasOptimizer.maxGasPrice Scenario.quoted.
Proof.
  assert (H : GasOptimizer.minGasPrice Scenario.quoted
              <= GasOptimizer.maxGasPrice Scenario.quoted) by (simpl; lia).
  split; [exact H|].
  destruct (proj1 (estimate_price_within_bounds Scenario.quoted 0 GasOptimizer.new H)
              5000000000) as (price & this' & Hrun & Hin & _).
  exists price, this'. split; [exact Hrun | exact Hin].
Defined.

(** ** Transaction monitor *)

(** C9, as stated, fails: a second [startMonitoring] for a pending id
    replaces the pending record and counts one more transaction. *)
Lemma duplicate_start_overwrites_and_counts :
  TransactionMonitor.pendingTransactions Scenario.tracking !! "0xabc"
    = Some (TransactionMonitor.mkRecord "first" 1000 TransactionMonitor.pending)
  ∧ TransactionMonitor.totalTransactions
      (TransactionMonitor.metrics Scenario.tracking) = 1
  ∧ TransactionMonitor.pendingTransactions
      (TransactionMonitor.startMonitoring 2000 "0xabc" "second" Scenario.tracking)
      !! "0xabc"
    = Some (TransactionMonitor.mkRecord "second" 2000 TransactionMonitor.pending)
  ∧ TransactionMonitor.totalTransactions
      (TransactionMonitor.metrics
         (TransactionMonitor.startMonitoring 2000 "0xabc" "second" Scenario.tracking))
    = 2.
Proof.
  unfold Scenario.tracking, TransactionMonitor.startMonitoring. simpl.
  rewrite !lookup_insert_eq. repeat split.
Qed.

(** C9, amended: for an id that already has a pending record, a second
    [startMonitoring] puts a fresh pending record (the new metadata, the
    new start time) in place of the old one and adds one to
    [totalTransactions]; the pending records of other ids, the completed
    and failed maps and every other metric are unchanged. *)
Theorem duplicate_start_replaces_and_counts {TxData : Type} (now : Z)
    (txHash : string) (data : TxData) (this : TransactionMonitor.t TxData) :
  is_Some (TransactionMonitor.pendingTransactions this !! txHash) →
  let again := TransactionMonitor.startMonitoring now txHash data this in
  TransactionMonitor.pendingTransactions again !! txHash
    = Some (TransactionMonitor.mkRecord data now TransactionMonitor.pending)
  ∧ (∀ other, other ≠ txHash →
       TransactionMonitor.pendingTransactions again !! other
       = TransactionMonitor.pendingTransactions this !! other)
  ∧ TransactionMonitor.completedTransactions again
    = TransactionMonitor.completedTransactions this
  ∧ TransactionMonitor.failedTransactionsMap again
    = TransactionMonitor.failedTransactionsMap this
  ∧ TransactionMonitor.totalTransactions (TransactionMonitor.metrics again)
    = TransactionMonitor.totalTransactions (TransactionMonitor.metrics this) + 1
  ∧ TransactionMonitor.successfulTransactions (TransactionMonitor.metrics again)
    = TransactionMonitor.successfulTransactions (TransactionMonitor.metrics this)
  ∧ TransactionMonitor.failedTransactions (TransactionMonitor.metrics again)
    = TransactionMonitor.failedTransactions (TransactionMonitor.metrics this)
  ∧ TransactionMonitor.totalGasUsed (TransactionMonitor.metrics again)
    = TransactionMonitor.totalGasUsed (TransactionMonitor.metrics this)
  ∧ TransactionMonitor.totalFeesPaid (TransactionMonitor.metrics again)
    = TransactionMonitor.totalFeesPaid (TransactionMonitor.metrics this)
  ∧ TransactionMonitor.averageGasPrice (TransactionMonitor.metrics again)
    = TransactionMonitor.averageGasPrice (TransactionMonitor.metrics this).
Proof.
  intros _ again. unfold again, TransactionMonitor.startMonitoring. simpl.
  split; [apply lookup_insert_eq|].
  split; [intros other Hne; now apply lookup_insert_ne|].
  repeat split.
Qed.

Lemma duplicate_start_replaces_and_counts_witness :
  is_Some (TransactionMonitor.pendingTransactions Scenario.tracking !! "0xabc")
  ∧ TransactionMonitor.totalTransactions
      (TransactionMonitor.metrics
         (TransactionMonitor.startMonitoring 2000 "0xabc" "second" Scenario.tracking))
    = TransactionMonitor.totalTransactions
        (TransactionMonitor.metrics Scenario.tracking) + 1.
Proof.
  assert (H : is_Some (TransactionMonitor.pendingTransactions Scenario.tracking
                         !! "0xabc")).
  { unfold Scenario.tracking, TransactionMonitor.startMonitoring. simpl.
    rewrite lookup_insert_eq. eexists. reflexivity. }
  split; [exact H|].
  apply (duplicate_start_replaces_and_counts 2000 "0xabc" "second" Scenario.tracking H).
Defined.

(** ** Back-off delay *)

Section Backoff.
Import Js RetryConfig.
Context `{engine : Engine} (ieee : Ieee754).

Notation "x ⊑ y" := (lessEq x y = true) (at level 70).

(** The capped part and the jitter added to it, for a cap [cap] and a
    draw [random]. *)
Lemma jittered_bounds (capped cap jitter random : Number) :
  literal 0 ⊑ capped → capped ⊑ cap → isFinite cap = true →
  literal 0 ⊑ jitter → isFinite jitter = true →
  isFinite (multiply cap jitter) = true →
  literal 0 ⊑ random → random ⊑ literal 1 →
  capped ⊑ add capped (multiply (multiply capped jitter) random)
  ∧ add capped (multiply (multiply capped jitter) random)
    ⊑ add cap (multiply cap jitter).
Proof.
  intros Hc Hcap Hfcap Hj Hfj Hfull Hr Hr1.
  assert (Hfc : isFinite capped = true)
    by exact (finite_between ieee _ _ Hc Hcap Hfcap).
  assert (Hfr : isFinite random = true)
    by exact (finite_between ieee _ _ Hr Hr1 (finite_one ieee)).
  assert (Hcj : literal 0 ⊑ multiply capped jitter)
    by exact (multiply_nonneg ieee _ _ Hfc Hfj Hc Hj).
  assert (Hcjcap : multiply capped jitter ⊑ multiply cap jitter)
    by exact (multiply_increasing_l ieee _ _ _ Hfcap Hfj Hc Hcap Hj).
  assert (Hfcj : isFinite (multiply capped jitter) = true)
    by exact (finite_between ieee _ _ Hcj Hcjcap Hfull).
  assert (Hx : literal 0 ⊑ multiply (multiply capped jitter) random)
    by exact (multiply_nonneg ieee _ _ Hfcj Hfr Hcj Hr).
  assert (Hxcj : multiply (multiply capped jitter) random ⊑ multiply capped jitter)
    by exact (multiply_fraction ieee _ _ Hfcj Hcj Hr Hr1).
  assert (Hfx : isFinite (multiply (multiply capped jitter) random) = true)
    by exact (finite_between ieee _ _ Hx Hxcj Hfcj).
  split.
  - exact (add_nonneg ieee _ _ Hfc Hfx Hx).
  - apply (add_increasing ieee); try assumption.
    exact (lessEq_trans ieee _ _ _ Hxcj Hcjcap).
Qed.

Lemma cappedDelay_bounds this attempt :
  literal 0 ⊑ exponentialDelay this attempt →
  literal 0 ⊑ maxDelay this → isFinite (maxDelay this) = true →
  literal 0 ⊑ cappedDelay this attempt
  ∧ cappedDelay this attempt ⊑ maxDelay this.
Proof.
  intros Hexp Hmax Hfmax. unfold cappedDelay. split.
  - exact (mathMin_nonneg ieee _ _ Hexp Hmax).
  - apply (mathMin_right ieee).
    + exact (lessEq_number_r ieee _ _ Hexp).
    + exact (finite_number ieee _ Hfmax).
Qed.

Lemma calculateDelay_bounds this attempt random :
  literal 0 ⊑ random → random ⊑ literal 1 →
  literal 0 ⊑ exponentialDelay this attempt →
  literal 0 ⊑ maxDelay this → isFinite (maxDelay this) = true →
  literal 0 ⊑ jitter this → isFinite (jitter this) = true →
  isFinite (multiply (maxDelay this) (jitter this)) = true →
  mathFloor (cappedDelay this attempt) ⊑ calculateDelay this attempt random
  ∧ calculateDelay this attempt random
    ⊑ mathFloor (add (maxDelay this) (multiply (maxDelay this) (jitter this))).
Proof.
  intros Hr Hr1 Hexp Hmax Hfmax Hj Hfj Hfull.
  destruct (cappedDelay_bounds this attempt Hexp Hmax Hfmax) as [Hc Hcap].
  destruct (jittered_bounds _ _ _ _ Hc Hcap Hfmax Hj Hfj Hfull Hr Hr1) as [Hlo Hhi].
  unfold calculateDelay. cbn zeta.
  split; apply (mathFloor_increasing ieee); assumption.
Qed.

End Backoff.

(** The engine of the examples computes in exact rationals, for which the
    laws hold. *)
Lemma reference_ieee754 : @Js.Ieee754 Js.reference.
Proof.
  assert (Hle : ∀ x y : Q, Qle_bool x y = true ↔ (x <= y)%Q)
    by (intros x y; apply Qle_bool_iff).
  split; cbn [Js.lessEq Js.isFinite Js.literal Js.multiply Js.add Js.mathMin
              Js.mathFloor Js.reference];
    intros; rewrite ?Hle in *; try reflexivity.
  - eapply Qle_trans; eassumption.
  - apply Qle_refl.
  - apply Qle_refl.
  - apply Qle_refl.
  - apply Q.le_min_r.
  - apply Q.min_glb; assumption.
  - apply Qmult_le_0_compat; assumption.
  - nra.
  - nra.
  - lra.
  - lra.
  - apply Qfloor_le.
  - rewrite <- Zle_Qle. apply Qfloor_resp_le. assumption.
Qed.

(** C3, as stated, fails in its bound: with [baseDelay] 1000, [maxDelay]
    30000, base 2 and jitter 0.5, attempt 6 is capped at 30000 and a draw
    of 0.5 adds 7500 on top of the cap.  Every operation of this
    computation is exact in double arithmetic. *)
Lemma jittered_delay_exceeds_maxDelay :
  Js.lessEq (Engine := Js.reference) 0%Q (1 # 2)%Q = true
  ∧ Js.lessEq (Engine := Js.reference) (1 # 2)%Q 1%Q = true
  ∧ (1 # 2 < 1)%Q
  ∧ RetryConfig.maxDelay Scenario.backoff = 30000%Q
  ∧ RetryConfig.calculateDelay Scenario.backoff 6 (1 # 2)%Q = 37500%Q
  ∧ Js.lessEq (RetryConfig.calculateDelay Scenario.backoff 6 (1 # 2)%Q)
      (RetryConfig.maxDelay Scenario.backoff) = false.
Proof. repeat split; vm_compute; reflexivity. Qed.

(** C3, amended: in double arithmetic (any arithmetic with the laws
    [Ieee754]), for every attempt number [n >= 1] and every draw in
    [[0,1]], when the exponential delay [baseDelay * exponentialBase^(n-1)]
    is a non-negative number, [maxDelay] and the jitter fraction are
    non-negative and finite and [maxDelay * jitter] is finite, the delay is
    [floor(capped + capped * jitter * random)] with
    [capped = min(baseDelay * exponentialBase^(n-1), maxDelay)], as the
    specification words it; the capped part never exceeds [maxDelay]; the
    delay is at least [floor(capped)] and never exceeds
    [floor(maxDelay + maxDelay * jitter)]. *)
Theorem calculateDelay_formula_and_bound `{engine : Js.Engine}
    (this : RetryConfig.t) (n : Z) (random : Js.Number) :
  Js.Ieee754 →
  1 <= n →
  Js.lessEq (Js.literal 0) random = true →
  Js.lessEq random (Js.literal 1) = true →
  Js.lessEq (Js.literal 0) (RetryConfig.exponentialDelay this n) = true →
  Js.lessEq (Js.literal 0) (RetryConfig.maxDelay this) = true →
  Js.isFinite (RetryConfig.maxDelay this) = true →
  Js.lessEq (Js.literal 0) (RetryConfig.jitter this) = true →
  Js.isFinite (RetryConfig.jitter this) = true →
  Js.isFinite (Js.multiply (RetryConfig.maxDelay this) (RetryConfig.jitter this))
    = true →
  RetryConfig.calculateDelay this n random
    = BackoffSpec.delay (RetryConfig.baseDelay this)
        (RetryConfig.exponentialBase this) (RetryConfig.maxDelay this)
        (RetryConfig.jitter this) n random
  ∧ RetryConfig.cappedDelay this n
    = BackoffSpec.capped (RetryConfig.baseDelay this)
        (RetryConfig.exponentialBase this) (RetryConfig.maxDelay this) n
  ∧ Js.lessEq (RetryConfig.cappedDelay this n) (RetryConfig.maxDelay this) = true
  ∧ Js.lessEq (Js.mathFloor (RetryConfig.cappedDelay this n))
      (RetryConfig.calculateDelay this n random) = true
  ∧ Js.lessEq (RetryConfig.calculateDelay this n random)
      (Js.mathFloor
         (Js.add (RetryConfig.maxDelay this)
            (Js.multiply (RetryConfig.maxDelay this) (RetryConfig.jitter this))))
    = true.
Proof.
  intros ieee _ Hr Hr1 Hexp Hmax Hfmax Hj Hfj Hfull.
  split; [reflexivity|]. split; [reflexivity|].
  split; [exact (proj2 (cappedDelay_bounds ieee this n Hexp Hmax Hfmax))|].
  exact (calculateDelay_bounds ieee this n random Hr Hr1 Hexp Hmax Hfmax Hj Hfj Hfull).
Qed.

(** Attempt 6 of the example settings with a draw of 0.5: between 30000
    and 45000. *)
Lemma calculateDelay_formula_and_bound_witness :
  Js.lessEq (RetryConfig.calculateDelay Scenario.backoff 6 (1 # 2)%Q) 45000%Q = true.
Proof.
  apply (calculateDelay_formula_and_bound (engine := Js.reference)
           Scenario.backoff 6 (1 # 2)%Q reference_ieee754);
    first [lia | reflexivity].
Defined.

(** ** Retry manager *)

Section Retry.
Import Js RetryManager Journal BreakerHistory.
Context `{engine : Engine} {W : Type} (rt : Runtime W) {A : Type}.
Implicit Types (operation : W → Outcome A * W) (r : Run W).

Lemma consultBreaker_unfold r :
  consultBreaker rt r =
  let verdict :=
    CircuitBreaker.canExecute (dateNow rt (world r)).1 (circuitBreaker (manager r)) in
  (verdict.1,
   mkRun {| retryConfig := retryConfig (manager r); circuitBreaker := verdict.2 |}
         (dateNow rt (world r)).2
         (journal r ++ [BreakerConsulted verdict.1])).
Proof.
  unfold consultBreaker. destruct (dateNow rt (world r)) as [now w]. simpl.
  destruct (CircuitBreaker.canExecute now (circuitBreaker (manager r))).
  reflexivity.
Qed.

Lemma attempts_threw operation attempt rest last r e w' :
  operation (world r) = (Threw (ThrownError e), w') →
  attempts rt operation (attempt :: rest) last r =
  let failed := failedRun rt attempt e w' r in
  let kind := ErrorHandler.classifyError e in
  if negb (ErrorHandler.isRetryable kind) then
    (Threw (ThrownError e), emit (LogNonRetryable kind) failed)
  else if attempt =? RetryConfig.maxRetries (retryConfig (manager r)) then
    (Threw (ThrownError e), emit (LogFailedAfter attempt) failed)
  else
    let draw := mathRandom rt (world failed) in
    let delay := RetryConfig.calculateDelay (retryConfig (manager r)) attempt draw.1 in
    attempts rt operation rest (ThrownError e)
      (mkRun (manager failed) (setTimeout rt delay draw.2)
             (journal failed ++ [LogRetrying attempt delay; Slept delay])).
Proof.
  intros Hop. simpl. rewrite Hop.
  unfold failedRun, recordFailure, emit, set_world, set_breaker. simpl.
  destruct (dateNow rt w') as [now w]. simpl.
  rewrite <- !app_assoc. simpl.
  destruct (ErrorHandler.isRetryable (ErrorHandler.classifyError e)); simpl;
    [|reflexivity].
  destruct (attempt =? _); [reflexivity|].
  destruct (mathRandom rt w) as [x w0]. simpl.
  rewrite <- !app_assoc. reflexivity.
Qed.

Lemma seqZ_first (k : Z) (n : nat) :
  seqZ k (Z.of_nat (S n)) = k :: seqZ (k + 1) (Z.of_nat n).
Proof.
  rewrite seqZ_cons by lia. f_equal. f_equal; lia.
Qed.

(** Every attempt fails with a retryable error: the loop runs to its
    last attempt and throws what that attempt threw. *)
Lemma attempts_exhaust operation :
  (∀ w, ∃ e w', operation w = (Threw (ThrownError e), w')
                ∧ ErrorHandler.isRetryable (ErrorHandler.classifyError e) = true) →
  ∀ (n : nat) (k : Z) (lastError : Thrown) r,
    RetryConfig.maxRetries (retryConfig (manager r)) = k + Z.of_nat n →
    ∃ e w w' r' new,
      attempts rt operation (seqZ k (Z.of_nat (S n))) lastError r
        = (Threw (ThrownError e), r')
      ∧ operation w = (Threw (ThrownError e), w')
      ∧ world r' = (dateNow rt w').2
      ∧ retryConfig (manager r') = retryConfig (manager r)
      ∧ journal r' = journal r ++ new
      ∧ invocations new = OperationInvoked <$> seqZ k (Z.of_nat (S n))
      ∧ LogErrorOccurred (ErrorHandler.classifyError e) e (k + Z.of_nat n) ∈ new
      ∧ last new = Some (LogFailedAfter (k + Z.of_nat n)).
Proof.
  intros Hfail n. induction n as [|n IH]; intros k lastError r Hmax;
    rewrite seqZ_first;
    destruct (Hfail (world r)) as (e & w' & Hop & Hretry);
    rewrite (attempts_threw _ _ _ _ _ _ _ Hop); cbn zeta;
    rewrite Hretry; cbn [negb].
  - replace (k =? _) with true by (symmetry; apply Z.eqb_eq; lia).
    exists e, (world r), w', (emit (LogFailedAfter k) (failedRun rt k e w' r)).
    eexists. split; [reflexivity|]. split; [exact Hop|].
    split; [reflexivity|]. split; [reflexivity|].
    split; [simpl; rewrite <- app_assoc; reflexivity|].
    replace (k + Z.of_nat 0) with k by lia.
    split; [reflexivity|]. split; [|reflexivity].
    apply list_elem_of_further, list_elem_of_further, list_elem_of_here.
  - replace (k =? _) with false by (symmetry; apply Z.eqb_neq; lia).
    match goal with
    | |- context [attempts rt operation _ _ ?r2] =>
        destruct (IH (k + 1) (ThrownError e) r2) as
          (e' & w1 & w1' & r' & new & Hrun & Hop' & Hworld & Hcfg & Hj & Hinv & Hlog & Hlast);
          [simpl; lia|]
    end.
    exists e', w1, w1', r'. eexists.
    split; [exact Hrun|]. split; [exact Hop'|]. split; [exact Hworld|].
    split; [exact Hcfg|].
    split; [rewrite Hj; simpl; rewrite <- !app_assoc; reflexivity|].
    replace (k + Z.of_nat (S n)) with (k + 1 + Z.of_nat n) by lia.
    split.
    { unfold invocations in *. rewrite !filter_app, Hinv. reflexivity. }
    split.
    { rewrite !elem_of_app. right. right. exact Hlog. }
    rewrite !last_app, Hlast. reflexivity.
Qed.


(** *** Executions inside one recovery window *)


Section AlwaysFailing.
Context (operation : W → Outcome A * W) (t0 : Z).
Hypothesis Hfail : ∀ w, ∃ e w', operation w = (Threw (ThrownError e), w').
Hypothesis Hclock : ∀ w, t0 <= (dateNow rt w).1.


Context (T : Z).
Hypothesis Hrecent : ∀ w, (dateNow rt w).1 < t0 + T.



End AlwaysFailing.
End Retry.




(** An operation that rejects with [undefined] is another matter:
    [handleError] throws on reading [error.message] before [onFailure] is
    reached, so the breaker never counts a failure and every call invokes
    the operation. *)
Example undefined_rejections_never_open :
  let r := RetryManager.mkRun Scenario.oneAttempt tt [] in
  (λ call, (call.1.2, Journal.invocations (RetryManager.journal call.2),
            CircuitBreaker.failureCount
              (RetryManager.circuitBreaker (RetryManager.manager call.2))))
    <$> Journal.executions Scenario.frozenClock 5 Scenario.alwaysRejects r
  = replicate 5
      (Js.Threw (Js.ThrownError RetryManager.typeError), [OperationInvoked 1], 0).
Proof. reflexivity. Qed.

Section Recorded.
Import Js RetryManager Journal Probe.
Context `{engine : Engine} {W : Type} (rt : Runtime W) {A : Type}.
Context (operation : W → Outcome A * W).

Lemma recorded_unfold (s : Recorded (W := W) (A := A)) :
  recorded operation s
  = ((operation s.1).1, ((operation s.1).2, s.2 ++ [(operation s.1).1])).
Proof. unfold recorded. now destruct (operation s.1). Qed.

Lemma recording_dateNow (s : Recorded (W := W) (A := A)) :
  dateNow (recording rt) s = ((dateNow rt s.1).1, ((dateNow rt s.1).2, s.2)).
Proof. simpl. now destruct (dateNow rt s.1). Qed.

Lemma recording_mathRandom (s : Recorded (W := W) (A := A)) :
  mathRandom (recording rt) s = ((mathRandom rt s.1).1, ((mathRandom rt s.1).2, s.2)).
Proof. simpl. now destruct (mathRandom rt s.1). Qed.

(** The record changes nothing: outcome, manager, journal and world are
    those of the run without it. *)
Lemma recorded_attempts pending :
  ∀ lastError (s : Run Recorded),
    (attempts (recording rt) (recorded operation) pending lastError s).1
    = (attempts rt operation pending lastError (leave s)).1
    ∧ leave (attempts (recording rt) (recorded operation) pending lastError s).2
      = (attempts rt operation pending lastError (leave s)).2.
Proof.
  induction pending as [|attempt rest IH]; intros lastError s; [now split|].
  cbn [attempts]. cbn [emit set_world world manager journal leave].
  rewrite recorded_unfold. cbn [fst snd].
  destruct (operation (world s).1) as [[a|[e|]] w']; cbn [fst snd].
  - split; reflexivity.
  - unfold recordFailure. cbn [set_world set_breaker world manager journal emit].
    rewrite recording_dateNow. cbn [fst snd].
    destruct (dateNow rt w') as [now w1]. cbn [fst snd].
    cbn [set_world set_breaker world manager journal emit retryConfig].
    destruct (negb _); [split; reflexivity|].
    destruct (attempt =? _); [split; reflexivity|].
    rewrite recording_mathRandom. cbn [fst snd].
    destruct (mathRandom rt w1) as [x w2]. cbn [fst snd].
    cbn [set_world set_breaker world manager journal emit retryConfig
         setTimeout recording].
    match goal with
    | |- context [attempts (recording rt) (recorded operation) rest ?l ?s2] =>
        destruct (IH l s2) as [Hout Hrun]
    end.
    split; [exact Hout|exact Hrun].
  - split; reflexivity.
Qed.

Lemma recorded_executeWithRetry (r : Run W) :
  (executeWithRetry (recording rt) (recorded operation) (enter r)).1
  = (executeWithRetry rt operation r).1
  ∧ leave (executeWithRetry (recording rt) (recorded operation) (enter r)).2
    = (executeWithRetry rt operation r).2.
Proof.
  unfold executeWithRetry. rewrite !consultBreaker_unfold. cbn zeta.
  cbn [enter world manager journal fst snd].
  rewrite recording_dateNow. cbn [fst snd].
  destruct (negb _).
  - split; [reflexivity|]. unfold leave. cbn [world manager journal fst snd].
    now destruct r.
  - cbn [manager retryConfig].
    match goal with
    | |- context [attempts (recording rt) (recorded operation) ?p ?l ?s] =>
        destruct (recorded_attempts p l s) as [Hout Hrun]
    end.
    split; [exact Hout|exact Hrun].
Qed.

Hypothesis Hfail :
  ∀ w, ∃ e w', operation w = (Threw (ThrownError e), w')
               ∧ ErrorHandler.isRetryable (ErrorHandler.classifyError e) = true.

(** Every attempt fails with a retryable error: each of the attempts
    [k .. k+n] adds the error of its invocation to the record, and the
    loop throws the last of them. *)
Lemma attempts_exhaust_recorded (n : nat) :
  ∀ (k : Z) lastError (s : Run Recorded),
    RetryConfig.maxRetries (retryConfig (manager s)) = k + Z.of_nat n →
    ∃ errors e,
      (attempts (recording rt) (recorded operation) (seqZ k (Z.of_nat (S n)))
         lastError s).1 = Threw (ThrownError e)
      ∧ settlements
          (attempts (recording rt) (recorded operation) (seqZ k (Z.of_nat (S n)))
             lastError s).2
        = settlements s ++ ((λ e, Threw (ThrownError e)) <$> errors)
      ∧ length errors = S n
      ∧ last errors = Some e.
Proof.
  induction n as [|n IH]; intros k lastError s Hmax;
    rewrite seqZ_first;
    destruct (Hfail (world s).1) as (e & w' & Hop & Hretry);
    (assert (Hrec : recorded operation (world s)
                    = (Threw (ThrownError e),
                       (w', (world s).2 ++ [Threw (ThrownError e)])))
       by (rewrite recorded_unfold, Hop; reflexivity));
    rewrite (attempts_threw _ _ _ _ _ _ _ _ Hrec); cbn zeta;
    rewrite Hretry; cbn [negb].
  - replace (k =? _) with true by (symmetry; apply Z.eqb_eq; lia).
    exists [e], e. split; [reflexivity|].
    split; [|split; reflexivity].
    unfold settlements. cbn [fst snd world emit failedRun].
    rewrite recording_dateNow. reflexivity.
  - replace (k =? _) with false by (symmetry; apply Z.eqb_neq; lia).
    match goal with
    | |- context [attempts (recording rt) (recorded operation) _ ?l ?s2] =>
        destruct (IH (k + 1) l s2) as (errors & e' & Hout & Hseen & Hlen & Hlast);
          [simpl; lia|]
    end.
    exists (e :: errors), e'. split; [exact Hout|].
    split.
    { rewrite Hseen. unfold settlements. cbn [fst snd world failedRun].
      rewrite recording_dateNow. cbn [fst snd].
      rewrite recording_mathRandom. cbn [fst snd setTimeout recording].
      rewrite <- app_assoc. reflexivity. }
    split; [simpl; lia|].
    destruct errors; [discriminate|exact Hlast].
Qed.

(** A call that the breaker admits, in full. *)
Lemma executeWithRetry_exhaust_recorded (r : Run W) (m : Z) :
  RetryConfig.maxRetries (retryConfig (manager r)) = m →
  1 <= m →
  (consultBreaker rt r).1 = true →
  ∃ errors e,
    (executeWithRetry (recording rt) (recorded operation) (enter r)).1
    = Threw (ThrownError e)
    ∧ settlements (executeWithRetry (recording rt) (recorded operation) (enter r)).2
      = (λ e, Threw (ThrownError e)) <$> errors
    ∧ Z.of_nat (length errors) = m
    ∧ last errors = Some e.
Proof.
  intros Hm Hpos Hallowed. unfold executeWithRetry.
  rewrite consultBreaker_unfold in Hallowed. cbn zeta in Hallowed.
  cbn [fst] in Hallowed.
  rewrite consultBreaker_unfold. cbn zeta.
  cbn [enter world manager journal fst snd].
  rewrite recording_dateNow. cbn [fst snd].
  rewrite Hallowed. cbn [negb manager retryConfig]. rewrite Hm.
  match goal with
  | |- context [attempts (recording rt) _ _ ?l ?s1] =>
      destruct (attempts_exhaust_recorded (Z.to_nat (m - 1)) 1 l s1)
        as (errors & e & Hout & Hseen & Hlen & Hlast);
        [simpl; lia|]
  end.
  replace (Z.of_nat (S (Z.to_nat (m - 1)))) with m in * by lia.
  exists errors, e. split; [exact Hout|]. split; [exact Hseen|].
  split; [lia|exact Hlast].
Qed.

End Recorded.

(** C5, as stated, fails: a call that the breaker refuses does not invoke
    the operation at all and throws the circuit-open error, which no
    invocation produced.  The default transaction manager (five attempts,
    threshold three) is left [OPEN] by one exhausted call; the next call,
    made right after it, runs the same always-failing operation not
    once. *)
Lemma refused_call_invokes_nothing :
  let first :=
    RetryManager.executeWithRetry Scenario.wallClock Scenario.failsWithTime
      (RetryManager.mkRun Scenario.transactionManager 0 []) in
  let second :=
    RetryManager.executeWithRetry (Probe.recording Scenario.wallClock)
      (Probe.recorded Scenario.failsWithTime) (Probe.enter first.2) in
  (∀ w, ErrorHandler.isRetryable
          (ErrorHandler.classifyError (engine := Js.reference) (Scenario.timeoutAt w))
        = true)
  ∧ RetryConfig.maxRetries (RetryManager.retryConfig (RetryManager.manager first.2)) = 5
  ∧ second.1 = Js.Threw (Js.ThrownError RetryManager.circuitOpenError)
  ∧ Probe.settlements second.2 = []
  ∧ ∀ w, (Scenario.failsWithTime w).1
         ≠ Js.Threw (Js.ThrownError RetryManager.circuitOpenError).
Proof.
  cbv zeta. split; [intros w; reflexivity|].
  split; [reflexivity|]. split; [reflexivity|]. split; [reflexivity|].
  intros w. discriminate.
Qed.

(** C5, amended: for an operation that fails on every invocation with a
    retryable error and [maxRetries = m >= 1], a call that the breaker
    admits invokes the operation exactly [m] times, every invocation
    settling with an error, and throws the very error object of the last
    of these invocations (the one logged for attempt [m]), not a wrapper;
    a call that the breaker refuses invokes it not at all and throws the
    circuit-open error.  The invocations are counted by the operation
    itself, in a record that rides along in the world without changing
    the run. *)
Theorem retry_exhaustion_throws_last_error `{engine : Js.Engine} {W A : Type}
    (rt : Runtime W) (operation : W → Js.Outcome A * W)
    (r : RetryManager.Run W) (m : Z) :
  (∀ w, ∃ e w',
     operation w = (Js.Threw (Js.ThrownError e), w')
     ∧ ErrorHandler.isRetryable (ErrorHandler.classifyError e) = true) →
  RetryConfig.maxRetries (RetryManager.retryConfig (RetryManager.manager r)) = m →
  1 <= m →
  let plain := RetryManager.executeWithRetry rt operation r in
  let observed :=
    RetryManager.executeWithRetry (Probe.recording rt) (Probe.recorded operation)
      (Probe.enter r) in
  observed.1 = plain.1
  ∧ Probe.leave observed.2 = plain.2
  ∧ if (RetryManager.consultBreaker rt r).1
    then ∃ errors e new,
           plain.1 = Js.Threw (Js.ThrownError e)
           ∧ Probe.settlements observed.2
             = (λ e, Js.Threw (Js.ThrownError e)) <$> errors
           ∧ Z.of_nat (length errors) = m
           ∧ last errors = Some e
           ∧ RetryManager.journal plain.2
             = RetryManager.journal r ++ BreakerConsulted true :: new
           ∧ Journal.invocations new = OperationInvoked <$> seqZ 1 m
           ∧ LogErrorOccurred (ErrorHandler.classifyError e) e m ∈ new
           ∧ last new = Some (LogFailedAfter m)
    else plain.1 = Js.Threw (Js.ThrownError RetryManager.circuitOpenError)
         ∧ Probe.settlements observed.2 = []
         ∧ RetryManager.journal plain.2
           = RetryManager.journal r ++ [BreakerConsulted false].
Proof.
  intros Hfail Hm Hpos plain observed.
  destruct (recorded_executeWithRetry rt operation r) as [Hsame Hleft].
  split; [exact Hsame|]. split; [exact Hleft|].
  subst plain observed. clear Hleft.
  unfold RetryManager.executeWithRetry in *.
  rewrite !consultBreaker_unfold in *. cbn zeta in *.
  cbn [Probe.enter RetryManager.world RetryManager.manager RetryManager.journal
       fst snd] in *.
  rewrite recording_dateNow in *. cbn [fst snd] in *.
  destruct (CircuitBreaker.canExecute _ _) as [[|] cb'] eqn:Hverdict;
    cbn [fst snd negb] in *.
  - cbn [RetryManager.manager RetryManager.retryConfig] in *. rewrite Hm in *.
    match goal with
    | |- context [RetryManager.attempts rt operation _ ?l ?r1] =>
        destruct (attempts_exhaust rt operation Hfail (Z.to_nat (m - 1)) 1 l r1)
          as (e & w & w' & r' & new & Hrun & Hop & Hworld & _ & Hj & Hinv & Hlog & Hlast);
          [simpl; lia|]
    end.
    match goal with
    | |- context [RetryManager.attempts (Probe.recording rt) _ _ ?l ?s1] =>
        destruct (attempts_exhaust_recorded rt operation Hfail (Z.to_nat (m - 1)) 1 l s1)
          as (errors & e' & Hout & Hseen & Hlen & Hlasterr);
          [simpl; lia|]
    end.
    replace (Z.of_nat (S (Z.to_nat (m - 1)))) with m in * by lia.
    replace (1 + Z.of_nat (Z.to_nat (m - 1))) with m in * by lia.
    rewrite Hrun in *. cbn [fst snd] in *.
    rewrite Hout in Hsame. injection Hsame as ->.
    exists errors, e, new.
    split; [reflexivity|]. split; [exact Hseen|]. split; [lia|].
    split; [exact Hlasterr|].
    split; [rewrite Hj; simpl; rewrite <- app_assoc; reflexivity|].
    split; [exact Hinv|]. split; [exact Hlog|exact Hlast].
  - split; [reflexivity|]. split; reflexivity.
Qed.

(** Five attempts against an operation whose error names the time of the
    call. *)
Lemma retry_exhaustion_throws_last_error_witness :
  let r := RetryManager.mkRun Scenario.transactionManager 0 [] in
  ∃ errors,
    Probe.settlements
      (RetryManager.executeWithRetry (Probe.recording Scenario.wallClock)
         (Probe.recorded Scenario.failsWithTime) (Probe.enter r)).2
    = (λ e, Js.Threw (Js.ThrownError e)) <$> errors
    ∧ Z.of_nat (length errors) = 5.
Proof.
  intros r.
  destruct (retry_exhaustion_throws_last_error Scenario.wallClock
              Scenario.failsWithTime r 5) as (_ & _ & H).
  - intros w. exists (Scenario.timeoutAt w), (w + 1). split; reflexivity.
  - reflexivity.
  - lia.
  - change ((RetryManager.consultBreaker Scenario.wallClock r).1) with true in H.
    destruct H as (errors & e & new & _ & Hseen & Hlen & _).
    exists errors. split; [exact Hseen|exact Hlen].
Defined.

(** The same run, evaluated: attempts at times 0, 2001, 6002, 14003 and
    30004; the error thrown is the one of the fifth. *)
Example retry_exhaustion_run :
  (RetryManager.executeWithRetry Scenario.wallClock Scenario.failsWithTime
     (RetryManager.mkRun Scenario.transactionManager 0 [])).1
  = Js.Threw (Js.ThrownError (Scenario.timeoutAt 30004)).
Proof. reflexivity. Qed.

Section Unwrapped.
Import Js RetryManager Journal.
Context `{engine : Engine} {W : Type} (rt : Runtime W) {A : Type}.
Context (operation : W → Outcome A * W).

(** What leaves the loop as an error is what the loop was entered with,
    the [TypeError] of a thrown [undefined], or an error of the
    operation, as thrown. *)
Lemma attempts_thrown pending lastError r t r' :
  attempts rt operation pending lastError r = (Threw t, r') →
  t = lastError ∨ t = ThrownError typeError
  ∨ ∃ e w w', t = ThrownError e ∧ operation w = (Threw (ThrownError e), w').
Proof.
  revert lastError r. induction pending as [|attempt rest IH]; intros lastError r Hrun.
  { injection Hrun as <- _. now left. }
  destruct (operation (world r)) as [[a|[e|]] w'] eqn:Hop.
  - simpl in Hrun. rewrite Hop in Hrun. discriminate.
  - rewrite (attempts_threw _ _ _ _ _ _ _ _ Hop) in Hrun. cbn zeta in Hrun.
    destruct (negb _);
      [injection Hrun as <- _; right; right; now exists e, (world r), w'|].
    destruct (attempt =? _);
      [injection Hrun as <- _; right; right; now exists e, (world r), w'|].
    destruct (IH _ _ Hrun) as [->|[->|H]]; auto.
    right; right; now exists e, (world r), w'.
  - simpl in Hrun. rewrite Hop in Hrun. injection Hrun as <- _. now (right; left).
Qed.

Lemma executeWithRetry_thrown r t r' :
  executeWithRetry rt operation r = (Threw t, r') →
  t = ThrownError circuitOpenError ∨ t = ThrownUndefined
  ∨ t = ThrownError typeError
  ∨ ∃ e w w', t = ThrownError e ∧ operation w = (Threw (ThrownError e), w').
Proof.
  unfold executeWithRetry. rewrite consultBreaker_unfold. cbn zeta. cbn [fst snd].
  destruct (negb _); intros Hrun.
  - injection Hrun as <- _. now left.
  - destruct (attempts_thrown _ _ _ _ _ Hrun) as [->|[->|H]]; auto.
Qed.

End Unwrapped.

(** ** Bundle orchestration *)

Section Bundle.
Import Js OptimizedBundlerBot RelayProtocol.
Context `{engine : Engine}.

Lemma follow_app phase cs1 cs2 :
  follow phase (cs1 ++ cs2) = follow phase cs1 ≫= fun phase' => follow phase' cs2.
Proof.
  revert phase. induction cs1 as [|c cs1 IH]; intros phase; [reflexivity|].
  destruct c; simpl; try apply IH.
  - destruct phase, r; simpl; try apply IH; reflexivity.
  - destruct phase; [reflexivity|]. case_bool_decide; [apply IH|reflexivity].
Qed.

Lemma track_app networkConfig a cs1 cs2 :
  track networkConfig a (cs1 ++ cs2)
  = track networkConfig a cs1 ≫= fun a' => track networkConfig a' cs2.
Proof.
  revert a. induction cs1 as [|c cs1 IH]; intros a; [reflexivity|].
  destruct c; simpl; try apply IH.
  - destruct r as [[[q|]]|]; apply IH.
  - destruct r; apply IH.
  - destruct (quote a), (nonceBase a); try reflexivity.
    case_bool_decide; [apply IH|reflexivity].
Qed.

Lemma orderly_nil networkConfig : orderly networkConfig [].
Proof. split; [reflexivity|]. intros a. now exists a. Qed.

Lemma orderly_app networkConfig cs1 cs2 :
  orderly networkConfig cs1 → orderly networkConfig cs2 →
  orderly networkConfig (cs1 ++ cs2).
Proof.
  intros [Hf1 Ht1] [Hf2 Ht2]. split.
  - unfold simulateThenSubmit in *. now rewrite follow_app, Hf1.
  - intros a. rewrite track_app. destruct (Ht1 a) as [a' ->]. apply Ht2.
Qed.

Context (env : Collaborators) (config : Config).

Lemma bind_ret {A B} (a : A) (k : A → Task B) w : bind (ret a) k w = k a w.
Proof. reflexivity. Qed.

Lemma bind_assoc {A B C} (m : Task A) (f : A → Task B) (g : B → Task C) w :
  bind (bind m f) g w = bind m (fun a => bind (f a) g) w.
Proof. unfold bind. destruct (m w) as [[a|t] w']; reflexivity. Qed.

Lemma bind_ask {A B} (oracle : list Call → Outcome A) entry (k : A → Task B) w :
  bind (ask oracle entry) k w =
  match oracle (calls w) with
  | Returned a => k a (record (entry (Returned a)) w)
  | Threw t => (Threw t, record (entry (Threw t)) w)
  end.
Proof. unfold bind, ask. destruct (oracle (calls w)); reflexivity. Qed.

Lemma bind_currentTime {B} (k : Z → Task B) w :
  bind (currentTime env) k w
  = k (clock env (calls w)) (record (CDateNow (clock env (calls w))) w).
Proof. reflexivity. Qed.

Lemma bind_estimateGasLimit {B} (k : Z → Task B) w :
  bind (estimateGasLimit env config) k w =
  match estimateGas env (calls w) with
  | Returned estimatedGas =>
      k (estimatedGas + gasEstimationBuffer config)
        (record (CEstimateGas (Returned estimatedGas)) w)
  | Threw t => (Threw (readsMessage t), record (CEstimateGas (Threw t)) w)
  end.
Proof.
  unfold bind, estimateGasLimit, ask. cbn zeta.
  destruct (estimateGas env (calls w)); reflexivity.
Qed.

Lemma bind_getOptimalGasPrice {B} (k : Z → Task B) w :
  bind (getOptimalGasPrice env config) k w =
  match getFeeData env (calls w) with
  | Returned {| GasOptimizer.feeGasPrice := Some q |} =>
      let fetched := CGetFeeData (Returned {| GasOptimizer.feeGasPrice := Some q |}) in
      let now := clock env (calls w ++ [fetched]) in
      k (GasOptimizer.ensureWithinBounds (networkConfig config)
           (GasOptimizer.applyMultiplier (networkConfig config) q))
        {| calls := (calls w ++ [fetched]) ++ [CDateNow now];
           gasOptimizer :=
             (GasOptimizer.estimateOptimalGasPrice (networkConfig config)
                (Returned {| GasOptimizer.feeGasPrice := Some q |}) now
                (gasOptimizer w)).2 |}
  | Returned {| GasOptimizer.feeGasPrice := None |} =>
      (Threw (ThrownError GasOptimizer.mixTypeError),
       record (CGetFeeData (Returned {| GasOptimizer.feeGasPrice := None |})) w)
  | Threw t => (Threw (readsMessage t), record (CGetFeeData (Threw t)) w)
  end.
Proof.
  unfold bind, getOptimalGasPrice, ask. cbn zeta.
  destruct (getFeeData env (calls w)) as [[[q|]]|t]; reflexivity.
Qed.

Lemma bundle_builtFrom g n l0 l1 l2 l3 l4 l5 l6 l7 :
  builtFrom g n
    [ mkTransaction DeployToken n g l0;
      mkTransaction ApproveWbnbToNfpm (n + 1) g l1;
      mkTransaction ApproveTokenToNfpm (n + 1 + 1) g l2;
      mkTransaction CreatePool (n + 1 + 1 + 1) g l3;
      mkTransaction AddLiquidity (n + 1 + 1 + 1 + 1) g l4;
      mkTransaction ApproveWbnbToRouter (n + 1 + 1 + 1 + 1 + 1) g l5;
      mkTransaction BuySwap (n + 1 + 1 + 1 + 1 + 1 + 1) g l6;
      mkTransaction TransferFee (n + 1 + 1 + 1 + 1 + 1 + 1 + 1) g l7 ].
Proof.
  split; [reflexivity|]. unfold seqZ. change (Z.to_nat 8) with 8%nat.
  cbn [seq fmap list_fmap map nonce].
  repeat (apply (f_equal2 (@cons Z)); [lia|]). reflexivity.
Qed.

Lemma same_bundle (txs : list Transaction) (blockNumber : Z) :
  bool_decide (txs = txs ∧ blockNumber = blockNumber) = true.
Proof. now apply bool_decide_eq_true_2. Qed.

Ltac finish_attempt :=
  eexists; split;
  [ cbn [snd calls record ret]; rewrite <- ?app_assoc; cbn [app]; reflexivity
  | split;
    [ unfold simulateThenSubmit; cbn [follow]; rewrite ?same_bundle; reflexivity
    | intros acquired; cbn [track quote nonceBase];
      rewrite ?(bool_decide_eq_true_2 _ (bundle_builtFrom _ _ _ _ _ _ _ _ _ _));
      cbn [track]; eauto ] ].

Ltac run_step :=
  repeat first [rewrite bind_assoc | rewrite bind_ret | rewrite bind_currentTime];
  cbv beta;
  first
    [ rewrite bind_getOptimalGasPrice;
      destruct (getFeeData env _) as [[[?q|]]|?t]; cbn zeta
    | rewrite bind_estimateGasLimit;
      destruct (estimateGas env _) as [?a|?t]
    | rewrite bind_ask; cbv beta;
      match goal with
      | |- context [match ?o with Returned _ => _ | Threw _ => _ end] =>
          destruct o as [?a|?t]
      end ].

(** One run of the bundle function. *)
Lemma bundleFunction_calls w :
  ∃ new,
    calls (bundleFunction env config w).2 = calls w ++ new
    ∧ orderly (networkConfig config) new.
Proof.
  unfold bundleFunction, getCurrentNonce, getFutureBlockNumber,
    createDeploymentTransaction, createApproveTransaction, createPoolTransaction,
    createLiquidityTransaction, createSwapTransaction, createTransferTransaction,
    sign, simulateBundle, submitBundle.
  run_step; [|finish_attempt|finish_attempt].
  set (g := GasOptimizer.ensureWithinBounds _ _).
  do 23 (run_step; [|finish_attempt]).
  finish_attempt.
Qed.

Lemma orderly_clock networkConfig t : orderly networkConfig [CDateNow t].
Proof. split; [reflexivity|]. intros a. now exists a. Qed.

Lemma orderly_random networkConfig x : orderly networkConfig [CMathRandom x].
Proof. split; [reflexivity|]. intros a. now exists a. Qed.

Lemma orderly_timer networkConfig ms : orderly networkConfig [CSetTimeout ms].
Proof. split; [reflexivity|]. intros a. now exists a. Qed.

Section Retried.
Context {A : Type} (operation : Task A).
Hypothesis Hoperation :
  ∀ w, ∃ new, calls (operation w).2 = calls w ++ new
              ∧ orderly (networkConfig config) new.

Lemma attempts_orderly pending lastError r :
  ∃ new,
    calls (RetryManager.world
             (RetryManager.attempts (runtime env) operation pending lastError r).2)
    = calls (RetryManager.world r) ++ new
    ∧ orderly (networkConfig config) new.
Proof.
  revert lastError r. induction pending as [|attempt rest IH]; intros lastError r.
  { exists []. split; [simpl; now rewrite app_nil_r|apply orderly_nil]. }
  destruct (Hoperation (RetryManager.world r)) as (new & Hcalls & Hnew).
  destruct (operation (RetryManager.world r)) as [[a|[e|]] w'] eqn:Hop;
    cbn [snd] in Hcalls.
  - simpl. rewrite Hop. simpl. exists new. now split.
  - rewrite (attempts_threw _ _ _ _ _ _ _ _ Hop). cbn zeta.
    destruct (negb _).
    { exists (new ++ [CDateNow (clock env (calls w'))]). simpl.
      rewrite Hcalls, <- app_assoc. split; [reflexivity|].
      apply orderly_app; [exact Hnew|apply orderly_clock]. }
    destruct (attempt =? _).
    { exists (new ++ [CDateNow (clock env (calls w'))]). simpl.
      rewrite Hcalls, <- app_assoc. split; [reflexivity|].
      apply orderly_app; [exact Hnew|apply orderly_clock]. }
    match goal with
    | |- context [RetryManager.attempts _ operation rest ?l ?r2] =>
        destruct (IH l r2) as (new' & Hcalls' & Hnew')
    end.
    rewrite Hcalls'. cbn [RetryManager.world Journal.failedRun runtime dateNow
                           mathRandom setTimeout fst snd calls record].
    rewrite Hcalls, <- !app_assoc. eexists. split; [reflexivity|].
    apply orderly_app; [exact Hnew|].
    apply (orderly_app _ [_]); [apply orderly_clock|].
    apply (orderly_app _ [_]); [apply orderly_random|].
    apply (orderly_app _ [_]); [apply orderly_timer|exact Hnew'].
  - simpl. rewrite Hop. simpl. exists new. now split.
Qed.

Lemma executeWithRetry_orderly r :
  ∃ new,
    calls (RetryManager.world
             (RetryManager.executeWithRetry (runtime env) operation r).2)
    = calls (RetryManager.world r) ++ new
    ∧ orderly (networkConfig config) new.
Proof.
  unfold RetryManager.executeWithRetry. rewrite consultBreaker_unfold.
  cbn zeta. cbn [fst snd].
  destruct (negb _).
  - eexists. split; [reflexivity|apply orderly_clock].
  - match goal with
    | |- context [RetryManager.attempts _ operation ?p ?l ?r1] =>
        destruct (attempts_orderly p l r1) as (new & Hcalls & Hnew)
    end.
    rewrite Hcalls. simpl. rewrite <- app_assoc. eexists.
    split; [reflexivity|].
    apply (orderly_app _ [_]); [apply orderly_clock|exact Hnew].
Qed.

End Retried.

Lemma executeBundle_orderly host r :
  ∃ new,
    calls (RetryManager.world (executeBundle env config host r).2)
    = calls (RetryManager.world r) ++ new
    ∧ orderly (networkConfig config) new.
Proof.
  unfold executeBundle.
  destruct (negb (binds_gasPrice host));
    [exists []; split; [simpl; now rewrite app_nil_r|apply orderly_nil]|].
  destruct (negb (binds_nonce host));
    [exists []; split; [simpl; now rewrite app_nil_r|apply orderly_nil]|].
  apply executeWithRetry_orderly. intros w. apply bundleFunction_calls.
Qed.


Lemma follow_awaiting_submission txs blockNumber cs :
  follow (Simulated txs blockNumber) cs = Some Idle →
  ∃ res, CSubmitBundle txs blockNumber res ∈ cs.
Proof.
  induction cs as [|c cs IH]; [discriminate|]. intros Hf.
  destruct c; simpl in Hf;
    try (destruct (IH Hf) as [res Hres]; exists res;
         now apply list_elem_of_further); try discriminate.
  case_bool_decide as Hsame; [|discriminate].
  destruct Hsame as [-> ->]. eexists. apply list_elem_of_here.
Qed.

Lemma follow_returned_simulation phase cs txs blockNumber body :
  follow phase cs = Some Idle →
  CSimulateBundle txs blockNumber (Returned body) ∈ cs →
  ∃ res, CSubmitBundle txs blockNumber res ∈ cs.
Proof.
  revert phase. induction cs as [|c cs IH]; intros phase Hf Hin.
  { now apply elem_of_nil in Hin. }
  apply elem_of_cons in Hin as [<-|Hin].
  - simpl in Hf. destruct phase; [|discriminate].
    destruct (follow_awaiting_submission _ _ _ Hf) as [res Hres].
    exists res. now apply list_elem_of_further.
  - assert (∃ phase', follow phase' cs = Some Idle) as [phase' Hf'].
    { destruct c; simpl in Hf; eauto.
      - destruct phase, r; eauto; discriminate.
      - destruct phase; [discriminate|]. case_bool_decide; eauto; discriminate. }
    destruct (IH phase' Hf' Hin) as [res Hres].
    exists res. now apply list_elem_of_further.
Qed.

Lemma follow_submission phase phase' cs txs blockNumber res :
  follow phase cs = Some phase' →
  CSubmitBundle txs blockNumber res ∈ cs →
  phase = Simulated txs blockNumber
  ∨ ∃ body, CSimulateBundle txs blockNumber (Returned body) ∈ cs.
Proof.
  revert phase. induction cs as [|c cs IH]; intros phase Hf Hin.
  { now apply elem_of_nil in Hin. }
  apply elem_of_cons in Hin as [<-|Hin].
  - simpl in Hf. destruct phase; [discriminate|].
    case_bool_decide as Hsame; [|discriminate].
    destruct Hsame as [-> ->]. now left.
  - destruct c; simpl in Hf;
      try (destruct (IH phase Hf Hin) as [->|[body Hbody]];
           [now left|right; exists body; now apply list_elem_of_further]).
    + destruct phase, r; try discriminate.
      * destruct (IH _ Hf Hin) as [Heq|[body Hbody]].
        -- injection Heq as -> ->. right. eexists. apply list_elem_of_here.
        -- right. exists body. now apply list_elem_of_further.
      * destruct (IH _ Hf Hin) as [Heq|[body Hbody]]; [discriminate|].
        right. exists body. now apply list_elem_of_further.
    + destruct phase; [discriminate|]. case_bool_decide; [|discriminate].
      destruct (IH _ Hf Hin) as [Heq|[body Hbody]]; [discriminate|].
      right. exists body. now apply list_elem_of_further.
Qed.

Lemma track_submission networkConfig a a' cs txs blockNumber res :
  track networkConfig a cs = Some a' →
  CSubmitBundle txs blockNumber res ∈ cs →
  ∃ g n,
    builtFrom g n txs
    ∧ (quote a = Some g
       ∨ ∃ q, CGetFeeData (Returned {| GasOptimizer.feeGasPrice := Some q |}) ∈ cs
              ∧ g = GasOptimizer.ensureWithinBounds networkConfig
                      (GasOptimizer.applyMultiplier networkConfig q))
    ∧ (nonceBase a = Some n ∨ CGetTransactionCount (Returned n) ∈ cs).
Proof.
  revert a. induction cs as [|c cs IH]; intros a Ht Hin.
  { now apply elem_of_nil in Hin. }
  assert (Hweaken : ∀ a0, track networkConfig a0 cs = Some a' →
            CSubmitBundle txs blockNumber res ∈ cs →
            (quote a0 = None ∨ quote a0 = quote a
             ∨ ∃ q, c = CGetFeeData (Returned {| GasOptimizer.feeGasPrice := Some q |})
                    ∧ quote a0 = Some (GasOptimizer.ensureWithinBounds networkConfig
                                         (GasOptimizer.applyMultiplier networkConfig q))) →
            (nonceBase a0 = None ∨ nonceBase a0 = nonceBase a
             ∨ c = CGetTransactionCount (Returned (default 0 (nonceBase a0)))
               ∧ is_Some (nonceBase a0)) →
            ∃ g n,
              builtFrom g n txs
              ∧ (quote a = Some g
                 ∨ ∃ q, CGetFeeData (Returned {| GasOptimizer.feeGasPrice := Some q |})
                          ∈ c :: cs
                        ∧ g = GasOptimizer.ensureWithinBounds networkConfig
                                (GasOptimizer.applyMultiplier networkConfig q))
              ∧ (nonceBase a = Some n ∨ CGetTransactionCount (Returned n) ∈ c :: cs)).
  { intros a0 Ht0 Hin0 Hq Hn.
    destruct (IH a0 Ht0 Hin0) as (g & n & Hbuilt & Hg & Hnn).
    exists g, n. split; [exact Hbuilt|]. split.
    - destruct Hg as [Hg|(q & Hq' & ->)].
      + destruct Hq as [Hq|[Hq|(q & -> & Hq)]].
        * congruence.
        * left. congruence.
        * right. exists q. split; [apply list_elem_of_here|congruence].
      + right. exists q. split; [now apply list_elem_of_further|reflexivity].
    - destruct Hnn as [Hnn|Hnn].
      + destruct Hn as [Hn|[Hn|[-> _]]].
        * congruence.
        * left. congruence.
        * right. rewrite Hnn. apply list_elem_of_here.
      + right. now apply list_elem_of_further. }
  apply elem_of_cons in Hin as [<-|Hin].
  - simpl in Ht. destruct (quote a) as [g|]; [|discriminate].
    destruct (nonceBase a) as [n|]; [|discriminate].
    case_bool_decide as Hbuilt; [|discriminate].
    exists g, n. split; [exact Hbuilt|]. split; now left.
  - destruct c; simpl in Ht;
      try (apply (Hweaken a Ht Hin); right; left; reflexivity).
    + destruct r as [[[q|]]|];
        try (apply (Hweaken a Ht Hin); right; left; reflexivity).
      apply (Hweaken _ Ht Hin); [|left; reflexivity].
      right. right. exists q. split; reflexivity.
    + destruct r as [n|];
        try (apply (Hweaken a Ht Hin); right; left; reflexivity).
      apply (Hweaken _ Ht Hin); [right; left; reflexivity|].
      right. right. split; [reflexivity|]. now exists n.
    + destruct (quote a) as [g|]; [|discriminate].
      destruct (nonceBase a) as [n|]; [|discriminate].
      case_bool_decide; [|discriminate].
      apply (Hweaken _ Ht Hin); left; reflexivity.
Qed.
End Bundle.

(** The bundle function on its own, which [executeBundle] as shipped
    never reaches, with libraries that can build every step (an [ethers]
    that has [getContractFactory]): it logs the simulation response
    without inspecting it.  Against a relay whose simulation answers with
    a JSON-RPC error body, the same bundle is submitted next and the
    function returns normally. *)
Example bundleFunction_submits_after_reported_failure :
  let run :=
    TransactionRetryManager.executeBundle
      (OptimizedBundlerBot.runtime Scenario.simulationReportsFailure)
      (OptimizedBundlerBot.bundleFunction Scenario.simulationReportsFailure
         Scenario.botConfig)
      (OptimizedBundlerBot.start Scenario.botConfig) in
  let txs := Scenario.bundleAt 6000000000 41 1250000 in
  let failure :=
    OptimizedBundlerBot.RelayError (-32000)
      "bundle simulation failed: execution reverted" in
  run.1
  = Js.Returned
      {| OptimizedBundlerBot.transactions := txs;
         OptimizedBundlerBot.simulationResult := failure;
         OptimizedBundlerBot.submissionResult :=
           OptimizedBundlerBot.RelayResult "0xbundlehash" |}
  ∧ RelayProtocol.relayCalls
      (OptimizedBundlerBot.calls (RetryManager.world run.2))
    = [ OptimizedBundlerBot.CSimulateBundle txs 1005 (Js.Returned failure);
        OptimizedBundlerBot.CSubmitBundle txs 1005
          (Js.Returned (OptimizedBundlerBot.RelayResult "0xbundlehash")) ].
Proof. cbv zeta. split; reflexivity. Qed.

(** In whatever scope [executeBundle] runs and whatever the collaborators
    answer, a submit call is made only directly after a simulate call for
    the same bundle and block has returned a response; a simulate call
    that throws ends its attempt without a submission; and a simulate call
    that returns is always followed by the submission. *)
Lemma executeBundle_simulateThenSubmit `{engine : Js.Engine}
    (env : OptimizedBundlerBot.Collaborators) (config : OptimizedBundlerBot.Config)
    (host : OptimizedBundlerBot.HostScope)
    (r : RetryManager.Run OptimizedBundlerBot.World) :
  ∃ new,
    OptimizedBundlerBot.calls
      (RetryManager.world (OptimizedBundlerBot.executeBundle env config host r).2)
    = OptimizedBundlerBot.calls (RetryManager.world r) ++ new
    ∧ RelayProtocol.simulateThenSubmit new
    ∧ (∀ txs blockNumber res,
         OptimizedBundlerBot.CSubmitBundle txs blockNumber res ∈ new →
         ∃ body,
           OptimizedBundlerBot.CSimulateBundle txs blockNumber (Js.Returned body) ∈ new)
    ∧ (∀ txs blockNumber body,
         OptimizedBundlerBot.CSimulateBundle txs blockNumber (Js.Returned body) ∈ new →
         ∃ res, OptimizedBundlerBot.CSubmitBundle txs blockNumber res ∈ new).
Proof.
  destruct (executeBundle_orderly env config host r) as (new & Hcalls & Hfollow & _).
  exists new. split; [exact Hcalls|]. split; [exact Hfollow|]. split.
  - intros txs blockNumber res Hin.
    destruct (follow_submission _ _ _ _ _ _ Hfollow Hin) as [Hidle|Hsim];
      [discriminate|exact Hsim].
  - intros txs blockNumber body Hin.
    exact (follow_returned_simulation _ _ _ _ _ Hfollow Hin).
Qed.

(** In whatever scope [executeBundle] runs, every submission carries
    eight transactions, all at the price estimated from fee data fetched
    in the run and with the nonces [base .. base+7] of a pending count
    fetched in the run, both in the submission's own attempt. *)
Lemma executeBundle_own_acquisition `{engine : Js.Engine}
    (env : OptimizedBundlerBot.Collaborators) (config : OptimizedBundlerBot.Config)
    (host : OptimizedBundlerBot.HostScope)
    (r : RetryManager.Run OptimizedBundlerBot.World) :
  let networkConfig := OptimizedBundlerBot.networkConfig config in
  ∃ new,
    OptimizedBundlerBot.calls
      (RetryManager.world (OptimizedBundlerBot.executeBundle env config host r).2)
    = OptimizedBundlerBot.calls (RetryManager.world r) ++ new
    ∧ RelayProtocol.submissionsUseOwnAcquisition networkConfig new
    ∧ (∀ txs blockNumber res,
         OptimizedBundlerBot.CSubmitBundle txs blockNumber res ∈ new →
         ∃ q n,
           OptimizedBundlerBot.CGetFeeData
             (Js.Returned {| GasOptimizer.feeGasPrice := Some q |}) ∈ new
           ∧ OptimizedBundlerBot.CGetTransactionCount (Js.Returned n) ∈ new
           ∧ RelayProtocol.builtFrom
               (GasOptimizer.ensureWithinBounds networkConfig
                  (GasOptimizer.applyMultiplier networkConfig q))
               n txs).
Proof.
  intros networkConfig.
  destruct (executeBundle_orderly env config host r) as (new & Hcalls & _ & Htrack).
  exists new. split; [exact Hcalls|]. split; [exact Htrack|].
  intros txs blockNumber res Hin.
  destruct (Htrack RelayProtocol.nothingAcquired) as [a' Ha'].
  destruct (track_submission _ _ _ _ _ _ _ Ha' Hin)
    as (g & n & Hbuilt & [Hg|(q & Hq & ->)] & [Hn|Hn]); try discriminate.
  exists q, n. split; [exact Hq|]. split; [exact Hn|exact Hbuilt].
Qed.


(** The bundle function on its own, which [executeBundle] as shipped
    never reaches, with libraries that can build every step, driven by
    the retry manager: when its first submission is rejected with a
    (retryable) network error, the second attempt fetches a new quote and
    a new pending count and submits a bundle with another price and
    another nonce base. *)
Example bundleFunction_is_reassembled_when_retried :
  let run :=
    TransactionRetryManager.executeBundle
      (OptimizedBundlerBot.runtime Scenario.firstSubmissionFails)
      (OptimizedBundlerBot.bundleFunction Scenario.firstSubmissionFails
         Scenario.botConfig)
      (OptimizedBundlerBot.start Scenario.botConfig) in
  ErrorHandler.classifyError (engine := Js.reference) Scenario.networkFailure
  = NETWORK_ERROR
  ∧ RelayProtocol.submissions
      (OptimizedBundlerBot.calls (RetryManager.world run.2))
    = [ OptimizedBundlerBot.CSubmitBundle
          (Scenario.bundleAt 6000000000 41 1250000) 1005
          (Js.Threw (Js.ThrownError Scenario.networkFailure));
        OptimizedBundlerBot.CSubmitBundle
          (Scenario.bundleAt 7200000000 42 1250000) 1008
          (Js.Returned (OptimizedBundlerBot.RelayResult "0xbundlehash")) ].
Proof. cbv zeta. split; reflexivity. Qed.


(** * Further properties *)

(** ** Outcomes of the retry loop *)

Section Outcomes.
Import Js RetryManager Journal JournalCounts.
Context `{engine : Engine} {W : Type} (rt : Runtime W) {A : Type}.
Context (operation : W → Outcome A * W).

(** A returned result comes from the operation, and the success has
    closed and cleared the breaker. *)
Lemma attempts_returned pending lastError r a r' :
  attempts rt operation pending lastError r = (Returned a, r') →
  circuitBreaker (manager r')
  = CircuitBreaker.onSuccess (circuitBreaker (manager r'))
  ∧ ∃ w, operation w = (Returned a, world r').
Proof.
  revert lastError r. induction pending as [|attempt rest IH]; intros lastError r Hrun;
    [discriminate|].
  destruct (operation (world r)) as [[a0|[e|]] w'] eqn:Hop.
  - simpl in Hrun. rewrite Hop in Hrun. injection Hrun as <- <-.
    split; [reflexivity|]. now exists (world r).
  - rewrite (attempts_threw _ _ _ _ _ _ _ _ Hop) in Hrun. cbn zeta in Hrun.
    destruct (negb _); [discriminate|].
    destruct (attempt =? _); [discriminate|].
    exact (IH _ _ Hrun).
  - simpl in Hrun. rewrite Hop in Hrun. discriminate.
Qed.



End Outcomes.

(** X1: whenever [executeWithRetry] returns a result, the result is one the
    operation returned, the world is the one that invocation left, and the
    breaker is [CLOSED] with [failureCount] 0 and no recorded failures,
    whatever it was before and however many attempts failed first. *)
Theorem returned_result_resets_breaker `{engine : Js.Engine} {W A : Type}
    (rt : Runtime W)
    (operation : W → Js.Outcome A * W) (r r' : RetryManager.Run W) (a : A) :
  RetryManager.executeWithRetry rt operation r = (Js.Returned a, r') →
  CircuitBreaker.state (RetryManager.circuitBreaker (RetryManager.manager r')) = CLOSED
  ∧ CircuitBreaker.failureCount
      (RetryManager.circuitBreaker (RetryManager.manager r')) = 0
  ∧ CircuitBreaker.failures
      (RetryManager.circuitBreaker (RetryManager.manager r')) = []
  ∧ ∃ w, operation w = (Js.Returned a, RetryManager.world r').
Proof.
  unfold RetryManager.executeWithRetry. rewrite consultBreaker_unfold.
  cbn zeta. cbn [fst snd]. destruct (negb _); [discriminate|]. intros Hrun.
  destruct (attempts_returned _ _ _ _ _ _ _ Hrun) as [Hcb Hop].
  rewrite Hcb. repeat split. exact Hop.
Qed.

(** Two timeouts, then a result at 6002 ms. *)
Lemma returned_result_resets_breaker_witness :
  ∃ r',
    RetryManager.executeWithRetry Scenario.wallClock Cases.recoversAt5000
      Cases.freshRun = (Js.Returned 6002, r')
    ∧ CircuitBreaker.state
        (RetryManager.circuitBreaker (RetryManager.manager r')) = CLOSED.
Proof.
  pose (res := RetryManager.executeWithRetry Scenario.wallClock Cases.recoversAt5000
                 Cases.freshRun).
  assert (Hres : res = (Js.Returned 6002, res.2)) by reflexivity.
  exists res.2. split; [exact Hres|].
  apply (returned_result_resets_breaker Scenario.wallClock Cases.recoversAt5000
           Cases.freshRun res.2 6002 Hres).
Defined.

(** X2: when the breaker admits the call and the first invocation fails
    with an error that is not retryable, [executeWithRetry] invokes the
    operation once, does not sleep, records one failure and throws that
    error. *)
Theorem terminal_error_is_not_retried `{engine : Js.Engine} {W A : Type}
    (rt : Runtime W)
    (operation : W → Js.Outcome A * W) (r : RetryManager.Run W)
    (e : Js.Error) (w' : W) :
  (RetryManager.consultBreaker rt r).1 = true →
  1 <= RetryConfig.maxRetries (RetryManager.retryConfig (RetryManager.manager r)) →
  operation (dateNow rt (RetryManager.world r)).2 = (Js.Threw (Js.ThrownError e), w') →
  ErrorHandler.isRetryable (ErrorHandler.classifyError e) = false →
  ∃ r' new,
    RetryManager.executeWithRetry rt operation r = (Js.Threw (Js.ThrownError e), r')
    ∧ RetryManager.journal r' = RetryManager.journal r ++ new
    ∧ Journal.invocations new = [OperationInvoked 1]
    ∧ JournalCounts.sleeps new = []
    ∧ CircuitBreaker.failureCount
        (RetryManager.circuitBreaker (RetryManager.manager r'))
      = CircuitBreaker.failureCount
          (RetryManager.circuitBreaker (RetryManager.manager r)) + 1
    ∧ RetryManager.world r' = (dateNow rt w').2.
Proof.
  intros Hallowed Hmax Hop Hterminal.
  unfold RetryManager.executeWithRetry.
  rewrite consultBreaker_unfold in *. cbn zeta in *. cbn [fst snd] in *.
  rewrite Hallowed. cbn [negb RetryManager.manager RetryManager.retryConfig].
  rewrite seqZ_cons by lia.
  erewrite attempts_threw by exact Hop. cbn zeta. rewrite Hterminal.
  cbn [negb]. do 2 eexists. split; [reflexivity|].
  split; [simpl; rewrite <- !app_assoc; reflexivity|].
  split; [reflexivity|]. split; [reflexivity|]. split; [|reflexivity].
  simpl. unfold CircuitBreaker.canExecute.
  destruct (CircuitBreaker.state _); [reflexivity| |reflexivity].
  destruct (_ <=? _); reflexivity.
Qed.

Lemma terminal_error_is_not_retried_witness :
  ∃ r',
    RetryManager.executeWithRetry Scenario.wallClock Cases.alwaysBroke Cases.freshRun
    = (Js.Threw (Js.ThrownError Cases.insufficientFunds), r').
Proof.
  destruct (terminal_error_is_not_retried Scenario.wallClock Cases.alwaysBroke
              Cases.freshRun Cases.insufficientFunds 1)
    as (r' & _ & Hrun & _).
  - reflexivity.
  - simpl; lia.
  - reflexivity.
  - reflexivity.
  - exists r'. exact Hrun.
Defined.




(** ** Exhausted runs and the breaker *)

Section Exhausted.
Import Js RetryManager Journal.
Context `{engine : Engine} {W : Type} (rt : Runtime W) {A : Type}.
Context (operation : W → Outcome A * W).
Hypothesis Hfail :
  ∀ w, ∃ e w', operation w = (Threw (ThrownError e), w')
               ∧ ErrorHandler.isRetryable (ErrorHandler.classifyError e) = true.


End Exhausted.



(** ** Breaker invariants *)

Section BreakerInvariants.
Import CircuitBreaker BreakerHistory.

Lemma apply_retained cb op :
  Z.of_nat (length (failures cb)) <= failureCount cb →
  Z.of_nat (length (failures (apply cb op))) <= failureCount (apply cb op).
Proof.
  intros H. destruct op; simpl; try lia.
  - unfold canExecute. destruct (state cb); simpl; try lia.
    destruct (_ <=? _); simpl; lia.
  - pose proof (length_filter (λ f, now - monitoringPeriod cb < timestamp f)
                  (failures cb ++ [ {| timestamp := now; error := failure_text error0 |} ]))
      as Hlen.
    rewrite length_app in Hlen. simpl in Hlen. lia.
Qed.

Lemma apply_monitoringPeriod cb op :
  monitoringPeriod (apply cb op) = monitoringPeriod cb.
Proof.
  destruct op; simpl; auto.
  unfold canExecute. destruct (state cb); simpl; auto.
  destruct (_ <=? _); simpl; auto.
Qed.

Lemma lastRecorded_snoc ops op :
  lastRecorded (ops ++ [op])
  = match recordedAt op with Some now => Some now | None => lastRecorded ops end.
Proof.
  unfold lastRecorded. rewrite omap_app. simpl.
  destruct (recordedAt op) as [now|]; simpl.
  - apply last_snoc.
  - now rewrite app_nil_r.
Qed.

Lemma apply_recent ops cb op :
  (∀ f, f ∈ failures cb →
        ∃ t, lastRecorded ops = Some t ∧ t - monitoringPeriod cb < timestamp f) →
  ∀ f, f ∈ failures (apply cb op) →
       ∃ t, lastRecorded (ops ++ [op]) = Some t
            ∧ t - monitoringPeriod (apply cb op) < timestamp f.
Proof.
  intros H f. rewrite lastRecorded_snoc, apply_monitoringPeriod.
  destruct op; simpl.
  - unfold canExecute. destruct (state cb); simpl; auto;
      destruct (_ <=? _); simpl; auto.
  - intros Hin. now apply elem_of_nil in Hin.
  - intros Hin. apply list_elem_of_filter in Hin as [Hrecent _].
    now exists now.
  - auto.
  - intros Hin. now apply elem_of_nil in Hin.
Qed.

Lemma apply_failed_once cb op :
  (state cb ≠ CLOSED → lastFailureTime cb ≠ None) →
  state (apply cb op) ≠ CLOSED → lastFailureTime (apply cb op) ≠ None.
Proof.
  intros H. destruct op; simpl; auto; try discriminate.
  unfold canExecute. destruct (state cb) eqn:Hs; simpl; auto;
    destruct (_ <=? _); simpl; auto; intros _; apply H; discriminate.
Qed.

Lemma apply_lastFailureTime ops cb op :
  isUndefinedFailure op = false →
  lastFailureTime cb = lastRecorded ops →
  lastFailureTime (apply cb op) = lastRecorded (ops ++ [op]).
Proof.
  intros Hop H. rewrite lastRecorded_snoc.
  destruct op; simpl; try exact H; try discriminate; try reflexivity.
  unfold canExecute. destruct (state cb); simpl; auto.
  destruct (_ <=? _); simpl; auto.
Qed.

End BreakerInvariants.

(** X7: whatever sequence of [canExecute], [onSuccess], [onFailure] and
    reset calls a fresh breaker goes through, and whatever the
    [onFailure] calls are given, the retained failures never outnumber
    [failureCount]; outside [CLOSED] the count has reached the threshold
    and a failure time is set; every retained failure is newer than the
    time of the last [onFailure] call with an error object minus
    [monitoringPeriod]; and that time is [lastFailureTime] as long as no
    [onFailure] call was given [undefined]. *)
Theorem breaker_invariants (options : CircuitBreaker.Options)
    (ops : list BreakerHistory.Op) :
  let cb := BreakerHistory.after ops (CircuitBreaker.new options) in
  Z.of_nat (length (CircuitBreaker.failures cb)) <= CircuitBreaker.failureCount cb
  ∧ (CircuitBreaker.state cb ≠ CLOSED →
     CircuitBreaker.failureThreshold cb <= CircuitBreaker.failureCount cb
     ∧ ∃ t, CircuitBreaker.lastFailureTime cb = Some t)
  ∧ (∀ f, f ∈ CircuitBreaker.failures cb →
          ∃ t, BreakerHistory.lastRecorded ops = Some t
               ∧ t - CircuitBreaker.monitoringPeriod cb < CircuitBreaker.timestamp f)
  ∧ (Forall (λ op, BreakerHistory.isUndefinedFailure op = false) ops →
     CircuitBreaker.lastFailureTime cb = BreakerHistory.lastRecorded ops).
Proof.
  cbn zeta. induction ops as [|op ops IH] using rev_ind.
  - split; [simpl; lia|]. split; [intros H; now contradiction H|].
    split; [intros f Hin; now apply elem_of_nil in Hin|]. reflexivity.
  - rewrite after_snoc. destruct IH as (Hretained & Hopen & Hrecent & Htime).
    split; [now apply apply_retained|].
    split; [|split; [now apply apply_recent|]].
    + intros Hstate. split.
      * destruct (after_tripped (ops ++ [op]) (CircuitBreaker.new options)) as [Hc|Hge];
          [now left| |].
        -- rewrite after_snoc in Hc. contradiction.
        -- rewrite after_snoc in Hge. exact Hge.
      * assert (Hset : CircuitBreaker.lastFailureTime
                         (BreakerHistory.apply
                            (BreakerHistory.after ops (CircuitBreaker.new options)) op)
                       ≠ None).
        { apply apply_failed_once; [|exact Hstate].
          intros Hs. destruct (Hopen Hs) as (_ & t & Ht). rewrite Ht. discriminate. }
        destruct (CircuitBreaker.lastFailureTime (BreakerHistory.apply _ _)) as [t|];
          [exists t; reflexivity|exfalso; now apply Hset].
    + intros Hall. apply Forall_app in Hall as [Hops Hop].
      apply apply_lastFailureTime; [now inversion Hop|now apply Htime].
Qed.

(** ** executeWithCircuitBreaker *)

(** X8: [executeWithCircuitBreaker] refuses a call exactly when the
    breaker is [OPEN] and less than [recoveryTimeout] has passed since the
    last failure; the error it then throws is the one [executeWithRetry]
    throws, the operation is not invoked and the manager is unchanged.
    In every other case the operation is invoked once, on the world left
    by the clock reading. *)
Theorem guard_refuses_only_when_open `{engine : Js.Engine} {W A : Type}
    (rt : Runtime W)
    (operation : W → Js.Outcome A * W) (r : RetryManager.Run W) :
  let cb := RetryManager.circuitBreaker (RetryManager.manager r) in
  let now := (dateNow rt (RetryManager.world r)).1 in
  let ran := CircuitGuard.executeWithCircuitBreaker rt operation r in
  if bool_decide (CircuitBreaker.state cb = OPEN
                  ∧ now - default 0 (CircuitBreaker.lastFailureTime cb)
                    < CircuitBreaker.recoveryTimeout cb)
  then ran.1 = Js.Threw (Js.ThrownError RetryManager.circuitOpenError)
       ∧ RetryManager.manager ran.2 = RetryManager.manager r
       ∧ RetryManager.world ran.2 = (dateNow rt (RetryManager.world r)).2
  else ∃ result w',
         operation (dateNow rt (RetryManager.world r)).2 = (result, w')
         ∧ match result with
           | Js.Returned a =>
               ran.1 = Js.Returned a ∧ RetryManager.world ran.2 = w'
               ∧ CircuitBreaker.state
                   (RetryManager.circuitBreaker (RetryManager.manager ran.2)) = CLOSED
           | Js.Threw (Js.ThrownError e) =>
               ran.1 = Js.Threw (Js.ThrownError e)
               ∧ RetryManager.world ran.2 = (dateNow rt w').2
               ∧ CircuitBreaker.failureCount
                   (RetryManager.circuitBreaker (RetryManager.manager ran.2))
                 = CircuitBreaker.failureCount cb + 1
           | Js.Threw Js.ThrownUndefined =>
               ran.1 = Js.Threw (Js.ThrownError Js.messageOfUndefined)
               ∧ RetryManager.world ran.2 = (dateNow rt w').2
               ∧ CircuitBreaker.failureCount
                   (RetryManager.circuitBreaker (RetryManager.manager ran.2))
                 = CircuitBreaker.failureCount cb + 1
           end.
Proof.
  cbn zeta. unfold CircuitGuard.executeWithCircuitBreaker.
  rewrite consultBreaker_unfold. cbn zeta.
  unfold CircuitBreaker.canExecute.
  destruct r as [[rc cb] w j]. cbn [RetryManager.manager RetryManager.world
    RetryManager.circuitBreaker RetryManager.journal].
  destruct cb as [th rto mp fc lft [] fs]; cbn [CircuitBreaker.state
    CircuitBreaker.lastFailureTime CircuitBreaker.recoveryTimeout
    CircuitBreaker.failureCount];
    case_bool_decide as Hdec.
  all: try (destruct Hdec as [Hdec _]; discriminate).
  all: try (destruct (Z.leb_spec rto ((dateNow rt w).1 - default 0 lft)) as [Hle|Hlt];
            [try (exfalso; lia)|]).
  all: cbn [fst snd negb].
  all: try (exfalso; apply Hdec; split; [reflexivity|lia]).
  all: try (split; [reflexivity|split; reflexivity]).
  all: destruct (operation _) as [[a|[e|]] w'] eqn:Hop;
    eexists _, _; (split; [reflexivity|]); unfold RetryManager.recordFailure;
    cbn; try destruct (dateNow rt w'); cbn; repeat split; reflexivity.
Qed.



(** ** Time spent waiting *)

Section Waiting.
Import Js RetryManager Journal JournalCounts.
Context `{engine : Engine} (ieee : Ieee754).
Context {W : Type} (rt : Runtime W) {A : Type} (operation : W → Outcome A * W).
Hypothesis Hrandom :
  ∀ w, lessEq (literal 0) (mathRandom rt w).1 = true
       ∧ lessEq (mathRandom rt w).1 (literal 1) = true.

Lemma delays_app j1 j2 : delays (j1 ++ j2) = delays j1 ++ delays j2.
Proof.
  induction j1 as [|e j1 IH]; [reflexivity|].
  destruct e; cbn [delays app]; rewrite IH; reflexivity.
Qed.



End Waiting.



(** ** Settings of zero *)

(** X11: a [maxRetries] of 0 in the configuration does not switch
    retrying off: like a missing value it selects the default of five
    attempts, so an operation that keeps failing with a retryable error
    is invoked five times on a fresh transaction manager, as its own
    record of the invocations shows. *)
Theorem zero_maxRetries_means_five_attempts `{engine : Js.Engine} {W A : Type}
    (rt : Runtime W) (operation : W → Js.Outcome A * W)
    (config : TransactionRetryManager.Config) (w : W) :
  TransactionRetryManager.cfg_maxRetries config = Some 0
  ∨ TransactionRetryManager.cfg_maxRetries config = None →
  (∀ w, ∃ e w',
     operation w = (Js.Threw (Js.ThrownError e), w')
     ∧ ErrorHandler.isRetryable (ErrorHandler.classifyError e) = true) →
  let fresh := RetryManager.mkRun (TransactionRetryManager.new config) w [] in
  RetryConfig.maxRetries
    (RetryManager.retryConfig (TransactionRetryManager.new config)) = 5
  ∧ Journal.invocations
      (RetryManager.journal (RetryManager.executeWithRetry rt operation fresh).2)
    = OperationInvoked <$> seqZ 1 5
  ∧ ∃ errors,
      Probe.settlements
        (RetryManager.executeWithRetry (Probe.recording rt)
           (Probe.recorded operation) (Probe.enter fresh)).2
      = (λ e, Js.Threw (Js.ThrownError e)) <$> errors
      ∧ length errors = 5%nat.
Proof.
  intros Hzero Hfail fresh.
  assert (Hfive : RetryConfig.maxRetries
                    (RetryManager.retryConfig (TransactionRetryManager.new config)) = 5)
    by (simpl; destruct Hzero as [-> | ->]; reflexivity).
  split; [exact Hfive|].
  assert (Hallowed : (RetryManager.consultBreaker rt fresh).1 = true)
    by (rewrite consultBreaker_unfold; reflexivity).
  split.
  - subst fresh. unfold RetryManager.executeWithRetry. rewrite consultBreaker_unfold.
    cbn zeta. cbn [fst snd RetryManager.manager RetryManager.world
                   RetryManager.circuitBreaker].
    change (CircuitBreaker.canExecute (dateNow rt w).1
              (RetryManager.circuitBreaker (TransactionRetryManager.new config)))
      with (true, RetryManager.circuitBreaker (TransactionRetryManager.new config)).
    cbn [fst snd negb RetryManager.manager RetryManager.retryConfig
         RetryManager.set_breaker RetryManager.set_world RetryManager.emit
         RetryManager.world RetryManager.journal].
    rewrite Hfive.
    match goal with
    | |- context [RetryManager.attempts rt operation _ ?l ?r1] =>
        destruct (attempts_exhaust rt operation Hfail 4 1 l r1)
          as (e & w0 & w' & r' & new & Hrun & _ & _ & _ & Hjournal & Hinv & _);
          [exact Hfive|]
    end.
    change (Z.of_nat 5) with 5 in Hrun. rewrite Hrun. cbn [snd].
    rewrite Hjournal. cbn [RetryManager.journal app].
    unfold Journal.invocations in *. rewrite filter_cons. simpl. exact Hinv.
  - destruct (executeWithRetry_exhaust_recorded rt operation Hfail fresh 5
                Hfive ltac:(lia) Hallowed)
      as (errors & e & _ & Hseen & Hlen & _).
    exists errors. split; [exact Hseen|lia].
Qed.

Lemma zero_maxRetries_means_five_attempts_witness :
  ∃ errors,
    Probe.settlements
      (RetryManager.executeWithRetry (Probe.recording Scenario.wallClock)
         (Probe.recorded Scenario.alwaysTimeout)
         (Probe.enter
            (RetryManager.mkRun (TransactionRetryManager.new Cases.noRetries) 0 []))).2
    = (λ e, Js.Threw (Js.ThrownError e)) <$> errors
    ∧ length errors = 5%nat.
Proof.
  apply (zero_maxRetries_means_five_attempts Scenario.wallClock Scenario.alwaysTimeout
           Cases.noRetries 0).
  - left. reflexivity.
  - intros w. exists Scenario.timeoutError, w. split; reflexivity.
Defined.

(** ** Substrings that never decide *)

Section Substrings.
Import Js.

Lemma prefix_app_l (a b hay : string) :
  String.prefix (a +:+ b) hay = true → String.prefix a hay = true.
Proof.
  revert hay. induction a as [|c a IH]; intros hay; [now destruct hay|].
  destruct hay as [|h hay]; simpl; [discriminate|].
  destruct (ascii_dec c h); [apply IH|discriminate].
Qed.

Lemma includes_app_l (a b hay : string) :
  includes hay (a +:+ b) = true → includes hay a = true.
Proof.
  induction hay as [|h hay IH]; cbn [includes]; rewrite !orb_true_iff.
  - intros [H|H]; [left; now apply (prefix_app_l a b)|discriminate].
  - intros [H|H]; [left; now apply (prefix_app_l a b)|right; now apply IH].
Qed.

Lemma includes_prefix (hay needle : string) :
  String.prefix needle hay = true → includes hay needle = true.
Proof. intros H. destruct hay; cbn [includes]; rewrite H; reflexivity. Qed.

Lemma includes_tail (c : ascii) (a hay : string) :
  includes hay (String c a) = true → includes hay a = true.
Proof.
  induction hay as [|h hay IH]; [discriminate|].
  cbn [includes]. rewrite !orb_true_iff. intros [H|H].
  - right. apply includes_prefix. simpl in H.
    destruct (ascii_dec c h); [exact H|discriminate].
  - right. now apply IH.
Qed.

Lemma absorbed (x y : bool) : (y = true → x = true) → (x || y)%bool = x.
Proof. destruct x, y; simpl; auto. intros H. symmetry. now apply H. Qed.

Lemma absorbed_first (x y : bool) : (x = true → y = true) → (x || y)%bool = y.
Proof. destruct x, y; simpl; auto. intros H. symmetry. now apply H. Qed.

End Substrings.

(** X12: three of the substrings [classifyError] looks for never decide
    anything: ["execution reverted"] is only tried after ["revert"], which
    it contains, and ["nonce too low"] and ["gas price too low"] are tried
    together with ["nonce"] and ["gas price"].  Classification is the same
    with them left out. *)
Theorem longer_substrings_are_redundant `{engine : Js.Engine} (error : Js.Error) :
  ErrorHandler.classifyError error
  = ClassifierRules.firstMatch ShortRules.shortTable error.
Proof.
  rewrite classifyError_firstMatch.
  unfold ClassifierRules.ruleTable, ShortRules.shortTable, ClassifierRules.firstMatch.
  rewrite !applies_unfold.
  cbn [ClassifierRules.kind ClassifierRules.codeTest ClassifierRules.needles existsb
       ClassifierRules.noCode].
  set (m := ErrorHandler.lowered_message error).
  rewrite !orb_false_r.
  assert (Hrevert : (Js.includes m "revert" || Js.includes m "execution reverted")%bool
                    = Js.includes m "revert").
  { apply absorbed. intros H.
    do 10 apply includes_tail in H.
    now apply (includes_app_l "revert" "ed"). }
  assert (Hnonce : (Js.includes m "nonce too low" || Js.includes m "nonce")%bool
                   = Js.includes m "nonce").
  { apply absorbed_first. apply (includes_app_l "nonce" " too low"). }
  assert (Hprice : (Js.includes m "gas price too low" || Js.includes m "gas price")%bool
                   = Js.includes m "gas price").
  { apply absorbed_first. apply (includes_app_l "gas price" " too low"). }
  cbn [orb]. rewrite Hrevert, Hnonce, Hprice. reflexivity.
Qed.

(** X13: [classifyError] never assigns [CONFIGURATION_ERROR], although
    the handler lists it among its error types. *)
Theorem configuration_error_is_never_assigned `{engine : Js.Engine}
    (error : Js.Error) :
  ErrorHandler.classifyError error ≠ CONFIGURATION_ERROR.
Proof.
  unfold ErrorHandler.classifyError. cbn zeta.
  repeat match goal with
  | |- (if ?c then _ else _) ≠ _ => destruct c; [discriminate|]
  end.
  discriminate.
Qed.

(** ** Gas history *)

Section GasHistory.
Import Js GasOptimizer GasStatistics.

Lemma estimations_snoc networkConfig fetches fetch this :
  estimations networkConfig (fetches ++ [fetch]) this
  = (estimateOptimalGasPrice networkConfig fetch.1 fetch.2
       (estimations networkConfig fetches this)).2.
Proof. unfold estimations. now rewrite fold_left_app. Qed.

Lemma estimations_maxHistorySize networkConfig fetches this :
  maxHistorySize (estimations networkConfig fetches this) = maxHistorySize this.
Proof.
  induction fetches as [|fetch fetches IH] using rev_ind; [reflexivity|].
  rewrite estimations_snoc. unfold estimateOptimalGasPrice.
  destruct fetch.1 as [[[quote|]]|]; simpl; exact IH.
Qed.

(** Dropping down to the last [n], appending, and dropping again is
    dropping once. *)
Lemma window_snoc {A} (n : nat) (l : list A) (x : A) :
  n ≠ 0%nat →
  let kept := drop (length l - n) l ++ [x] in
  (if (Z.of_nat n <? Z.of_nat (length kept))
   then sliceFrom (- Z.of_nat n) kept else kept)
  = drop (length (l ++ [x]) - n) (l ++ [x]).
Proof.
  intros Hn kept. subst kept. unfold sliceFrom.
  rewrite !length_app, length_drop. simpl.
  destruct (Z.ltb_spec (Z.of_nat n) (Z.of_nat (length l - (length l - n) + 1))) as [Hlt|Hge].
  - assert (Hlen : (n <= length l)%nat) by lia.
    replace (- Z.of_nat n <? 0) with true by (symmetry; apply Z.ltb_lt; lia).
    replace (Z.to_nat (Z.max (Z.of_nat (length l - (length l - n) + 1) + - Z.of_nat n) 0))
      with 1%nat by lia.
    replace (length l + 1 - n)%nat with (S (length l - n)) by lia.
    rewrite (drop_app_le l [x] (S (length l - n))) by lia.
    rewrite (drop_app_le (drop (length l - n) l) [x] 1) by (rewrite length_drop; lia).
    now rewrite drop_drop, Nat.add_1_r.
  - replace (length l - n)%nat with 0%nat by lia.
    replace (length l + 1 - n)%nat with 0%nat by lia. reflexivity.
Qed.

Lemma sum_bounds (lo hi : Z) (history : list HistoryEntry) (start : Z) :
  Forall (λ entry, lo <= entryGasPrice entry <= hi) history →
  start + Z.of_nat (length history) * lo
  <= fold_left (λ acc entry, acc + entryGasPrice entry) history start
  <= start + Z.of_nat (length history) * hi.
Proof.
  intros Hall. revert start.
  induction Hall as [|entry history Hentry _ IH]; intros start; simpl; [lia|].
  specialize (IH (start + entryGasPrice entry)). lia.
Qed.

Lemma quot_between (lo hi sum n : Z) :
  0 < n → n * lo <= sum <= n * hi → lo <= Z.quot sum n <= hi.
Proof.
  intros Hn Hsum.
  destruct (Z.le_gt_cases 0 sum) as [Hpos|Hneg].
  - rewrite Z.quot_div_nonneg by lia.
    split; [apply Z.div_le_lower_bound; lia|].
    apply Z.lt_succ_r, Z.div_lt_upper_bound; nia.
  - replace sum with (- (- sum)) by lia.
    rewrite Z.quot_opp_l by lia. rewrite Z.quot_div_nonneg by lia.
    split.
    + apply Z.opp_le_mono. rewrite Z.opp_involutive.
      apply Z.lt_succ_r, Z.div_lt_upper_bound; nia.
    + apply Z.opp_le_mono. rewrite Z.opp_involutive.
      apply Z.div_le_lower_bound; lia.
Qed.

End GasHistory.

Section GasWindow.
Import Js GasOptimizer GasStatistics.

Lemma estimations_window networkConfig fetches :
  gasHistory (estimations networkConfig fetches GasOptimizer.new)
  = drop (length (omap (entryOf networkConfig) fetches) - 100)
      (omap (entryOf networkConfig) fetches).
Proof.
  induction fetches as [|fetch fetches IH] using rev_ind; [reflexivity|].
  rewrite estimations_snoc, omap_app. simpl.
  unfold estimateOptimalGasPrice, entryOf.
  destruct fetch.1 as [[[quote|]]|]; simpl; rewrite ?app_nil_r; try exact IH.
  unfold trimHistory.
  rewrite estimations_maxHistorySize, IH.
  exact (window_snoc 100 _ _ ltac:(discriminate)).
Qed.

Lemma entryOf_within_bounds networkConfig fetches :
  minGasPrice networkConfig <= maxGasPrice networkConfig →
  Forall (λ entry, minGasPrice networkConfig <= entryGasPrice entry
                   <= maxGasPrice networkConfig)
    (omap (entryOf networkConfig) fetches).
Proof.
  intros Hbounds. apply Forall_forall. intros entry Hin.
  apply list_elem_of_omap in Hin as (fetch & _ & Hentry).
  unfold entryOf in Hentry.
  destruct fetch.1 as [[[quote|]]|]; try discriminate.
  injection Hentry as <-. simpl.
  apply ensureWithinBounds_spec. exact Hbounds.
Qed.

End GasWindow.

(** X14: after any sequence of gas price estimations on a fresh
    optimizer, failed ones included, the history holds exactly the entries
    of the successful estimations that are among the last 100 of them, in
    order; in particular it never holds more than 100 entries. *)
Theorem gas_history_is_sliding_window (networkConfig : GasOptimizer.NetworkConfig)
    (fetches : list (Js.Outcome GasOptimizer.FeeData * Z)) :
  let entries := omap (GasStatistics.entryOf networkConfig) fetches in
  let history :=
    GasOptimizer.gasHistory
      (GasStatistics.estimations networkConfig fetches GasOptimizer.new) in
  history = drop (length entries - 100) entries
  ∧ (length history <= 100)%nat.
Proof.
  cbn zeta. rewrite estimations_window.
  split; [reflexivity|]. rewrite length_drop. lia.
Qed.

(** X15: with [minGasPrice <= maxGasPrice], after any sequence of
    estimations on a fresh optimizer of which at least one succeeded,
    [getAverageGasPrice] lies between [minGasPrice] and [maxGasPrice]. *)
Theorem average_gas_price_within_bounds (networkConfig : GasOptimizer.NetworkConfig)
    (fetches : list (Js.Outcome GasOptimizer.FeeData * Z)) :
  GasOptimizer.minGasPrice networkConfig <= GasOptimizer.maxGasPrice networkConfig →
  omap (GasStatistics.entryOf networkConfig) fetches ≠ [] →
  GasOptimizer.minGasPrice networkConfig
  <= GasStatistics.getAverageGasPrice
       (GasStatistics.estimations networkConfig fetches GasOptimizer.new)
  <= GasOptimizer.maxGasPrice networkConfig.
Proof.
  intros Hbounds Hsome.
  pose proof (entryOf_within_bounds networkConfig fetches Hbounds) as Hall.
  unfold GasStatistics.getAverageGasPrice. rewrite estimations_window.
  set (entries := omap (GasStatistics.entryOf networkConfig) fetches) in *.
  assert (Hkept : Forall (λ entry, GasOptimizer.minGasPrice networkConfig
                                   <= GasOptimizer.entryGasPrice entry
                                   <= GasOptimizer.maxGasPrice networkConfig)
                    (drop (length entries - 100) entries))
    by now apply Forall_drop.
  assert (Hnonempty : drop (length entries - 100) entries ≠ []).
  { intros Hnil. apply (f_equal length) in Hnil. rewrite length_drop in Hnil.
    simpl in Hnil. destruct entries; [now apply Hsome|simpl in Hnil; lia]. }
  destruct (drop (length entries - 100) entries) as [|entry kept] eqn:Hdrop;
    [now contradiction Hnonempty|].
  apply quot_between; [simpl; lia|].
  pose proof (sum_bounds _ _ _ 0 Hkept) as Hsum. lia.
Qed.

Lemma average_gas_price_within_bounds_witness :
  1000000000
  <= GasStatistics.getAverageGasPrice
       (GasStatistics.estimations Scenario.quoted Cases.mixedQuotes GasOptimizer.new)
  <= 20000000000.
Proof.
  apply (average_gas_price_within_bounds Scenario.quoted Cases.mixedQuotes).
  - vm_compute. discriminate.
  - discriminate.
Defined.

(** ** The bundle function *)

Section BundleCount.
Import Js OptimizedBundlerBot RelayProtocol.
Context `{engine : Engine} (env : Collaborators) (config : Config).

Ltac count_step :=
  repeat first [rewrite bind_assoc | rewrite bind_ret | rewrite bind_currentTime];
  cbv beta;
  first
    [ rewrite bind_getOptimalGasPrice;
      destruct (getFeeData env _) as [[[?q|]]|?t]; cbn zeta
    | rewrite bind_estimateGasLimit;
      destruct (estimateGas env _) as [?a|?t]
    | rewrite bind_ask; cbv beta;
      match goal with
      | |- context [match ?o with Returned _ => _ | Threw _ => _ end] =>
          destruct o as [?a|?t]
      end ].

Ltac count_done :=
  eexists; split;
  [ cbn [snd calls record ret]; rewrite <- ?app_assoc; cbn [app]; reflexivity
  | apply Nat.leb_le; vm_compute; reflexivity ].

(** One run of the bundle function submits at most once. *)
Lemma bundleFunction_submits_once w :
  ∃ new,
    calls (bundleFunction env config w).2 = calls w ++ new
    ∧ (length (submissions new) <= 1)%nat.
Proof.
  unfold bundleFunction, getCurrentNonce, getFutureBlockNumber,
    createDeploymentTransaction, createApproveTransaction, createPoolTransaction,
    createLiquidityTransaction, createSwapTransaction, createTransferTransaction,
    sign, simulateBundle, submitBundle.
  count_step; [|count_done|count_done].
  do 23 (count_step; [|count_done]).
  count_done.
Qed.

Lemma submissions_app (cs1 cs2 : list Call) :
  submissions (cs1 ++ cs2) = submissions cs1 ++ submissions cs2.
Proof. unfold submissions. apply filter_app. Qed.

Section Retried.
Context {A : Type} (operation : Task A).
Hypothesis Hoperation :
  ∀ w, ∃ new, calls (operation w).2 = calls w ++ new
              ∧ (length (submissions new) <= 1)%nat.

Lemma attempts_submissions pending lastError r :
  ∃ new,
    calls (RetryManager.world
             (RetryManager.attempts (runtime env) operation pending lastError r).2)
    = calls (RetryManager.world r) ++ new
    ∧ (length (submissions new) <= length pending)%nat.
Proof.
  revert lastError r. induction pending as [|attempt rest IH]; intros lastError r.
  { exists []. split; [simpl; now rewrite app_nil_r|simpl; lia]. }
  destruct (Hoperation (RetryManager.world r)) as (new & Hcalls & Hnew).
  destruct (operation (RetryManager.world r)) as [[a|[e|]] w'] eqn:Hop;
    cbn [snd] in Hcalls.
  - simpl. rewrite Hop. simpl. exists new. split; [assumption|lia].
  - rewrite (attempts_threw _ _ _ _ _ _ _ _ Hop). cbn zeta.
    destruct (negb _).
    { exists (new ++ [CDateNow (clock env (calls w'))]). simpl.
      rewrite Hcalls, <- app_assoc. split; [reflexivity|].
      rewrite submissions_app, length_app. simpl. lia. }
    destruct (attempt =? _).
    { exists (new ++ [CDateNow (clock env (calls w'))]). simpl.
      rewrite Hcalls, <- app_assoc. split; [reflexivity|].
      rewrite submissions_app, length_app. simpl. lia. }
    match goal with
    | |- context [RetryManager.attempts _ operation rest ?l ?r2] =>
        destruct (IH l r2) as (new' & Hcalls' & Hnew')
    end.
    rewrite Hcalls'. cbn [RetryManager.world Journal.failedRun runtime dateNow
                           mathRandom setTimeout fst snd calls record].
    rewrite Hcalls, <- !app_assoc. eexists. split; [reflexivity|].
    rewrite !submissions_app, !length_app. simpl. lia.
  - simpl. rewrite Hop. simpl. exists new. split; [assumption|lia].
Qed.

End Retried.

End BundleCount.

(** X17: one call of [executeBundle] submits at most [maxRetries]
    bundles to the relay, whatever the collaborators answer. *)
Theorem submissions_bounded_by_maxRetries `{engine : Js.Engine}
    (env : OptimizedBundlerBot.Collaborators)
    (config : OptimizedBundlerBot.Config) (host : OptimizedBundlerBot.HostScope)
    (r : RetryManager.Run OptimizedBundlerBot.World) :
  ∃ new,
    OptimizedBundlerBot.calls
      (RetryManager.world (OptimizedBundlerBot.executeBundle env config host r).2)
    = OptimizedBundlerBot.calls (RetryManager.world r) ++ new
    ∧ Z.of_nat (length (RelayProtocol.submissions new))
      <= Z.max 0 (RetryConfig.maxRetries
                    (RetryManager.retryConfig (RetryManager.manager r))).
Proof.
  unfold OptimizedBundlerBot.executeBundle.
  destruct (negb (OptimizedBundlerBot.binds_gasPrice host));
    [exists []; split; [simpl; now rewrite app_nil_r|simpl; lia]|].
  destruct (negb (OptimizedBundlerBot.binds_nonce host));
    [exists []; split; [simpl; now rewrite app_nil_r|simpl; lia]|].
  unfold TransactionRetryManager.executeBundle, RetryManager.executeWithRetry.
  rewrite consultBreaker_unfold. cbn zeta. cbn [fst snd].
  destruct (negb _).
  - eexists. split; [reflexivity|]. simpl. lia.
  - match goal with
    | |- context [RetryManager.attempts _ ?op ?p ?l ?r1] =>
        destruct (attempts_submissions env op
                    (bundleFunction_submits_once env config) p l r1)
          as (new & Hcalls & Hnew)
    end.
    rewrite Hcalls. simpl. rewrite <- app_assoc. eexists.
    split; [reflexivity|].
    rewrite submissions_app, length_app. simpl.
    rewrite length_seqZ in Hnew. simpl in Hnew. lia.
Qed.

(** ** The logger *)

Section LoggerProperties.
Import Js Logger.
Context {Data : Type}.
Context (stringify : Data → Outcome unit).
Context (fields : Data → Outcome (list (string * string))).
Context (env : @Sinks Data).
Context `{engine : Engine}.
Implicit Types (h : list (@Call Data)) (p : @Pending).

Lemma logLevels_range key n : logLevels key = Own n → 0 <= n <= 4.
Proof.
  unfold logLevels.
  repeat (destruct (String.eqb key _); [intros [= <-]; lia|]).
  destruct (existsb _ _); discriminate.
Qed.

(** The threshold is never below the number of [warn]. *)
Lemma initialLevel_range monitoring c :
  initialLevel monitoring = Numeric c → 1 <= c <= 4.
Proof.
  unfold initialLevel. destruct (logLevel monitoring) as [key|]; [|intros [= <-]; lia].
  destruct (logLevels key) as [n| |] eqn:Hkey; [|discriminate|intros [= <-]; lia].
  apply logLevels_range in Hkey. intros [= <-].
  destruct (Z.eqb_spec n 0); lia.
Qed.

Lemma reportFailure_extends label thrown h :
  ∃ new, (reportFailure label thrown h).2 = h ++ new
         ∧ filter isTelegramPost new = [].
Proof.
  destruct thrown as [e|]; simpl.
  - eexists. split; reflexivity.
  - exists []. split; [now rewrite app_nil_r|reflexivity].
Qed.

Lemma reportFailure_returns label thrown h :
  thrown ≠ ThrownUndefined → (reportFailure label thrown h).1 = Returned tt.
Proof. destruct thrown; [reflexivity|congruence]. Qed.

Lemma writeToFile_extends this level message data h :
  ∃ new, (writeToFile stringify env this level message data h).2 = h ++ new
         ∧ filter isTelegramPost new = [].
Proof.
  unfold writeToFile. destruct (negb _).
  { exists []. split; [simpl; now rewrite app_nil_r|reflexivity]. }
  unfold formatMessage, now. cbn zeta.
  destruct (stringifyEntry _ _) as [[]|thrown].
  - match goal with
    | |- context [appendFile env ?h0 ?f ?e] => destruct (appendFile env h0 f e) as [[]|thrown]
    end.
    + cbn [snd]. rewrite <- !app_assoc. eexists. split; reflexivity.
    + match goal with
      | |- context [reportFailure ?l ?t ?h0] =>
          destruct (reportFailure_extends l t h0) as (new & -> & Hnone)
      end.
      rewrite <- !app_assoc. eexists. split; [reflexivity|].
      rewrite !filter_app, Hnone. reflexivity.
  - match goal with
    | |- context [reportFailure ?l ?t ?h0] =>
        destruct (reportFailure_extends l t h0) as (new & -> & Hnone)
    end.
    rewrite <- !app_assoc. eexists. split; [reflexivity|].
    rewrite !filter_app, Hnone. reflexivity.
Qed.

Lemma settle_extends p h :
  ∃ new, (settle p h).2 = h ++ new ∧ filter isTelegramPost new = [].
Proof.
  destruct p as [o|label [[]|thrown]]; simpl;
    try (exists []; split; [now rewrite app_nil_r|reflexivity]).
  apply reportFailure_extends.
Qed.

Lemma sendDiscordNotification_extends this message data h :
  ∃ new, (sendDiscordNotification fields env this message data h).2 = h ++ new
         ∧ filter isTelegramPost new = [].
Proof.
  unfold sendDiscordNotification. destruct (_ || _)%bool.
  { exists []. split; [simpl; now rewrite app_nil_r|reflexivity]. }
  unfold now. cbn zeta.
  destruct (match data with Some d => fields d | None => Returned [] end)
    as [listed|thrown].
  - cbn [snd]. rewrite <- !app_assoc. eexists. split; reflexivity.
  - match goal with
    | |- context [reportFailure ?l ?t ?h0] =>
        destruct (reportFailure_extends l t h0) as (new & Hnew & Hnone);
          destruct (reportFailure l t h0) as [o h1]
    end.
    cbn [snd] in *. subst h1. rewrite <- !app_assoc. eexists. split; [reflexivity|].
    rewrite !filter_app, Hnone. reflexivity.
Qed.

(** With [data] present the Telegram notification ends in its [catch]
    block. *)
Lemma sendTelegramNotification_with_data this message data h :
  ∃ o new,
    sendTelegramNotification stringify env this message (Some data) h
    = (Finished o, h ++ new)
    ∧ filter isTelegramPost new = [].
Proof.
  unfold sendTelegramNotification. destruct (_ || _)%bool.
  { exists (Returned tt), []. split; [now rewrite app_nil_r|reflexivity]. }
  match goal with
  | |- context [reportFailure ?l ?t ?h0] =>
      destruct (reportFailure_extends l t h0) as (new & Hnew & Hnone);
        destruct (reportFailure l t h0) as [o h1]
  end.
  cbn [snd] in *. subst h1. now exists o, new.
Qed.

Lemma notify_with_data this message data h :
  ∃ new,
    (notify stringify fields env this message (Some data) h).2 = h ++ new
    ∧ filter isTelegramPost new = [].
Proof.
  unfold notify.
  destruct (sendTelegramNotification_with_data this message data h)
    as (o & new1 & -> & Hnone1).
  destruct (sendDiscordNotification_extends this message (Some data) (h ++ new1))
    as (new2 & Hnew2 & Hnone2).
  destruct (sendDiscordNotification _ _ _ _ _ _) as [discord h2].
  cbn [snd] in Hnew2. subst h2.
  destruct (telegramSettlesFirst env _).
  - cbn [settle].
    destruct (settle_extends discord ((h ++ new1) ++ new2)) as (new3 & Hnew3 & Hnone3).
    destruct (settle discord _) as [b h3]. cbn [snd] in *. subst h3.
    rewrite <- !app_assoc. eexists. split; [reflexivity|].
    rewrite !filter_app, Hnone1, Hnone2, Hnone3. reflexivity.
  - destruct (settle_extends discord ((h ++ new1) ++ new2)) as (new3 & Hnew3 & Hnone3).
    destruct (settle discord _) as [b h3]. cbn [snd] in *. subst h3.
    cbn [settle snd].
    rewrite <- !app_assoc. eexists. split; [reflexivity|].
    rewrite !filter_app, Hnone1, Hnone2, Hnone3. reflexivity.
Qed.

Lemma sendTelegramNotification_extends this message data h :
  ∃ new, (sendTelegramNotification stringify env this message data h).2 = h ++ new.
Proof.
  destruct data as [data|].
  - destruct (sendTelegramNotification_with_data this message data h)
      as (o & new & -> & _). now exists new.
  - unfold sendTelegramNotification. destruct (_ || _)%bool.
    + exists []. simpl. now rewrite app_nil_r.
    + eexists. reflexivity.
Qed.

Lemma notify_extends this message data h :
  ∃ new, (notify stringify fields env this message data h).2 = h ++ new.
Proof.
  unfold notify.
  destruct (sendTelegramNotification_extends this message data h) as (new1 & Hnew1).
  destruct (sendTelegramNotification _ _ _ _ _ _) as [telegram h1].
  cbn [snd] in Hnew1. subst h1.
  destruct (sendDiscordNotification_extends this message data (h ++ new1))
    as (new2 & Hnew2 & _).
  destruct (sendDiscordNotification _ _ _ _ _ _) as [discord h2].
  cbn [snd] in Hnew2. subst h2.
  destruct (telegramSettlesFirst env _).
  - destruct (settle_extends telegram ((h ++ new1) ++ new2)) as (new3 & Hnew3 & _).
    destruct (settle telegram _) as [a h3]. cbn [snd] in Hnew3. subst h3.
    destruct (settle_extends discord (((h ++ new1) ++ new2) ++ new3))
      as (new4 & Hnew4 & _).
    destruct (settle discord _) as [b h4]. cbn [snd] in *. subst h4.
    rewrite <- !app_assoc. eexists. reflexivity.
  - destruct (settle_extends discord ((h ++ new1) ++ new2)) as (new3 & Hnew3 & _).
    destruct (settle discord _) as [b h3]. cbn [snd] in Hnew3. subst h3.
    destruct (settle_extends telegram (((h ++ new1) ++ new2) ++ new3))
      as (new4 & Hnew4 & _).
    destruct (settle telegram _) as [a h4]. cbn [snd] in *. subst h4.
    rewrite <- !app_assoc. eexists. reflexivity.
Qed.

Section Isolation.
Hypothesis Hthrows : throwsErrors stringify fields env.

Lemma writeToFile_returns this level message data h :
  (writeToFile stringify env this level message data h).1 = Returned tt.
Proof.
  destruct Hthrows as (Hstringify & _ & Happend & _).
  unfold writeToFile. destruct (negb _); [reflexivity|].
  unfold formatMessage, now. cbn zeta.
  unfold stringifyEntry. cbn [entryData].
  destruct data as [data|].
  - specialize (Hstringify data).
    destruct (stringify data) as [[]|thrown].
    + match goal with
      | |- context [appendFile env ?h0 ?f ?e] =>
          specialize (Happend h0 f e); destruct (appendFile env h0 f e) as [[]|thrown]
      end; [reflexivity|].
      apply reportFailure_returns. congruence.
    + apply reportFailure_returns. congruence.
  - match goal with
    | |- context [appendFile env ?h0 ?f ?e] =>
        specialize (Happend h0 f e); destruct (appendFile env h0 f e) as [[]|thrown]
    end; [reflexivity|].
    apply reportFailure_returns. congruence.
Qed.

Lemma settled_telegram this message data h :
  ∀ h', (settle (sendTelegramNotification stringify env this message data h).1 h').1
        = Returned tt.
Proof.
  destruct Hthrows as (Hstringify & _ & _ & Hpost & _). intros h'.
  unfold sendTelegramNotification. destruct (_ || _)%bool; [reflexivity|].
  destruct data as [data|].
  - specialize (Hstringify data).
    match goal with
    | |- context [reportFailure ?l ?t ?h0] =>
        pose proof (reportFailure_returns l t h0) as Hret;
          destruct (reportFailure l t h0) as [o h1]
    end.
    cbn [fst settle] in *. apply Hret.
    destruct (stringify data) as [[]|thrown]; congruence.
  - cbn [fst settle].
    match goal with
    | |- context [postTelegram env ?h0 ?a ?b ?c] =>
        specialize (Hpost h0 a b c); destruct (postTelegram env h0 a b c) as [[]|thrown]
    end; [reflexivity|].
    apply reportFailure_returns. congruence.
Qed.

Lemma settled_discord this message data h :
  ∀ h', (settle (sendDiscordNotification fields env this message data h).1 h').1
        = Returned tt.
Proof.
  destruct Hthrows as (_ & Hfields & _ & _ & Hpost). intros h'.
  unfold sendDiscordNotification. destruct (_ || _)%bool; [reflexivity|].
  unfold now. cbn zeta.
  assert (Hlisted : match data with Some d => fields d | None => Returned [] end
                    ≠ Threw ThrownUndefined)
    by (destruct data as [d|]; [apply Hfields|discriminate]).
  destruct (match data with Some d => fields d | None => Returned [] end)
    as [listed|thrown].
  - cbn [fst settle].
    match goal with
    | |- context [postDiscord env ?h0 ?a ?b] =>
        specialize (Hpost h0 a b); destruct (postDiscord env h0 a b) as [[]|thrown]
    end; [reflexivity|].
    apply reportFailure_returns. congruence.
  - match goal with
    | |- context [reportFailure ?l ?t ?h0] =>
        pose proof (reportFailure_returns l t h0) as Hret;
          destruct (reportFailure l t h0) as [o h1]
    end.
    cbn [fst settle] in *. apply Hret. congruence.
Qed.

Lemma notify_returns this message data h :
  (notify stringify fields env this message data h).1 = Returned tt.
Proof.
  unfold notify.
  pose proof (settled_telegram this message data h) as Htelegram.
  destruct (sendTelegramNotification _ _ _ _ _ _) as [telegram h1].
  pose proof (settled_discord this message data h1) as Hdiscord.
  destruct (sendDiscordNotification _ _ _ _ _ _) as [discord h2].
  cbn [fst] in *.
  destruct (telegramSettlesFirst env _).
  - specialize (Htelegram h2). destruct (settle telegram h2) as [a h3].
    specialize (Hdiscord h3). destruct (settle discord h3) as [b h4].
    cbn [fst] in *. subst. reflexivity.
  - specialize (Hdiscord h2). destruct (settle discord h2) as [b h3].
    specialize (Htelegram h3). destruct (settle telegram h3) as [a h4].
    cbn [fst] in *. subst. reflexivity.
Qed.

End Isolation.

End LoggerProperties.

(** X18: the configured level can silence neither errors nor warnings,
    and the level ["error"] silences nothing that ["info"] lets through:
    its number 0 is replaced by the default.  In each of these cases [log]
    reads the clock and writes the console line before anything else. *)
Theorem configured_level_cannot_silence `{engine : Js.Engine} {Data : Type}
    (stringify : Data → Js.Outcome unit)
    (fields : Data → Js.Outcome (list (string * string)))
    (env : @Logger.Sinks Data) (monitoring : Logger.Monitoring)
    (level message : string) (data : option Data) (sendNotification : bool)
    (h : list (@Logger.Call Data)) :
  level = "error" ∨ level = "warn"
  ∨ (Logger.logLevel monitoring = Some "error" ∧ level = "info") →
  ∃ rest,
    (Logger.log stringify fields env (Logger.new monitoring) level message data
       sendNotification h).2
    = h ++ [ Logger.CNow (Logger.toISOString env h);
             Logger.CConsoleLog (Logger.toISOString env h)
               (Js.toUpperCase level) message ] ++ rest.
Proof.
  intros Hlevel.
  assert (Hpass : Logger.exceeds (Logger.new monitoring) level = false).
  { unfold Logger.exceeds, Logger.new. cbn [Logger.currentLevel].
    destruct Hlevel as [->|[->|[Hcfg ->]]].
    - cbn [Logger.logLevels String.eqb Ascii.eqb Bool.eqb].
      destruct (Logger.initialLevel monitoring) as [c|] eqn:Hc; [|reflexivity].
      apply initialLevel_range in Hc. apply Z.ltb_ge. lia.
    - change (Logger.logLevels "warn") with (Logger.Own 1).
      destruct (Logger.initialLevel monitoring) as [c|] eqn:Hc; [|reflexivity].
      apply initialLevel_range in Hc. apply Z.ltb_ge. lia.
    - unfold Logger.initialLevel. rewrite Hcfg. reflexivity. }
  unfold Logger.log. rewrite Hpass.
  unfold Logger.formatMessage, Logger.now. cbn zeta.
  cbn [Logger.entryTimestamp Logger.entryLevel Logger.entryMessage].
  match goal with
  | |- context [Logger.writeToFile _ _ ?t ?l ?m ?d ?h0] =>
      destruct (writeToFile_extends stringify env t l m d h0) as (new & Hnew & _);
        destruct (Logger.writeToFile stringify env t l m d h0) as [[[]|thrown] h1]
  end; cbn [snd] in Hnew; subst h1.
  2:{ destruct data; cbn [snd]; rewrite <- !app_assoc; eexists; reflexivity. }
  destruct sendNotification.
  2:{ destruct data; cbn [snd]; rewrite <- !app_assoc; eexists; reflexivity. }
  match goal with
  | |- context [Logger.notify _ _ _ ?t ?m ?d ?h0] =>
      destruct (notify_extends stringify fields env t m d h0) as (new' & ->)
  end.
  destruct data; rewrite <- !app_assoc; eexists; reflexivity.
Qed.

Lemma configured_level_cannot_silence_witness :
  ∃ rest,
    (Logger.log (engine := Js.reference) LoggerCases.plainStringify
       LoggerCases.oneField LoggerCases.allDown
       (Logger.new LoggerCases.alerting) "info" "Bundle submitted" None false []).2
    = [] ++ [ Logger.CNow "2024-05-01T10:00:00.000Z";
              Logger.CConsoleLog "2024-05-01T10:00:00.000Z" "INFO" "Bundle submitted" ]
         ++ rest.
Proof.
  apply (configured_level_cannot_silence (engine := Js.reference)
           LoggerCases.plainStringify
           LoggerCases.oneField LoggerCases.allDown LoggerCases.alerting
           "info" "Bundle submitted" None false []).
  right. right. split; reflexivity.
Defined.

(** X19: a notification that carries data never reaches Telegram: no
    call of [log] with [data] present posts to it, whatever the
    configuration, the level and the answers of the outside. *)
Theorem telegram_never_posts_data `{engine : Js.Engine} {Data : Type}
    (stringify : Data → Js.Outcome unit)
    (fields : Data → Js.Outcome (list (string * string)))
    (env : @Logger.Sinks Data) (this : Logger.t)
    (level message : string) (data : Data) (sendNotification : bool)
    (h : list (@Logger.Call Data)) :
  filter Logger.isTelegramPost
    (Logger.log stringify fields env this level message (Some data)
       sendNotification h).2
  = filter Logger.isTelegramPost h.
Proof.
  unfold Logger.log. destruct (Logger.exceeds this level); [reflexivity|].
  unfold Logger.formatMessage, Logger.now. cbn zeta.
  match goal with
  | |- context [Logger.writeToFile _ _ ?t ?l ?m ?d ?h0] =>
      destruct (writeToFile_extends stringify env t l m d h0) as (new & Hnew & Hnone);
        destruct (Logger.writeToFile stringify env t l m d h0) as [[[]|thrown] h1]
  end; cbn [snd] in Hnew; subst h1.
  2:{ cbn [snd]. rewrite !filter_app, Hnone. simpl. now rewrite !app_nil_r. }
  destruct sendNotification.
  2:{ cbn [snd]. rewrite !filter_app, Hnone. simpl. now rewrite !app_nil_r. }
  match goal with
  | |- context [Logger.notify _ _ _ ?t ?m _ ?h0] =>
      destruct (notify_with_data stringify fields env t m data h0)
        as (new' & -> & Hnone')
  end.
  rewrite !filter_app, Hnone, Hnone'. simpl. now rewrite !app_nil_r.
Qed.

(** X20: as long as nothing outside throws [undefined], [log] never
    fails: a full disk, an unreachable service or data that cannot be
    serialised end in a line on the console. *)
Theorem log_survives_failing_sinks `{engine : Js.Engine} {Data : Type}
    (stringify : Data → Js.Outcome unit)
    (fields : Data → Js.Outcome (list (string * string)))
    (env : @Logger.Sinks Data) (this : Logger.t)
    (level message : string) (data : option Data) (sendNotification : bool)
    (h : list (@Logger.Call Data)) :
  Logger.throwsErrors stringify fields env →
  (Logger.log stringify fields env this level message data sendNotification h).1
  = Js.Returned tt.
Proof.
  intros Hthrows. unfold Logger.log.
  destruct (Logger.exceeds this level); [reflexivity|].
  unfold Logger.formatMessage, Logger.now. cbn zeta.
  match goal with
  | |- context [Logger.writeToFile _ _ ?t ?l ?m ?d ?h0] =>
      pose proof (writeToFile_returns stringify fields env Hthrows t l m d h0) as Hfile;
        destruct (Logger.writeToFile stringify env t l m d h0) as [o h1]
  end.
  cbn [fst] in Hfile. subst o.
  destruct sendNotification; [|reflexivity].
  apply (notify_returns stringify fields env Hthrows).
Qed.

Lemma log_survives_failing_sinks_witness :
  (Logger.log (engine := Js.reference) LoggerCases.plainStringify
     LoggerCases.oneField LoggerCases.allDown
     (Logger.new LoggerCases.alerting) "error" "Bundle execution failed"
     (Some "Network Error") true []).1
  = Js.Returned tt.
Proof.
  apply (log_survives_failing_sinks (engine := Js.reference)
           LoggerCases.plainStringify LoggerCases.oneField
           LoggerCases.allDown (Logger.new LoggerCases.alerting) "error"
           "Bundle execution failed" (Some "Network Error") true []).
  repeat split; intros; discriminate.
Defined.

(** ** Maps in insertion order *)

Section JsMaps.
Context {V : Type}.
Implicit Types (m : JsMap.t V) (key : string) (value : V).

Lemma get_set_same key value m : JsMap.get key (JsMap.set key value m) = Some value.
Proof.
  induction m as [|[k v] rest IH]; simpl.
  - now rewrite String.eqb_refl.
  - destruct (String.eqb key k) eqn:Hk; simpl; rewrite Hk; [reflexivity|exact IH].
Qed.

Lemma get_set_other key other value m :
  other ≠ key → JsMap.get other (JsMap.set key value m) = JsMap.get other m.
Proof.
  intros Hne. induction m as [|[k v] rest IH]; simpl.
  - destruct (String.eqb_spec other key); [contradiction|reflexivity].
  - destruct (String.eqb_spec key k) as [->|Hk]; simpl.
    + destruct (String.eqb_spec other k); [contradiction|reflexivity].
    + destruct (String.eqb other k); [reflexivity|exact IH].
Qed.

Lemma get_delete_same key m : JsMap.get key (JsMap.delete key m) = None.
Proof.
  induction m as [|[k v] rest IH]; [reflexivity|].
  unfold JsMap.delete in *. simpl.
  destruct (String.eqb key k) eqn:Hk; simpl; [exact IH|].
  rewrite Hk. exact IH.
Qed.

Lemma get_delete_other key other m :
  other ≠ key → JsMap.get other (JsMap.delete key m) = JsMap.get other m.
Proof.
  intros Hne. induction m as [|[k v] rest IH]; [reflexivity|].
  unfold JsMap.delete in *. simpl.
  destruct (String.eqb_spec key k) as [->|Hk]; simpl.
  - destruct (String.eqb_spec other k); [contradiction|exact IH].
  - destruct (String.eqb other k); [reflexivity|exact IH].
Qed.

Lemma size_set key value m :
  JsMap.size m <= JsMap.size (JsMap.set key value m) <= JsMap.size m + 1.
Proof.
  unfold JsMap.size. induction m as [|[k v] rest IH]; simpl; [lia|].
  destruct (String.eqb key k); simpl; lia.
Qed.

Lemma size_delete key m :
  JsMap.size (JsMap.delete key m) <= JsMap.size m.
Proof.
  unfold JsMap.size, JsMap.delete. induction m as [|[k v] rest IH]; simpl; [lia|].
  destruct (negb _); simpl; lia.
Qed.

Lemma size_delete_found key value m :
  JsMap.get key m = Some value →
  JsMap.size (JsMap.delete key m) + 1 <= JsMap.size m.
Proof.
  unfold JsMap.size, JsMap.delete. induction m as [|[k v] rest IH]; simpl; [discriminate|].
  destruct (String.eqb key k) eqn:Hk; simpl.
  - intros _. pose proof (size_delete key rest) as Hle.
    unfold JsMap.size, JsMap.delete in Hle. lia.
  - intros Hget. specialize (IH Hget). lia.
Qed.

Lemma values_set (P : V → Prop) key value m :
  P value → Forall P (JsMap.values m) → Forall P (JsMap.values (JsMap.set key value m)).
Proof.
  intros Hv. unfold JsMap.values.
  induction m as [|[k v] rest IH]; simpl; intros Hall.
  - now constructor.
  - apply Forall_cons in Hall as [Hhead Htail].
    destruct (String.eqb key k); simpl; constructor; auto.
Qed.

End JsMaps.

(** ** The monitor's bookkeeping *)

Section Ledger.
Import Js TransactionLedger.
Context {TxData Num : Type}.
Context (number : Z → Num) (plus times divide : Num → Num → Num).

Implicit Types (this : @TransactionLedger.t TxData Num).

Lemma updateMetrics_fields this :
  pendingTransactions (updateMetrics divide this) = pendingTransactions this
  ∧ completedTransactions (updateMetrics divide this) = completedTransactions this
  ∧ failedTransactionsMap (updateMetrics divide this) = failedTransactionsMap this
  ∧ logged (updateMetrics divide this) = logged this
  ∧ totalTransactions (metrics (updateMetrics divide this))
    = totalTransactions (metrics this)
  ∧ successfulTransactions (metrics (updateMetrics divide this))
    = successfulTransactions (metrics this)
  ∧ failedTransactions (metrics (updateMetrics divide this))
    = failedTransactions (metrics this).
Proof. unfold updateMetrics. destruct (0 <? _); repeat split; reflexivity. Qed.

Lemma accounted_updateMetrics this :
  accounted this → accounted (updateMetrics divide this).
Proof.
  unfold accounted. cbn zeta.
  destruct (updateMetrics_fields this) as (-> & -> & -> & _ & -> & -> & ->). auto.
Qed.

Lemma accounted_apply this (op : Op) :
  accounted this → accounted (apply number plus times divide this op).
Proof.
  intros (Hs & Hf & Htotal & Hcompleted & Hfailed & Hsuccesses & Hfailures).
  destruct op as [now txHash txData|now txHash status receipt error|now iso].
  - unfold accounted. simpl.
    pose proof (size_set txHash
                  {| TransactionMonitor.txData := txData;
                     TransactionMonitor.startTime := now;
                     TransactionMonitor.status := TransactionMonitor.pending |}
                  (pendingTransactions this)) as Hsize.
    repeat split; auto; lia.
  - cbn [apply]. unfold updateTransactionStatus.
    destruct (JsMap.get txHash (pendingTransactions this)) as [record|] eqn:Hget;
      [|now repeat split].
    pose proof (size_delete_found _ _ _ Hget) as Hdrop.
    apply accounted_updateMetrics. unfold accounted. cbn zeta.
    destruct (String.eqb status "success") eqn:Hstatus;
      [destruct receipt as [r|]|].
    + apply String.eqb_eq in Hstatus. subst status. simpl.
      match goal with
      | |- context [JsMap.set txHash ?v (completedTransactions this)] =>
          pose proof (size_set txHash v (completedTransactions this)) as Hsize;
            pose proof (values_set isSuccess txHash v (completedTransactions this)) as Hvalues
      end.
      repeat split; auto; try lia.
      apply Hvalues; [|exact Hsuccesses]. repeat split; simpl; eauto.
    + destruct (String.eqb_spec status "failed") as [->|_]; simpl.
      * discriminate.
      * repeat split; auto; lia.
    + destruct (String.eqb_spec status "failed") as [->|_]; simpl.
      * match goal with
        | |- context [JsMap.set txHash ?v (failedTransactionsMap this)] =>
            pose proof (size_set txHash v (failedTransactionsMap this)) as Hsize;
              pose proof (values_set isFailure txHash v (failedTransactionsMap this)) as Hvalues
        end.
        repeat split; auto; try lia.
        apply Hvalues; [|exact Hfailures]. repeat split; simpl; eauto.
      * repeat split; auto; lia.
  - unfold accounted. simpl. repeat split; auto.
Qed.

Lemma accounted_after (ops : list Op) this :
  accounted this → accounted (after number plus times divide ops this).
Proof.
  revert this. induction ops as [|op ops IH]; intros this Hthis; [exact Hthis|].
  simpl. apply IH. now apply accounted_apply.
Qed.

Lemma sliceFrom_window {A} (n : nat) (P : A → Prop) (l : list A) :
  n ≠ 0%nat → Forall P l →
  (length (sliceFrom (- Z.of_nat n) l) <= n)%nat
  ∧ Forall P (sliceFrom (- Z.of_nat n) l).
Proof.
  intros Hn Hall. unfold sliceFrom.
  replace (- Z.of_nat n <? 0) with true by (symmetry; apply Z.ltb_lt; lia).
  split; [rewrite length_drop; lia|now apply Forall_drop].
Qed.

End Ledger.

(** X21: whatever transactions are started, settled and reported, in
    whatever order and with whatever statuses, the counters account for
    every record: the successes, the failures and the pending records
    together never exceed the number of transactions started, the two
    result maps never hold more records than were counted, everything
    filed as completed has status ["success"] and a receipt, everything
    filed as failed has status ["failed"], and each settled record's
    duration is its end time minus its start time.  A report generated
    then shows at most ten such successes and at most five such failures,
    and a success rate whose part is between zero and its whole. *)
Theorem monitor_accounts_for_every_transaction {TxData Num : Type}
    (number : Z → Num) (plus times divide : Num → Num → Num)
    (start : Z) (ops : list (@TransactionLedger.Op TxData))
    (now : Z) (iso : string) :
  let this :=
    TransactionLedger.after number plus times divide ops
      (TransactionLedger.new number start) in
  let report := (TransactionLedger.generateReport now iso this).1 in
  TransactionLedger.accounted this
  ∧ (length (TransactionLedger.recentTransactions report) <= 10)%nat
  ∧ Forall TransactionLedger.isSuccess (TransactionLedger.recentTransactions report)
  ∧ (length (TransactionLedger.recentFailures report) <= 5)%nat
  ∧ Forall TransactionLedger.isFailure (TransactionLedger.recentFailures report)
  ∧ match TransactionLedger.successRate (TransactionLedger.reportMetrics report) with
    | TransactionLedger.ZeroPercent => True
    | TransactionLedger.PercentOf part whole => 0 <= part <= whole
    end.
Proof.
  cbn zeta.
  assert (Hinv : TransactionLedger.accounted
                   (TransactionLedger.after number plus times divide ops
                      (TransactionLedger.new (TxData := TxData) number start))).
  { apply accounted_after. unfold TransactionLedger.accounted. simpl.
    unfold JsMap.size. simpl.
    repeat match goal with |- _ ∧ _ => split end; try lia; constructor. }
  split; [exact Hinv|].
  destruct Hinv as (Hs & Hf & Htotal & _ & _ & Hsuccesses & Hfailures).
  cbn [TransactionLedger.generateReport fst TransactionLedger.recentTransactions
       TransactionLedger.recentFailures TransactionLedger.reportMetrics].
  destruct (sliceFrom_window 10 _ _ ltac:(discriminate) Hsuccesses) as [Hten Hrecent].
  destruct (sliceFrom_window 5 _ _ ltac:(discriminate) Hfailures) as [Hfive Hfailed].
  split; [exact Hten|]. split; [exact Hrecent|].
  split; [exact Hfive|]. split; [exact Hfailed|].
  unfold TransactionLedger.getMetrics. cbn [TransactionLedger.successRate].
  destruct (0 <? _); [|exact I].
  unfold JsMap.size in Htotal. lia.
Qed.

(** X22: settling a pending transaction always removes it from the
    pending map and leaves the other pending records alone.  It is filed
    as completed only for status ["success"] with a receipt and as failed
    only for status ["failed"]; for any other status, and for
    ["success"] without a receipt, it is dropped: no map holds the new
    record, no counter moves and nothing is logged. *)
Theorem settling_files_or_drops {TxData Num : Type}
    (number : Z → Num) (plus times divide : Num → Num → Num)
    (this : @TransactionLedger.t TxData Num)
    (now : Z) (txHash status : string)
    (receipt : option TransactionLedger.Receipt) (error : option Js.Error)
    (record : TransactionMonitor.Record_ TxData) :
  JsMap.get txHash (TransactionLedger.pendingTransactions this) = Some record →
  let this' :=
    TransactionLedger.updateTransactionStatus number plus times divide
      now txHash status receipt error this in
  let m := TransactionLedger.metrics this in
  let m' := TransactionLedger.metrics this' in
  let filed := TransactionLedger.settled now status receipt error record in
  JsMap.get txHash (TransactionLedger.pendingTransactions this') = None
  ∧ (∀ other, other ≠ txHash →
       JsMap.get other (TransactionLedger.pendingTransactions this')
       = JsMap.get other (TransactionLedger.pendingTransactions this))
  ∧ TransactionLedger.totalTransactions m' = TransactionLedger.totalTransactions m
  ∧ if (String.eqb status "success" && bool_decide (is_Some receipt))%bool then
      JsMap.get txHash (TransactionLedger.completedTransactions this') = Some filed
      ∧ TransactionLedger.successfulTransactions m'
        = TransactionLedger.successfulTransactions m + 1
      ∧ TransactionLedger.failedTransactions m' = TransactionLedger.failedTransactions m
      ∧ TransactionLedger.failedTransactionsMap this'
        = TransactionLedger.failedTransactionsMap this
    else if String.eqb status "failed" then
      JsMap.get txHash (TransactionLedger.failedTransactionsMap this') = Some filed
      ∧ TransactionLedger.failedTransactions m'
        = TransactionLedger.failedTransactions m + 1
      ∧ TransactionLedger.successfulTransactions m'
        = TransactionLedger.successfulTransactions m
      ∧ TransactionLedger.completedTransactions this'
        = TransactionLedger.completedTransactions this
    else
      TransactionLedger.completedTransactions this'
      = TransactionLedger.completedTransactions this
      ∧ TransactionLedger.failedTransactionsMap this'
        = TransactionLedger.failedTransactionsMap this
      ∧ TransactionLedger.successfulTransactions m'
        = TransactionLedger.successfulTransactions m
      ∧ TransactionLedger.failedTransactions m' = TransactionLedger.failedTransactions m
      ∧ TransactionLedger.logged this' = TransactionLedger.logged this.
Proof.
  intros Hget. cbn zeta.
  unfold TransactionLedger.updateTransactionStatus. rewrite Hget.
  match goal with
  | |- context [TransactionLedger.updateMetrics divide ?x] =>
      destruct (updateMetrics_fields divide x) as (-> & -> & -> & -> & -> & -> & ->)
  end.
  cbn [TransactionLedger.pendingTransactions TransactionLedger.completedTransactions
       TransactionLedger.failedTransactionsMap TransactionLedger.metrics
       TransactionLedger.logged].
  assert (Hpending : ∀ x : @TransactionLedger.t TxData Num,
            TransactionLedger.pendingTransactions x
            = TransactionLedger.pendingTransactions this →
            JsMap.get txHash (JsMap.delete txHash (TransactionLedger.pendingTransactions x))
            = None
            ∧ ∀ other, other ≠ txHash →
                JsMap.get other
                  (JsMap.delete txHash (TransactionLedger.pendingTransactions x))
                = JsMap.get other (TransactionLedger.pendingTransactions this)).
  { intros x ->. split; [apply get_delete_same|].
    intros other Hne. now apply get_delete_other. }
  destruct (String.eqb status "success") eqn:Hstatus;
    [destruct receipt as [r|]|]; cbn [andb].
  - rewrite bool_decide_eq_true_2 by eauto.
    destruct (Hpending _ eq_refl) as [Hnone Hother].
    split; [exact Hnone|]. split; [exact Hother|]. simpl.
    split; [reflexivity|]. split; [apply get_set_same|]. repeat split; reflexivity.
  - rewrite bool_decide_eq_false_2 by (intros [? ?]; discriminate).
    destruct (String.eqb status "failed") eqn:Hfailed.
    { apply String.eqb_eq in Hfailed. subst status. discriminate. }
    destruct (Hpending _ eq_refl) as [Hnone Hother].
    split; [exact Hnone|]. split; [exact Hother|]. repeat split; reflexivity.
  - destruct (String.eqb status "failed") eqn:Hfailed.
    + destruct (Hpending _ eq_refl) as [Hnone Hother].
      split; [exact Hnone|]. split; [exact Hother|]. simpl.
      split; [reflexivity|]. split; [apply get_set_same|]. repeat split; reflexivity.
    + destruct (Hpending _ eq_refl) as [Hnone Hother].
      split; [exact Hnone|]. split; [exact Hother|]. repeat split; reflexivity.
Qed.

(** A success reported without its receipt. *)
Lemma settling_files_or_drops_witness :
  let this' :=
    TransactionLedger.updateTransactionStatus (fun n => n) Z.add Z.mul Z.div
      5000 "0xabc" "success" None None LedgerCases.watching in
  JsMap.get "0xabc" (TransactionLedger.pendingTransactions this') = None
  ∧ TransactionLedger.completedTransactions this' = []
  ∧ TransactionLedger.successfulTransactions (TransactionLedger.metrics this') = 0.
Proof.
  destruct (settling_files_or_drops (fun n => n) Z.add Z.mul Z.div
              LedgerCases.watching 5000 "0xabc" "success" None None
              {| TransactionMonitor.txData := "deployment";
                 TransactionMonitor.startTime := 1000;
                 TransactionMonitor.status := TransactionMonitor.pending |}
              eq_refl)
    as (Hnone & _ & _ & Hdropped).
  cbn in Hdropped. destruct Hdropped as (Hcompleted & _ & Hsuccessful & _).
  cbn zeta. split; [exact Hnone|]. split; [exact Hcompleted|exact Hsuccessful].
Defined.

(** ** The configuration *)

Section ValidatedConfiguration.
Import Js Configuration.
Context (parseInt : string → option Z).
Context {Float : Type} (parseFloat : string → Float).
Context (belowTenth above50 : Float → bool).
Context (validKey : string → bool).

(** A name with a row in both tables. *)
Lemma listed_twice env key :
  absent (lookup (networks env) key) = false →
  absent (lookup addresses key) = false →
  key = "bsc" ∨ key = "bscTestnet" ∨ key ∈ Logger.objectPrototypeKeys.
Proof.
  unfold lookup, networks, addresses. cbn [List.find fst snd].
  destruct (String.eqb_spec key "bsc") as [->|_]; [now left|].
  destruct (String.eqb_spec key "bscTestnet") as [->|_]; [now right; left|].
  intros _.
  destruct (existsb (String.eqb key) Logger.objectPrototypeKeys) eqn:Hinherited;
    [|discriminate].
  intros _. right. right.
  apply existsb_exists in Hinherited as (name & Hin & Heq).
  apply String.eqb_eq in Heq. subst name. now apply list_elem_of_In.
Qed.

Lemma new_returned env config :
  new parseInt parseFloat belowTenth above50 validKey env = Returned config →
  config = loadEnvironmentConfig parseInt parseFloat env
  ∧ validateConfig belowTenth above50 validKey config = None.
Proof.
  unfold new.
  destruct (validateConfig _ _ _ _) eqn:Hvalid; [discriminate|].
  intros [= <-]. now split.
Qed.

End ValidatedConfiguration.

(** X23: a configuration is only constructed when both required
    variables are set, the key is accepted, and the network is [bsc] or
    [bscTestnet] or a name every object inherits; the local network
    [hardhat] has no addresses and is always rejected, so [isLocal()] is
    false of every constructed configuration.  A pool fee that does not
    parse passes the range check: the fee is [NaN], or between 100 and
    10000. *)
Theorem constructed_configuration {Float : Type}
    (parseInt : string → option Z) (parseFloat : string → Float)
    (belowTenth above50 : Float → bool) (validKey : string → bool)
    (env : Configuration.Env) (config : Configuration.t) :
  Configuration.new parseInt parseFloat belowTenth above50 validKey env
  = Js.Returned config →
  Configuration.unset env "PRIVATE_KEY" = false
  ∧ Configuration.unset env "BLOXROUTE_AUTH_HEADER" = false
  ∧ (∃ key, env "PRIVATE_KEY" = Some key ∧ validKey key = true)
  ∧ (Configuration.currentNetwork config = "bsc"
     ∨ Configuration.currentNetwork config = "bscTestnet"
     ∨ Configuration.currentNetwork config ∈ Logger.objectPrototypeKeys)
  ∧ Configuration.isLocal config = false
  ∧ match Configuration.poolFee config with
    | Some fee => 100 <= fee <= 10000
    | None => True
    end.
Proof.
  intros Hnew.
  destruct (new_returned _ _ _ _ _ _ _ Hnew) as [-> Hvalid].
  unfold Configuration.validateConfig in Hvalid.
  cbn [Configuration.environment Configuration.loadEnvironmentConfig] in Hvalid.
  cbn [List.filter] in Hvalid.
  destruct (Configuration.unset env "PRIVATE_KEY") eqn:Hkey;
    [destruct (Configuration.unset env "BLOXROUTE_AUTH_HEADER"); discriminate|].
  destruct (Configuration.unset env "BLOXROUTE_AUTH_HEADER") eqn:Hheader;
    [discriminate|].
  cbn [length Nat.eqb negb] in Hvalid.
  destruct (Configuration.absent (Configuration.getNetworkConfig _)) eqn:Hnetwork;
    [discriminate|].
  destruct (Configuration.absent (Configuration.getAddresses _)) eqn:Haddresses;
    [discriminate|].
  cbn [Configuration.privateKey] in Hvalid.
  destruct (validKey _) eqn:Hwallet; [|discriminate]. cbn [negb] in Hvalid.
  cbn [Configuration.poolFee] in Hvalid.
  destruct (Configuration.outside 100 10000 _) eqn:Hfee; [discriminate|].
  clear Hvalid.
  pose proof (listed_twice env _ Hnetwork Haddresses) as Hlisted.
  cbn [Configuration.currentNetwork Configuration.privateKey Configuration.poolFee
       Configuration.loadEnvironmentConfig] in *.
  split; [reflexivity|]. split; [reflexivity|].
  split.
  { unfold Configuration.unset in Hkey.
    destruct (env "PRIVATE_KEY") as [key|]; [|discriminate].
    exists key. split; [reflexivity|exact Hwallet]. }
  split; [exact Hlisted|].
  split.
  { unfold Configuration.isLocal.
    cbn [Configuration.currentNetwork Configuration.loadEnvironmentConfig].
    destruct (String.eqb_spec (Configuration.envOr env "NETWORK" "bsc") "hardhat")
      as [Hlocal|_]; [|reflexivity].
    unfold Configuration.getAddresses in Haddresses.
    cbn [Configuration.currentNetwork Configuration.loadEnvironmentConfig] in Haddresses.
    rewrite Hlocal in Haddresses. vm_compute in Haddresses. discriminate. }
  unfold Configuration.outside in Hfee.
  destruct (parseInt _) as [fee|]; [|exact I].
  apply orb_false_elim in Hfee as [Hlo Hhi].
  apply Z.ltb_ge in Hlo, Hhi. lia.
Qed.

Lemma constructed_configuration_witness :
  ∃ config,
    Configuration.new ConfigurationCases.decimal ConfigurationCases.half
      ConfigurationCases.belowTenth ConfigurationCases.above50
      ConfigurationCases.anyKey ConfigurationCases.testnet
    = Js.Returned config
    ∧ Configuration.isLocal config = false.
Proof.
  eexists. split; [vm_compute; reflexivity|].
  eapply (constructed_configuration ConfigurationCases.decimal ConfigurationCases.half
            ConfigurationCases.belowTenth ConfigurationCases.above50
            ConfigurationCases.anyKey ConfigurationCases.testnet).
  vm_compute. reflexivity.
Defined.

(** X24: for every constructed configuration whose network has a row of
    its own, the gas price estimated from any fee quote lies between that
    network's [minGasPrice] and [maxGasPrice]: between 5 and 50 gwei on
    the main network and between 1 and 20 gwei on the test network. *)
Theorem constructed_network_bounds_gas {Float : Type}
    (parseInt : string → option Z) (parseFloat : string → Float)
    (belowTenth above50 : Float → bool) (validKey : string → bool)
    (env : Configuration.Env) (config : Configuration.t)
    (network : Configuration.Network)
    (quote now : Z) (optimizer : GasOptimizer.t) :
  Configuration.new parseInt parseFloat belowTenth above50 validKey env
  = Js.Returned config →
  Configuration.getNetworkConfig config = Configuration.Found network →
  ∃ gasPrice,
    (GasOptimizer.estimateOptimalGasPrice (Configuration.estimatorView network)
       (Js.Returned (GasOptimizer.mkFeeData (Some quote))) now optimizer).1
    = Js.Returned gasPrice
    ∧ Configuration.minGasPrice network <= gasPrice
      <= Configuration.maxGasPrice network
    ∧ if Configuration.isMainnet config
      then Configuration.gwei 5 <= gasPrice <= Configuration.gwei 50
      else Configuration.gwei 1 <= gasPrice <= Configuration.gwei 20.
Proof.
  intros Hnew Hfound.
  destruct (new_returned _ _ _ _ _ _ _ Hnew) as [-> Hvalid].
  unfold Configuration.validateConfig in Hvalid.
  destruct (negb (Nat.eqb _ _)); [discriminate|].
  destruct (Configuration.absent (Configuration.getNetworkConfig _)) eqn:Hnetwork;
    [discriminate|].
  destruct (Configuration.absent (Configuration.getAddresses _)) eqn:Haddresses;
    [discriminate|].
  clear Hvalid.
  unfold Configuration.getNetworkConfig, Configuration.getAddresses,
    Configuration.isMainnet in *.
  cbn [Configuration.currentNetwork Configuration.environment
       Configuration.loadEnvironmentConfig] in *.
  set (key := Configuration.envOr env "NETWORK" "bsc") in *.
  eexists. split; [reflexivity|].
  unfold Configuration.lookup, Configuration.networks, Configuration.addresses in *.
  cbn [List.find fst snd] in *.
  destruct (String.eqb_spec key "bsc") as [Hbsc|_].
  { injection Hfound as <-.
    pose proof (ensureWithinBounds_spec
                  (Configuration.estimatorView
                     {| Configuration.chainId := 56;
                        Configuration.networkName := "BSC Mainnet";
                        Configuration.rpcUrl :=
                          Configuration.envOr env "BSC_RPC_URL"
                            "https://bsc-dataseed.binance.org/";
                        Configuration.gasMultiplierX100 := 120;
                        Configuration.maxGasPrice := Configuration.gwei 50;
                        Configuration.minGasPrice := Configuration.gwei 5 |})
                  (GasOptimizer.applyMultiplier
                     (Configuration.estimatorView
                        {| Configuration.chainId := 56;
                           Configuration.networkName := "BSC Mainnet";
                           Configuration.rpcUrl :=
                             Configuration.envOr env "BSC_RPC_URL"
                               "https://bsc-dataseed.binance.org/";
                           Configuration.gasMultiplierX100 := 120;
                           Configuration.maxGasPrice := Configuration.gwei 50;
                           Configuration.minGasPrice := Configuration.gwei 5 |})
                     quote)
                  ltac:(vm_compute; discriminate)) as [Hin _].
    cbn [Configuration.estimatorView GasOptimizer.minGasPrice GasOptimizer.maxGasPrice
         Configuration.minGasPrice Configuration.maxGasPrice] in *.
    split; exact Hin. }
  destruct (String.eqb_spec key "bscTestnet") as [Htest|_].
  { injection Hfound as <-.
    pose proof (ensureWithinBounds_spec
                  (Configuration.estimatorView
                     {| Configuration.chainId := 97;
                        Configuration.networkName := "BSC Testnet";
                        Configuration.rpcUrl :=
                          Configuration.envOr env "BSC_TESTNET_RPC_URL"
                            "https://data-seed-prebsc-1-s1.binance.org:8545/";
                        Configuration.gasMultiplierX100 := 110;
                        Configuration.maxGasPrice := Configuration.gwei 20;
                        Configuration.minGasPrice := Configuration.gwei 1 |})
                  (GasOptimizer.applyMultiplier
                     (Configuration.estimatorView
                        {| Configuration.chainId := 97;
                           Configuration.networkName := "BSC Testnet";
                           Configuration.rpcUrl :=
                             Configuration.envOr env "BSC_TESTNET_RPC_URL"
                               "https://data-seed-prebsc-1-s1.binance.org:8545/";
                           Configuration.gasMultiplierX100 := 110;
                           Configuration.maxGasPrice := Configuration.gwei 20;
                           Configuration.minGasPrice := Configuration.gwei 1 |})
                     quote)
                  ltac:(vm_compute; discriminate)) as [Hin _].
    cbn [Configuration.estimatorView GasOptimizer.minGasPrice GasOptimizer.maxGasPrice
         Configuration.minGasPrice Configuration.maxGasPrice] in *.
    split; exact Hin. }
  destruct (String.eqb_spec key "hardhat") as [Hlocal|_].
  { rewrite Hlocal in Haddresses. vm_compute in Haddresses. discriminate. }
  destruct (existsb _ _); discriminate.
Qed.

Lemma constructed_network_bounds_gas_witness :
  ∃ gasPrice,
    (GasOptimizer.estimateOptimalGasPrice
       (Configuration.estimatorView ConfigurationCases.testnetRow)
       (Js.Returned (GasOptimizer.mkFeeData (Some 90000000000))) 0
       GasOptimizer.new).1
    = Js.Returned gasPrice
    ∧ Configuration.minGasPrice ConfigurationCases.testnetRow <= gasPrice
      <= Configuration.maxGasPrice ConfigurationCases.testnetRow.
Proof.
  destruct (constructed_network_bounds_gas ConfigurationCases.decimal
              ConfigurationCases.half ConfigurationCases.belowTenth
              ConfigurationCases.above50 ConfigurationCases.anyKey
              ConfigurationCases.testnet
              (Configuration.loadEnvironmentConfig ConfigurationCases.decimal
                 ConfigurationCases.half ConfigurationCases.testnet)
              ConfigurationCases.testnetRow 90000000000 0 GasOptimizer.new
              eq_refl eq_refl)
    as (gasPrice & Hrun & Hbounds & _).
  exists gasPrice. split; [exact Hrun|exact Hbounds].
Defined.
